(** * kubevirt-rbac-webhook: the VirtualMachine admission validator

    A shallow embedding of
      - internal/webhook/v1/field_permission_checkers.go
      - internal/webhook/v1/virtualmachine_webhook.go
    and the properties of the update-validation pipeline.

    Conventions of the embedding.
      - Go slices and maps are compared by [equality.Semantic.DeepEqual],
        which identifies a nil slice (map) with an empty one; slices are
        [list]s and maps are [gmap]s, so [nil] and the empty literal coincide.
      - A Go pointer field is an [option]; dereferencing [None] is the
        nil-pointer panic, written [Fault] / [None] below.
      - The KubeVirt and apimachinery type declarations are not part of the
        repository.  The fields the webhook reads or writes are record
        fields here; everything else of a struct is carried in a field
        of the abstract type [Opaque], whose equality stands for
        [equality.Semantic.DeepEqual] on that part. *)

From stdpp Require Import base decidable option list strings gmap.

Set Default Proof Using "Type".

(** ** The effect monad: a trace of observable calls and a Go result *)

(** What a Go call can end in: a value, a returned [error] (its message), or
    a run-time panic (nil-pointer dereference). *)
Inductive res (A : Type) : Type :=
| Val (a : A)
| Exc (e : string)
| Fault.
Arguments Val {A} a.
Arguments Exc {A} e.
Arguments Fault {A}.

(** The calls a validation run makes, in program order. *)
Inductive Event : Type :=
| LogInfo (msg name : string)
| CheckPermissionCall (namespace vmName subresource : string)
| DeepCopyCall
| HasChangedCall (checker : string)
| NeutralizeCall (checker : string)
| NormalizeSystemMetadataCall.

Record M (A : Type) : Type := Run { trace : list Event; result : res A }.
Arguments Run {A} trace result.
Arguments trace {A} m.
Arguments result {A} m.

Definition ret {A} (a : A) : M A := Run [] (Val a).

Definition bind {A B} (f : A -> M B) (m : M A) : M B :=
  match result m with
  | Val a => Run (trace m ++ trace (f a)) (result (f a))
  | Exc e => Run (trace m) (Exc e)
  | Fault => Run (trace m) Fault
  end.

#[global] Instance M_ret : MRet M := @ret.
#[global] Instance M_bind : MBind M := @bind.

Definition emit (ev : Event) : M unit := Run [ev] (Val tt).
Definition raise {A} (e : string) : M A := Run [] (Exc e).
Definition panic {A} : M A := Run [] Fault.

(** A partial Go expression (one that may dereference nil) run in [M]. *)
Definition deref {A} (o : option A) : M A :=
  match o with
  | Some a => ret a
  | None => panic
  end.

#[global] Instance res_eq_dec {A} `{EqDecision A} : EqDecision (res A).
Proof. solve_decision. Defined.
#[global] Instance Event_eq_dec : EqDecision Event.
Proof. solve_decision. Defined.

Section Webhook.

(** The parts of the API types that the webhook never looks into. *)
Context {Opaque : Type} `{!EqDecision Opaque}.

(** ** Data model (kubevirt.io/api/core/v1, metav1) *)

(** [DataVolumeSource] and [PersistentVolumeClaimVolumeSource]: both carry the
    [Hotpluggable] flag read by [isVolumeHotpluggable]. *)
Record DataVolumeSource : Type := {
  DataVolumeSource_Name : string;
  DataVolumeSource_Hotpluggable : bool }.

Record PersistentVolumeClaimVolumeSource : Type := {
  PersistentVolumeClaimVolumeSource_Claim : Opaque;
  PersistentVolumeClaimVolumeSource_Hotpluggable : bool }.

Record Volume : Type := {
  Volume_Name : string;
  Volume_DataVolume : option DataVolumeSource;
  Volume_PersistentVolumeClaim : option PersistentVolumeClaimVolumeSource;
  Volume_other : Opaque }.

Record Disk : Type := {
  Disk_Name : string;
  Disk_CDRom : option Opaque;
  Disk_other : Opaque }.

Record Devices : Type := {
  Devices_Disks : list Disk;
  Devices_Interfaces : list Opaque;
  Devices_Filesystems : list Opaque;
  Devices_GPUs : list Opaque;
  Devices_HostDevices : list Opaque;
  Devices_Watchdog : option Opaque;
  Devices_TPM : option Opaque;
  Devices_Inputs : list Opaque;
  Devices_other : Opaque }.

(** [kubevirtiov1.ResourceRequirements]; the webhook only compares it and
    overwrites it with its zero value. *)
Record ResourceRequirements : Type := {
  ResourceRequirements_Requests : gmap string Opaque;
  ResourceRequirements_Limits : gmap string Opaque;
  ResourceRequirements_OvercommitGuestOverhead : bool }.

(** The Go zero value [kubevirtiov1.ResourceRequirements{}]. *)
Definition ResourceRequirements_zero : ResourceRequirements :=
  {| ResourceRequirements_Requests := ∅;
     ResourceRequirements_Limits := ∅;
     ResourceRequirements_OvercommitGuestOverhead := false |}.

Record DomainSpec : Type := {
  DomainSpec_CPU : option Opaque;
  DomainSpec_Resources : ResourceRequirements;
  DomainSpec_Devices : Devices;
  DomainSpec_other : Opaque }.

Record VirtualMachineInstanceSpec : Type := {
  VirtualMachineInstanceSpec_Domain : DomainSpec;
  VirtualMachineInstanceSpec_Volumes : list Volume;
  VirtualMachineInstanceSpec_Networks : list Opaque;
  VirtualMachineInstanceSpec_other : Opaque }.

Record VirtualMachineInstanceTemplateSpec : Type := {
  Template_ObjectMeta : Opaque;
  Template_Spec : VirtualMachineInstanceSpec }.

Record VirtualMachineSpec : Type := {
  Spec_Running : option bool;
  Spec_RunStrategy : option string;
  Spec_Template : option VirtualMachineInstanceTemplateSpec;
  Spec_other : Opaque }.

(** [metav1.ObjectMeta].  Times are instants counted from Go's zero
    [time.Time], so [metav1.Time{}] is [0]. *)
Record ObjectMeta : Type := {
  ObjectMeta_Name : string;
  ObjectMeta_GenerateName : string;
  ObjectMeta_Namespace : string;
  ObjectMeta_SelfLink : string;
  ObjectMeta_UID : string;
  ObjectMeta_ResourceVersion : string;
  ObjectMeta_Generation : Z;
  ObjectMeta_CreationTimestamp : Z;
  ObjectMeta_DeletionTimestamp : option Z;
  ObjectMeta_DeletionGracePeriodSeconds : option Z;
  ObjectMeta_Labels : gmap string string;
  ObjectMeta_Annotations : gmap string string;
  ObjectMeta_OwnerReferences : list Opaque;
  ObjectMeta_Finalizers : list string;
  ObjectMeta_ManagedFields : list Opaque }.

Record VirtualMachine : Type := {
  VM_ObjectMeta : ObjectMeta;
  VM_Spec : VirtualMachineSpec;
  VM_Status : Opaque }.

#[global] Instance DataVolumeSource_eq_dec : EqDecision DataVolumeSource.
Proof using Type*. solve_decision. Defined.
#[global] Instance PersistentVolumeClaimVolumeSource_eq_dec :
  EqDecision PersistentVolumeClaimVolumeSource.
Proof using Type*. solve_decision. Defined.
#[global] Instance Volume_eq_dec : EqDecision Volume.
Proof using Type*. solve_decision. Defined.
#[global] Instance Disk_eq_dec : EqDecision Disk.
Proof using Type*. solve_decision. Defined.
#[global] Instance Devices_eq_dec : EqDecision Devices.
Proof using Type*. solve_decision. Defined.
#[global] Instance ResourceRequirements_eq_dec : EqDecision ResourceRequirements.
Proof using Type*. solve_decision. Defined.
#[global] Instance DomainSpec_eq_dec : EqDecision DomainSpec.
Proof using Type*. solve_decision. Defined.
#[global] Instance VirtualMachineInstanceSpec_eq_dec :
  EqDecision VirtualMachineInstanceSpec.
Proof using Type*. solve_decision. Defined.
#[global] Instance VirtualMachineInstanceTemplateSpec_eq_dec :
  EqDecision VirtualMachineInstanceTemplateSpec.
Proof using Type*. solve_decision. Defined.
#[global] Instance VirtualMachineSpec_eq_dec : EqDecision VirtualMachineSpec.
Proof using Type*. solve_decision. Defined.
#[global] Instance ObjectMeta_eq_dec : EqDecision ObjectMeta.
Proof using Type*. solve_decision. Defined.
#[global] Instance VirtualMachine_eq_dec : EqDecision VirtualMachine.
Proof using Type*. solve_decision. Defined.

(** [equality.Semantic.DeepEqual] on two values of one type. *)
Definition DeepEqual {A} `{EqDecision A} (a b : A) : bool := bool_decide (a = b).

(** Field updates written [x.f = v] in Go. *)
Definition with_Volumes (t : VirtualMachineInstanceTemplateSpec) (v : list Volume)
  : VirtualMachineInstanceTemplateSpec :=
  {| Template_ObjectMeta := Template_ObjectMeta t;
     Template_Spec :=
       {| VirtualMachineInstanceSpec_Domain :=
            VirtualMachineInstanceSpec_Domain (Template_Spec t);
          VirtualMachineInstanceSpec_Volumes := v;
          VirtualMachineInstanceSpec_Networks :=
            VirtualMachineInstanceSpec_Networks (Template_Spec t);
          VirtualMachineInstanceSpec_other :=
            VirtualMachineInstanceSpec_other (Template_Spec t) |} |}.

Definition with_Networks (t : VirtualMachineInstanceTemplateSpec) (n : list Opaque)
  : VirtualMachineInstanceTemplateSpec :=
  {| Template_ObjectMeta := Template_ObjectMeta t;
     Template_Spec :=
       {| VirtualMachineInstanceSpec_Domain :=
            VirtualMachineInstanceSpec_Domain (Template_Spec t);
          VirtualMachineInstanceSpec_Volumes :=
            VirtualMachineInstanceSpec_Volumes (Template_Spec t);
          VirtualMachineInstanceSpec_Networks := n;
          VirtualMachineInstanceSpec_other :=
            VirtualMachineInstanceSpec_other (Template_Spec t) |} |}.

Definition with_Domain (t : VirtualMachineInstanceTemplateSpec) (d : DomainSpec)
  : VirtualMachineInstanceTemplateSpec :=
  {| Template_ObjectMeta := Template_ObjectMeta t;
     Template_Spec :=
       {| VirtualMachineInstanceSpec_Domain := d;
          VirtualMachineInstanceSpec_Volumes :=
            VirtualMachineInstanceSpec_Volumes (Template_Spec t);
          VirtualMachineInstanceSpec_Networks :=
            VirtualMachineInstanceSpec_Networks (Template_Spec t);
          VirtualMachineInstanceSpec_other :=
            VirtualMachineInstanceSpec_other (Template_Spec t) |} |}.

Definition with_CPU (d : DomainSpec) (c : option Opaque) : DomainSpec :=
  {| DomainSpec_CPU := c;
     DomainSpec_Resources := DomainSpec_Resources d;
     DomainSpec_Devices := DomainSpec_Devices d;
     DomainSpec_other := DomainSpec_other d |}.

Definition with_Resources (d : DomainSpec) (r : ResourceRequirements) : DomainSpec :=
  {| DomainSpec_CPU := DomainSpec_CPU d;
     DomainSpec_Resources := r;
     DomainSpec_Devices := DomainSpec_Devices d;
     DomainSpec_other := DomainSpec_other d |}.

Definition with_Devices (d : DomainSpec) (dev : Devices) : DomainSpec :=
  {| DomainSpec_CPU := DomainSpec_CPU d;
     DomainSpec_Resources := DomainSpec_Resources d;
     DomainSpec_Devices := dev;
     DomainSpec_other := DomainSpec_other d |}.

Definition with_Disks (dev : Devices) (v : list Disk) : Devices :=
  {| Devices_Disks := v;
     Devices_Interfaces := Devices_Interfaces dev;
     Devices_Filesystems := Devices_Filesystems dev;
     Devices_GPUs := Devices_GPUs dev;
     Devices_HostDevices := Devices_HostDevices dev;
     Devices_Watchdog := Devices_Watchdog dev;
     Devices_TPM := Devices_TPM dev;
     Devices_Inputs := Devices_Inputs dev;
     Devices_other := Devices_other dev |}.

Definition with_Interfaces (dev : Devices) (v : list Opaque) : Devices :=
  {| Devices_Disks := Devices_Disks dev;
     Devices_Interfaces := v;
     Devices_Filesystems := Devices_Filesystems dev;
     Devices_GPUs := Devices_GPUs dev;
     Devices_HostDevices := Devices_HostDevices dev;
     Devices_Watchdog := Devices_Watchdog dev;
     Devices_TPM := Devices_TPM dev;
     Devices_Inputs := Devices_Inputs dev;
     Devices_other := Devices_other dev |}.

Definition with_Filesystems (dev : Devices) (v : list Opaque) : Devices :=
  {| Devices_Disks := Devices_Disks dev;
     Devices_Interfaces := Devices_Interfaces dev;
     Devices_Filesystems := v;
     Devices_GPUs := Devices_GPUs dev;
     Devices_HostDevices := Devices_HostDevices dev;
     Devices_Watchdog := Devices_Watchdog dev;
     Devices_TPM := Devices_TPM dev;
     Devices_Inputs := Devices_Inputs dev;
     Devices_other := Devices_other dev |}.

Definition with_GPUs (dev : Devices) (v : list Opaque) : Devices :=
  {| Devices_Disks := Devices_Disks dev;
     Devices_Interfaces := Devices_Interfaces dev;
     Devices_Filesystems := Devices_Filesystems dev;
     Devices_GPUs := v;
     Devices_HostDevices := Devices_HostDevices dev;
     Devices_Watchdog := Devices_Watchdog dev;
     Devices_TPM := Devices_TPM dev;
     Devices_Inputs := Devices_Inputs dev;
     Devices_other := Devices_other dev |}.

Definition with_HostDevices (dev : Devices) (v : list Opaque) : Devices :=
  {| Devices_Disks := Devices_Disks dev;
     Devices_Interfaces := Devices_Interfaces dev;
     Devices_Filesystems := Devices_Filesystems dev;
     Devices_GPUs := Devices_GPUs dev;
     Devices_HostDevices := v;
     Devices_Watchdog := Devices_Watchdog dev;
     Devices_TPM := Devices_TPM dev;
     Devices_Inputs := Devices_Inputs dev;
     Devices_other := Devices_other dev |}.

Definition with_Watchdog (dev : Devices) (v : option Opaque) : Devices :=
  {| Devices_Disks := Devices_Disks dev;
     Devices_Interfaces := Devices_Interfaces dev;
     Devices_Filesystems := Devices_Filesystems dev;
     Devices_GPUs := Devices_GPUs dev;
     Devices_HostDevices := Devices_HostDevices dev;
     Devices_Watchdog := v;
     Devices_TPM := Devices_TPM dev;
     Devices_Inputs := Devices_Inputs dev;
     Devices_other := Devices_other dev |}.

Definition with_TPM (dev : Devices) (v : option Opaque) : Devices :=
  {| Devices_Disks := Devices_Disks dev;
     Devices_Interfaces := Devices_Interfaces dev;
     Devices_Filesystems := Devices_Filesystems dev;
     Devices_GPUs := Devices_GPUs dev;
     Devices_HostDevices := Devices_HostDevices dev;
     Devices_Watchdog := Devices_Watchdog dev;
     Devices_TPM := v;
     Devices_Inputs := Devices_Inputs dev;
     Devices_other := Devices_other dev |}.

Definition with_Inputs (dev : Devices) (v : list Opaque) : Devices :=
  {| Devices_Disks := Devices_Disks dev;
     Devices_Interfaces := Devices_Interfaces dev;
     Devices_Filesystems := Devices_Filesystems dev;
     Devices_GPUs := Devices_GPUs dev;
     Devices_HostDevices := Devices_HostDevices dev;
     Devices_Watchdog := Devices_Watchdog dev;
     Devices_TPM := Devices_TPM dev;
     Devices_Inputs := v;
     Devices_other := Devices_other dev |}.

(** [t.Spec.Domain.Devices.f = v], as an update of the template. *)
Definition update_Devices (t : VirtualMachineInstanceTemplateSpec)
  (f : Devices -> Devices) : VirtualMachineInstanceTemplateSpec :=
  with_Domain t
    (with_Devices (VirtualMachineInstanceSpec_Domain (Template_Spec t))
       (f (DomainSpec_Devices (VirtualMachineInstanceSpec_Domain (Template_Spec t))))).

(** [t.Spec.Domain.f = v], as an update of the template. *)
Definition update_Domain (t : VirtualMachineInstanceTemplateSpec)
  (f : DomainSpec -> DomainSpec) : VirtualMachineInstanceTemplateSpec :=
  with_Domain t (f (VirtualMachineInstanceSpec_Domain (Template_Spec t))).

Definition with_Running (vm : VirtualMachine) (r : option bool) : VirtualMachine :=
  {| VM_ObjectMeta := VM_ObjectMeta vm;
     VM_Spec :=
       {| Spec_Running := r;
          Spec_RunStrategy := Spec_RunStrategy (VM_Spec vm);
          Spec_Template := Spec_Template (VM_Spec vm);
          Spec_other := Spec_other (VM_Spec vm) |};
     VM_Status := VM_Status vm |}.

Definition with_RunStrategy (vm : VirtualMachine) (r : option string) : VirtualMachine :=
  {| VM_ObjectMeta := VM_ObjectMeta vm;
     VM_Spec :=
       {| Spec_Running := Spec_Running (VM_Spec vm);
          Spec_RunStrategy := r;
          Spec_Template := Spec_Template (VM_Spec vm);
          Spec_other := Spec_other (VM_Spec vm) |};
     VM_Status := VM_Status vm |}.

Definition with_Template (vm : VirtualMachine)
  (t : option VirtualMachineInstanceTemplateSpec) : VirtualMachine :=
  {| VM_ObjectMeta := VM_ObjectMeta vm;
     VM_Spec :=
       {| Spec_Running := Spec_Running (VM_Spec vm);
          Spec_RunStrategy := Spec_RunStrategy (VM_Spec vm);
          Spec_Template := t;
          Spec_other := Spec_other (VM_Spec vm) |};
     VM_Status := VM_Status vm |}.

Definition with_ObjectMeta (vm : VirtualMachine) (m : ObjectMeta) : VirtualMachine :=
  {| VM_ObjectMeta := m; VM_Spec := VM_Spec vm; VM_Status := VM_Status vm |}.

(** Paths below [Spec.Template], read once the pointer is known non-nil. *)
Definition Template_Domain (t : VirtualMachineInstanceTemplateSpec) : DomainSpec :=
  VirtualMachineInstanceSpec_Domain (Template_Spec t).
Definition Template_Devices (t : VirtualMachineInstanceTemplateSpec) : Devices :=
  DomainSpec_Devices (Template_Domain t).
Definition Template_Volumes (t : VirtualMachineInstanceTemplateSpec) : list Volume :=
  VirtualMachineInstanceSpec_Volumes (Template_Spec t).
Definition Template_Networks (t : VirtualMachineInstanceTemplateSpec) : list Opaque :=
  VirtualMachineInstanceSpec_Networks (Template_Spec t).
Definition Template_Disks (t : VirtualMachineInstanceTemplateSpec) : list Disk :=
  Devices_Disks (Template_Devices t).

Definition VM_Template (vm : VirtualMachine) : option VirtualMachineInstanceTemplateSpec :=
  Spec_Template (VM_Spec vm).

(** [m[k]] on a Go [map[string]bool]: a missing key reads [false]. *)
Definition index_bool (m : gmap string bool) (k : string) : bool :=
  default false (m !! k).

(** ** field_permission_checkers.go *)

(** The interface [FieldPermissionChecker].  [HasChanged] is [None] when the
    Go method panics; [Neutralize] mutates both copies and so returns both. *)
Record FieldPermissionChecker : Type := {
  Name : string;
  Subresource : string;
  HasChanged : VirtualMachine -> VirtualMachine -> option bool;
  Neutralize : VirtualMachine -> VirtualMachine -> VirtualMachine * VirtualMachine }.

(** *** StoragePermissionChecker *)

(** Lines 60-79.  [oldVM.Spec.Template.Spec.Volumes] dereferences the
    template pointer with no nil test: a nil template in either snapshot is a
    panic. *)
Definition Storage_HasChanged (oldVM newVM : VirtualMachine) : option bool :=
  ot ← VM_Template oldVM;
  nt ← VM_Template newVM;
  let volumesChanged := negb (DeepEqual (Template_Volumes ot) (Template_Volumes nt)) in
  let disksChanged := negb (DeepEqual (Template_Disks ot) (Template_Disks nt)) in
  let filesystemsChanged :=
    negb (DeepEqual (Devices_Filesystems (Template_Devices ot))
                    (Devices_Filesystems (Template_Devices nt))) in
  Some (volumesChanged || disksChanged || filesystemsChanged).

Definition Storage_clear (t : VirtualMachineInstanceTemplateSpec)
  : VirtualMachineInstanceTemplateSpec :=
  let t := with_Volumes t [] in
  let t := update_Devices t (fun dev => with_Disks dev []) in
  update_Devices t (fun dev => with_Filesystems dev []).

Definition Storage_Neutralize (oldVM newVM : VirtualMachine)
  : VirtualMachine * VirtualMachine :=
  match VM_Template oldVM, VM_Template newVM with
  | Some ot, Some nt =>
      (with_Template oldVM (Some (Storage_clear ot)),
       with_Template newVM (Some (Storage_clear nt)))
  | _, _ => (oldVM, newVM)
  end.

Definition StoragePermissionChecker : FieldPermissionChecker :=
  {| Name := "storage";
     Subresource := "virtualmachines/storage-admin";
     HasChanged := Storage_HasChanged;
     Neutralize := Storage_Neutralize |}.

(** *** CdromUserPermissionChecker *)

Definition getCdromDisks (vm : VirtualMachine) : list Disk :=
  match VM_Template vm with
  | None => []
  | Some t =>
      foldl (fun cdromDisks disk =>
               match Disk_CDRom disk with
               | Some _ => cdromDisks ++ [disk]
               | None => cdromDisks
               end) [] (Template_Disks t)
  end.

Definition isVolumeHotpluggable (volume : Volume) : bool :=
  if match Volume_DataVolume volume with
     | Some dv => DataVolumeSource_Hotpluggable dv
     | None => false
     end
  then true
  else if match Volume_PersistentVolumeClaim volume with
          | Some pvc => PersistentVolumeClaimVolumeSource_Hotpluggable pvc
          | None => false
          end
  then true
  else false.

(** Lines 188-193: the name set of the CD-ROM disks. *)
Definition cdromDiskNamesOf (disks : list Disk) : gmap string bool :=
  foldl (fun names disk =>
           match Disk_CDRom disk with
           | Some _ => <[Disk_Name disk := true]> names
           | None => names
           end) ∅ disks.

Definition getHotpluggableCdromVolumes (vm : VirtualMachine) : list Volume :=
  match VM_Template vm with
  | None => []
  | Some t =>
      let cdromDiskNames := cdromDiskNamesOf (Template_Disks t) in
      foldl (fun acc volume =>
               if index_bool cdromDiskNames (Volume_Name volume)
               then if isVolumeHotpluggable volume then acc ++ [volume] else acc
               else acc) [] (Template_Volumes t)
  end.

Definition getHotpluggableCdromVolumeNames (vm : VirtualMachine) : gmap string bool :=
  foldl (fun names vol => <[Volume_Name vol := true]> names) ∅
        (getHotpluggableCdromVolumes vm).

Definition filterOutVolumes (volumes : list Volume) (namesToRemove : gmap string bool)
  : list Volume :=
  foldl (fun filtered vol =>
           if negb (index_bool namesToRemove (Volume_Name vol))
           then filtered ++ [vol] else filtered) [] volumes.

(** Lines 113-134. *)
Definition Cdrom_HasChanged (oldVM newVM : VirtualMachine) : option bool :=
  let oldCdromDisks := getCdromDisks oldVM in
  let newCdromDisks := getCdromDisks newVM in
  if negb (DeepEqual oldCdromDisks newCdromDisks) then Some false
  else
    let oldCdromVolumes := getHotpluggableCdromVolumes oldVM in
    let newCdromVolumes := getHotpluggableCdromVolumes newVM in
    Some (negb (DeepEqual oldCdromVolumes newCdromVolumes)).

(** [for name := range m { cdromNames[name] = true }]. *)
Definition add_keys (m : gmap string bool) (cdromNames : gmap string bool)
  : gmap string bool :=
  map_fold (fun name _ acc => <[name := true]> acc) cdromNames m.

(** Lines 136-162. *)
Definition Cdrom_Neutralize (oldVM newVM : VirtualMachine)
  : VirtualMachine * VirtualMachine :=
  match VM_Template oldVM, VM_Template newVM with
  | Some ot, Some nt =>
      let oldCdromNames := getHotpluggableCdromVolumeNames oldVM in
      let newCdromNames := getHotpluggableCdromVolumeNames newVM in
      let cdromNames := add_keys newCdromNames (add_keys oldCdromNames ∅) in
      (with_Template oldVM
         (Some (with_Volumes ot (filterOutVolumes (Template_Volumes ot) cdromNames))),
       with_Template newVM
         (Some (with_Volumes nt (filterOutVolumes (Template_Volumes nt) cdromNames))))
  | _, _ => (oldVM, newVM)
  end.

Definition CdromUserPermissionChecker : FieldPermissionChecker :=
  {| Name := "cdrom";
     Subresource := "virtualmachines/cdrom-user";
     HasChanged := Cdrom_HasChanged;
     Neutralize := Cdrom_Neutralize |}.

(** *** NetworkPermissionChecker *)

Definition Network_HasChanged (oldVM newVM : VirtualMachine) : option bool :=
  match VM_Template oldVM, VM_Template newVM with
  | Some ot, Some nt =>
      let interfacesChanged :=
        negb (DeepEqual (Devices_Interfaces (Template_Devices ot))
                        (Devices_Interfaces (Template_Devices nt))) in
      let networksChanged :=
        negb (DeepEqual (Template_Networks ot) (Template_Networks nt)) in
      Some (interfacesChanged || networksChanged)
  | _, _ => Some false
  end.

Definition Network_clear (t : VirtualMachineInstanceTemplateSpec)
  : VirtualMachineInstanceTemplateSpec :=
  let t := update_Devices t (fun dev => with_Interfaces dev []) in
  with_Networks t [].

Definition Network_Neutralize (oldVM newVM : VirtualMachine)
  : VirtualMachine * VirtualMachine :=
  match VM_Template oldVM, VM_Template newVM with
  | Some ot, Some nt =>
      (with_Template oldVM (Some (Network_clear ot)),
       with_Template newVM (Some (Network_clear nt)))
  | _, _ => (oldVM, newVM)
  end.

Definition NetworkPermissionChecker : FieldPermissionChecker :=
  {| Name := "network";
     Subresource := "virtualmachines/network-admin";
     HasChanged := Network_HasChanged;
     Neutralize := Network_Neutralize |}.

(** *** ComputePermissionChecker *)

Definition Compute_HasChanged (oldVM newVM : VirtualMachine) : option bool :=
  match VM_Template oldVM, VM_Template newVM with
  | Some ot, Some nt =>
      let cpuChanged :=
        negb (DeepEqual (DomainSpec_CPU (Template_Domain ot))
                        (DomainSpec_CPU (Template_Domain nt))) in
      let resourcesChanged :=
        negb (DeepEqual (DomainSpec_Resources (Template_Domain ot))
                        (DomainSpec_Resources (Template_Domain nt))) in
      Some (cpuChanged || resourcesChanged)
  | _, _ => Some false
  end.

Definition Compute_clear (t : VirtualMachineInstanceTemplateSpec)
  : VirtualMachineInstanceTemplateSpec :=
  let t := update_Domain t (fun d => with_CPU d None) in
  update_Domain t (fun d => with_Resources d ResourceRequirements_zero).

Definition Compute_Neutralize (oldVM newVM : VirtualMachine)
  : VirtualMachine * VirtualMachine :=
  match VM_Template oldVM, VM_Template newVM with
  | Some ot, Some nt =>
      (with_Template oldVM (Some (Compute_clear ot)),
       with_Template newVM (Some (Compute_clear nt)))
  | _, _ => (oldVM, newVM)
  end.

Definition ComputePermissionChecker : FieldPermissionChecker :=
  {| Name := "compute";
     Subresource := "virtualmachines/compute-admin";
     HasChanged := Compute_HasChanged;
     Neutralize := Compute_Neutralize |}.

(** *** DevicesPermissionChecker *)

Definition Devices_HasChanged (oldVM newVM : VirtualMachine) : option bool :=
  match VM_Template oldVM, VM_Template newVM with
  | Some ot, Some nt =>
      let oldDevices := Template_Devices ot in
      let newDevices := Template_Devices nt in
      let gpusChanged :=
        negb (DeepEqual (Devices_GPUs oldDevices) (Devices_GPUs newDevices)) in
      let hostDevicesChanged :=
        negb (DeepEqual (Devices_HostDevices oldDevices) (Devices_HostDevices newDevices)) in
      let watchdogChanged :=
        negb (DeepEqual (Devices_Watchdog oldDevices) (Devices_Watchdog newDevices)) in
      let tpmChanged :=
        negb (DeepEqual (Devices_TPM oldDevices) (Devices_TPM newDevices)) in
      let inputsChanged :=
        negb (DeepEqual (Devices_Inputs oldDevices) (Devices_Inputs newDevices)) in
      Some (gpusChanged || hostDevicesChanged || watchdogChanged || tpmChanged
            || inputsChanged)
  | _, _ => Some false
  end.

Definition Devices_clear (t : VirtualMachineInstanceTemplateSpec)
  : VirtualMachineInstanceTemplateSpec :=
  let t := update_Devices t (fun dev => with_GPUs dev []) in
  let t := update_Devices t (fun dev => with_HostDevices dev []) in
  let t := update_Devices t (fun dev => with_Watchdog dev None) in
  let t := update_Devices t (fun dev => with_TPM dev None) in
  update_Devices t (fun dev => with_Inputs dev []).

Definition Devices_Neutralize (oldVM newVM : VirtualMachine)
  : VirtualMachine * VirtualMachine :=
  match VM_Template oldVM, VM_Template newVM with
  | Some ot, Some nt =>
      (with_Template oldVM (Some (Devices_clear ot)),
       with_Template newVM (Some (Devices_clear nt)))
  | _, _ => (oldVM, newVM)
  end.

Definition DevicesPermissionChecker : FieldPermissionChecker :=
  {| Name := "devices";
     Subresource := "virtualmachines/devices-admin";
     HasChanged := Devices_HasChanged;
     Neutralize := Devices_Neutralize |}.

(** *** LifecyclePermissionChecker *)

Definition Lifecycle_HasChanged (oldVM newVM : VirtualMachine) : option bool :=
  let runningChanged :=
    negb (DeepEqual (Spec_Running (VM_Spec oldVM)) (Spec_Running (VM_Spec newVM))) in
  let runStrategyChanged :=
    negb (DeepEqual (Spec_RunStrategy (VM_Spec oldVM))
                    (Spec_RunStrategy (VM_Spec newVM))) in
  Some (runningChanged || runStrategyChanged).

Definition Lifecycle_clear (vm : VirtualMachine) : VirtualMachine :=
  with_RunStrategy (with_Running vm None) None.

Definition Lifecycle_Neutralize (oldVM newVM : VirtualMachine)
  : VirtualMachine * VirtualMachine :=
  (Lifecycle_clear oldVM, Lifecycle_clear newVM).

Definition LifecyclePermissionChecker : FieldPermissionChecker :=
  {| Name := "lifecycle";
     Subresource := "virtualmachines/lifecycle-admin";
     HasChanged := Lifecycle_HasChanged;
     Neutralize := Lifecycle_Neutralize |}.

(** ** virtualmachine_webhook.go *)

(** [authenticationv1.UserInfo], as passed through to the oracle. *)
Record UserInfo : Type := {
  UserInfo_Username : string;
  UserInfo_UID : string;
  UserInfo_Groups : list string;
  UserInfo_Extra : Opaque }.

(** What [CheckPermission] returns: [(allowed, nil)] or [(false, err)]. *)
Inductive answer : Type :=
| Answer (allowed : bool)
| Failure (err : string).

(** The interface [PermissionChecker].  Within one request the backend is a
    function of the query. *)
Record PermissionChecker : Type := {
  CheckPermission : UserInfo -> string -> string -> string -> answer }.

Record VirtualMachineCustomValidator : Type := {
  FieldCheckers : list FieldPermissionChecker;
  Validator_PermissionChecker : PermissionChecker }.

(** A [runtime.Object]: a [*VirtualMachine], or a value of another dynamic
    type (printed by [%T]). *)
Inductive Object : Type :=
| VirtualMachineObject (vm : VirtualMachine)
| OtherObject (goType : string).

(** The admission request carried by the context; [RequestFromContext] is
    the result of [admission.RequestFromContext(ctx)]. *)
Record Request : Type := { Request_UserInfo : UserInfo }.
Record Context : Type := { RequestFromContext : Request + string }.

Definition GetName (vm : VirtualMachine) : string := ObjectMeta_Name (VM_ObjectMeta vm).
Definition GetNamespace (vm : VirtualMachine) : string :=
  ObjectMeta_Namespace (VM_ObjectMeta vm).

(** The fixed order of [SetupVirtualMachineWebhookWithManager]. *)
Definition SetupFieldCheckers : list FieldPermissionChecker :=
  [ NetworkPermissionChecker;
    ComputePermissionChecker;
    DevicesPermissionChecker;
    LifecyclePermissionChecker;
    CdromUserPermissionChecker;
    StoragePermissionChecker ].

Definition SetupValidator (pc : PermissionChecker) : VirtualMachineCustomValidator :=
  {| FieldCheckers := SetupFieldCheckers; Validator_PermissionChecker := pc |}.

(** Lines 123-132.  [Val tt] is the Go result [(nil, nil)]. *)
Definition ValidateCreate (v : VirtualMachineCustomValidator) (ctx : Context)
  (obj : Object) : M unit :=
  match obj with
  | OtherObject T => raise ("expected a VirtualMachine object but got " +:+ T)
  | VirtualMachineObject virtualmachine =>
      emit (LogInfo "Validation for VirtualMachine upon creation"
              (GetName virtualmachine));;
      mret tt
  end.

(** Lines 248-257. *)
Definition ValidateDelete (v : VirtualMachineCustomValidator) (ctx : Context)
  (obj : Object) : M unit :=
  match obj with
  | OtherObject T => raise ("expected a VirtualMachine object but got " +:+ T)
  | VirtualMachineObject virtualmachine =>
      emit (LogInfo "Validation for VirtualMachine upon deletion"
              (GetName virtualmachine));;
      mret tt
  end.

(** Lines 261-287, on one of the two metadata blocks. *)
Definition normalizeOne (meta : ObjectMeta) : ObjectMeta :=
  {| ObjectMeta_Name := ObjectMeta_Name meta;
     ObjectMeta_GenerateName := ObjectMeta_GenerateName meta;
     ObjectMeta_Namespace := ObjectMeta_Namespace meta;
     ObjectMeta_SelfLink := "";
     ObjectMeta_UID := "";
     ObjectMeta_ResourceVersion := "";
     ObjectMeta_Generation := 0;
     ObjectMeta_CreationTimestamp := 0;
     ObjectMeta_DeletionTimestamp := None;
     ObjectMeta_DeletionGracePeriodSeconds := None;
     ObjectMeta_Labels := ObjectMeta_Labels meta;
     ObjectMeta_Annotations := ObjectMeta_Annotations meta;
     ObjectMeta_OwnerReferences := ObjectMeta_OwnerReferences meta;
     ObjectMeta_Finalizers := ObjectMeta_Finalizers meta;
     ObjectMeta_ManagedFields := [] |}.

Definition normalizeSystemMetadata (oldMeta newMeta : ObjectMeta)
  : ObjectMeta * ObjectMeta :=
  (normalizeOne oldMeta, normalizeOne newMeta).

(** One oracle query, recorded in the trace. *)
Definition callCheckPermission (pc : PermissionChecker) (userInfo : UserInfo)
  (namespace vmName subresource : string) : M answer :=
  emit (CheckPermissionCall namespace vmName subresource);;
  mret (CheckPermission pc userInfo namespace vmName subresource).

(** Lines 186-195: the loop that fills [subresourcePermissions]. *)
Fixpoint checkSubresources (pc : PermissionChecker) (userInfo : UserInfo)
  (namespace vmName : string) (checkers : list FieldPermissionChecker)
  (subresourcePermissions : gmap string bool) (hasAnySubresource : bool)
  : M (gmap string bool * bool) :=
  match checkers with
  | [] => mret (subresourcePermissions, hasAnySubresource)
  | checker :: rest =>
      a ← callCheckPermission pc userInfo namespace vmName (Subresource checker);
      match a with
      | Failure err =>
          raise ("failed to check " +:+ Name checker +:+ " permission: " +:+ err)
      | Answer hasPermission =>
          checkSubresources pc userInfo namespace vmName rest
            (<[Subresource checker := hasPermission]> subresourcePermissions)
            (if hasPermission then true else hasAnySubresource)
      end
  end.

(** Lines 211-224: the loop over the working copies. *)
Fixpoint runFieldCheckers (checkers : list FieldPermissionChecker)
  (subresourcePermissions : gmap string bool) (oldCopy newCopy : VirtualMachine)
  : M (VirtualMachine * VirtualMachine) :=
  match checkers with
  | [] => mret (oldCopy, newCopy)
  | checker :: rest =>
      emit (HasChangedCall (Name checker));;
      changed ← deref (HasChanged checker oldCopy newCopy);
      if changed : bool then
        let hasPermission := index_bool subresourcePermissions (Subresource checker) in
        if hasPermission then
          emit (NeutralizeCall (Name checker));;
          let copies := Neutralize checker oldCopy newCopy in
          runFieldCheckers rest subresourcePermissions copies.1 copies.2
        else
          runFieldCheckers rest subresourcePermissions oldCopy newCopy
      else
        runFieldCheckers rest subresourcePermissions oldCopy newCopy
  end.

Definition errMetadata : string :=
  "user does not have permission to modify VirtualMachine metadata".
Definition errSpec : string :=
  "user does not have permission to modify one or more VirtualMachine spec fields".

(** Lines 229-244: normalisation and the residual comparison. *)
Definition residualVerdict (oldCopy newCopy : VirtualMachine) : M unit :=
  emit NormalizeSystemMetadataCall;;
  let metas := normalizeSystemMetadata (VM_ObjectMeta oldCopy) (VM_ObjectMeta newCopy) in
  let oldCopy := with_ObjectMeta oldCopy metas.1 in
  let newCopy := with_ObjectMeta newCopy metas.2 in
  let specChanged := negb (DeepEqual (VM_Spec oldCopy) (VM_Spec newCopy)) in
  let metadataChanged :=
    negb (DeepEqual (VM_ObjectMeta oldCopy) (VM_ObjectMeta newCopy)) in
  if specChanged || metadataChanged then
    if metadataChanged then raise errMetadata else raise errSpec
  else mret tt.

(** Lines 135-245. *)
Definition ValidateUpdate (v : VirtualMachineCustomValidator) (ctx : Context)
  (oldObj newObj : Object) : M unit :=
  match newObj with
  | OtherObject T =>
      raise ("expected a VirtualMachine object for the newObj but got " +:+ T)
  | VirtualMachineObject newVM =>
  match oldObj with
  | OtherObject T =>
      raise ("expected a VirtualMachine object for the oldObj but got " +:+ T)
  | VirtualMachineObject oldVM =>
  emit (LogInfo "Validation for VirtualMachine upon update" (GetName newVM));;
  match RequestFromContext ctx with
  | inr err => raise ("failed to get admission request from context: " +:+ err)
  | inl req =>
  let userInfo := Request_UserInfo req in
  let pc := Validator_PermissionChecker v in
  a ← callCheckPermission pc userInfo (GetNamespace newVM) (GetName newVM)
        "virtualmachines/full-admin";
  match a with
  | Failure err =>
      raise ("failed to check 'virtualmachines/full-admin' permission: " +:+ err)
  | Answer hasFullAdminPermission =>
  if hasFullAdminPermission then mret tt
  else
    r ← checkSubresources pc userInfo (GetNamespace newVM) (GetName newVM)
          (FieldCheckers v) ∅ false;
    let subresourcePermissions := r.1 in
    let hasAnySubresource := r.2 in
    if negb hasAnySubresource then mret tt
    else
      emit DeepCopyCall;;
      copies ← runFieldCheckers (FieldCheckers v) subresourcePermissions oldVM newVM;
      residualVerdict copies.1 copies.2
  end end end end.

(** ** Vocabulary of the statements *)

(** The events of an update validation, as they appear in traces. *)
Definition logUpdate (newVM : VirtualMachine) : Event :=
  LogInfo "Validation for VirtualMachine upon update" (GetName newVM).

Definition queryEvent (newVM : VirtualMachine) (subresource : string) : Event :=
  CheckPermissionCall (GetNamespace newVM) (GetName newVM) subresource.

Definition isQuery (ev : Event) : bool :=
  match ev with CheckPermissionCall _ _ _ => true | _ => false end.

(** The permission snapshot that the loop of Step 2 builds when the oracle
    answers [grant] on every token. *)
Definition snapshotOf (grant : string -> bool) (checkers : list FieldPermissionChecker)
  (init : gmap string bool) : gmap string bool :=
  foldl (fun m c => <[Subresource c := grant (Subresource c)]> m) init checkers.

Definition anyGranted (grant : string -> bool) (checkers : list FieldPermissionChecker)
  : bool :=
  existsb (fun c => grant (Subresource c)) checkers.

(** A volume is CD-ROM media when its name is that of a CD-ROM disk and it is
    hotpluggable. *)
Definition isCdromMedia (names : gmap string bool) (v : Volume) : Prop :=
  index_bool names (Volume_Name v) = true ∧ isVolumeHotpluggable v = true.

#[global] Instance isCdromMedia_dec names v : Decision (isCdromMedia names v).
Proof. unfold isCdromMedia. apply _. Defined.

End Webhook.

Arguments VirtualMachine : clear implicits.
Arguments VirtualMachineSpec : clear implicits.
Arguments VirtualMachineInstanceTemplateSpec : clear implicits.
Arguments VirtualMachineInstanceSpec : clear implicits.
Arguments DomainSpec : clear implicits.
Arguments ResourceRequirements : clear implicits.
Arguments Devices : clear implicits.
Arguments Disk : clear implicits.
Arguments Volume : clear implicits.
Arguments PersistentVolumeClaimVolumeSource : clear implicits.
Arguments ObjectMeta : clear implicits.
Arguments UserInfo : clear implicits.
Arguments Request : clear implicits.
Arguments Context : clear implicits.
Arguments Object : clear implicits.
Arguments PermissionChecker : clear implicits.
Arguments FieldPermissionChecker : clear implicits.
Arguments VirtualMachineCustomValidator : clear implicits.

(** ** The production oracle and the vocabulary of the pipeline properties *)

(** [authv1.SubjectAccessReview], as [CheckPermission] fills it: the fields
    of [Spec] and of its [ResourceAttributes]; [Extra] stays at its zero
    value. *)
Record SubjectAccessReview (Opaque : Type) : Type := {
  SAR_User : string;
  SAR_Groups : list string;
  SAR_UID : string;
  SAR_Extra : option Opaque;
  SAR_Namespace : string;
  SAR_Verb : string;
  SAR_Group : string;
  SAR_Resource : string;
  SAR_Name : string }.
Arguments SAR_User {Opaque} s.
Arguments SAR_Groups {Opaque} s.
Arguments SAR_UID {Opaque} s.
Arguments SAR_Extra {Opaque} s.
Arguments SAR_Namespace {Opaque} s.
Arguments SAR_Verb {Opaque} s.
Arguments SAR_Group {Opaque} s.
Arguments SAR_Resource {Opaque} s.
Arguments SAR_Name {Opaque} s.

Section Oracle.

Context {Opaque : Type} `{!EqDecision Opaque}.

(** Lines 86-99: the review that [CheckPermission] builds. *)
Definition reviewOf (userInfo : UserInfo Opaque) (namespace vmName subresource : string)
  : SubjectAccessReview Opaque :=
  {| SAR_User := UserInfo_Username userInfo;
     SAR_Groups := UserInfo_Groups userInfo;
     SAR_UID := UserInfo_UID userInfo;
     SAR_Extra := None;
     SAR_Namespace := namespace;
     SAR_Verb := "update";
     SAR_Group := "kubevirt.io";
     SAR_Resource := subresource;
     SAR_Name := vmName |}.

(** Lines 85-107.  [Create] is [p.Client.Create(ctx, sar)]: the error it
    returns, or the [Status.Allowed] the API server has filled in. *)
Definition SubjectAccessReviewPermissionChecker
  (Create : SubjectAccessReview Opaque -> bool + string) : PermissionChecker Opaque :=
  {| CheckPermission := fun userInfo namespace vmName subresource =>
       let sar := reviewOf userInfo namespace vmName subresource in
       match Create sar with
       | inr err => Failure ("failed to create SubjectAccessReview: " +:+ err)
       | inl allowed => Answer allowed
       end |}.

(** The two groups of [SetupVirtualMachineWebhookWithManager]. *)
Definition IndependentCheckers : list (FieldPermissionChecker Opaque) :=
  [ NetworkPermissionChecker;
    ComputePermissionChecker;
    DevicesPermissionChecker;
    LifecyclePermissionChecker ].

Definition HierarchicalCheckers : list (FieldPermissionChecker Opaque) :=
  [ CdromUserPermissionChecker; StoragePermissionChecker ].

(** The fields of [Spec] that no checker reads or clears. *)
Definition unownedPart (vm : VirtualMachine Opaque)
  : Opaque * option (Opaque * Opaque * Opaque * Opaque) :=
  (Spec_other (VM_Spec vm),
   (fun t => (Template_ObjectMeta t,
              VirtualMachineInstanceSpec_other (Template_Spec t),
              DomainSpec_other (Template_Domain t),
              Devices_other (Template_Devices t))) <$> VM_Template vm).

(** The fields the storage and CD-ROM checkers work on. *)
Definition storagePart (vm : VirtualMachine Opaque)
  : option (list (Volume Opaque) * list (Disk Opaque) * list Opaque) :=
  (fun t => (Template_Volumes t, Template_Disks t,
             Devices_Filesystems (Template_Devices t))) <$> VM_Template vm.

(** Both snapshots carry a template. *)
Definition withTemplates (oldVM newVM : VirtualMachine Opaque) : Prop :=
  is_Some (VM_Template oldVM) ∧ is_Some (VM_Template newVM).

(** The storage side of the decision: the storage checker reports no
    change, or the actor holds storage-admin, or holds cdrom-user, the CD-ROM
    checker reports a change and the storage checker reports none after the
    CD-ROM checker's [Neutralize]. *)
Definition storageAuthorized (grant : string -> bool)
  (oldVM newVM : VirtualMachine Opaque) : Prop :=
  grant "virtualmachines/storage-admin" = true
  ∨ Storage_HasChanged oldVM newVM = Some false
  ∨ (grant "virtualmachines/cdrom-user" = true
     ∧ Cdrom_HasChanged oldVM newVM = Some true
     ∧ Storage_HasChanged (Cdrom_Neutralize oldVM newVM).1
         (Cdrom_Neutralize oldVM newVM).2 = Some false).

(** What a holder of granular tokens may change in [Spec]: nothing outside
    the footprints, an independent footprint only with its token, and the
    storage footprint as [storageAuthorized] says. *)
Definition specAuthorized (grant : string -> bool)
  (oldVM newVM : VirtualMachine Opaque) : Prop :=
  unownedPart oldVM = unownedPart newVM
  ∧ (∀ c, c ∈ IndependentCheckers -> HasChanged c oldVM newVM = Some true ->
          grant (Subresource c) = true)
  ∧ storageAuthorized grant oldVM newVM.

(** What the independent checkers leave as it was when they turn the copies
    [o], [n] into [o'], [n']. *)
Definition sameOutside (o n o' n' : VirtualMachine Opaque) : Prop :=
  withTemplates o' n'
  ∧ VM_ObjectMeta o' = VM_ObjectMeta o ∧ VM_ObjectMeta n' = VM_ObjectMeta n
  ∧ unownedPart o' = unownedPart o ∧ unownedPart n' = unownedPart n
  ∧ Cdrom_HasChanged o' n' = Cdrom_HasChanged o n
  ∧ Storage_HasChanged o' n' = Storage_HasChanged o n
  ∧ Storage_HasChanged (Cdrom_Neutralize o' n').1 (Cdrom_Neutralize o' n').2
    = Storage_HasChanged (Cdrom_Neutralize o n).1 (Cdrom_Neutralize o n).2.

(** What the CD-ROM and storage checkers leave as it was. *)
Definition sameIndependent (o n o' n' : VirtualMachine Opaque) : Prop :=
  withTemplates o' n'
  ∧ VM_ObjectMeta o' = VM_ObjectMeta o ∧ VM_ObjectMeta n' = VM_ObjectMeta n
  ∧ unownedPart o' = unownedPart o ∧ unownedPart n' = unownedPart n
  ∧ ∀ c, c ∈ IndependentCheckers -> HasChanged c o' n' = HasChanged c o n.

(** A list that holds each independent checker once. *)
Definition independentOrder (l : list (FieldPermissionChecker Opaque)) : Prop :=
  (∀ c, c ∈ l -> c ∈ IndependentCheckers)
  ∧ NoDup (Subresource <$> l)
  ∧ (∀ c, c ∈ IndependentCheckers -> Subresource c ∈ Subresource <$> l).

(** The CD-ROM and the storage checker, in one order or the other. *)
Definition hierarchicalOrder (tail : list (FieldPermissionChecker Opaque)) : Prop :=
  tail = [CdromUserPermissionChecker; StoragePermissionChecker]
  ∨ tail = [StoragePermissionChecker; CdromUserPermissionChecker].

(** The user-authored metadata are unchanged. *)
Definition metadataUnchanged (oldVM newVM : VirtualMachine Opaque) : Prop :=
  normalizeOne (VM_ObjectMeta oldVM) = normalizeOne (VM_ObjectMeta newVM).

(** An actor without full-admin whose tokens are [grant], one of them held,
    as the oracle [pc] answers for the object [newVM]. *)
Definition granularActor (pc : PermissionChecker Opaque) (req : Request Opaque)
  (newVM : VirtualMachine Opaque) (grant : string -> bool) : Prop :=
  CheckPermission pc (Request_UserInfo req) (GetNamespace newVM) (GetName newVM)
    "virtualmachines/full-admin" = Answer false
  ∧ (∀ c : FieldPermissionChecker Opaque, c ∈ SetupFieldCheckers ->
       CheckPermission pc (Request_UserInfo req) (GetNamespace newVM) (GetName newVM)
         (Subresource c) = Answer (grant (Subresource c)))
  ∧ (∃ c : FieldPermissionChecker Opaque,
       c ∈ SetupFieldCheckers ∧ grant (Subresource c) = true).

(** The run of [ValidateUpdate] on two VirtualMachines, once the request is
    there: the log line, the full-admin query, and the rest. *)
Definition afterFullAdmin (v : VirtualMachineCustomValidator Opaque) (req : Request Opaque)
  (oldVM newVM : VirtualMachine Opaque) : M unit :=
  match CheckPermission (Validator_PermissionChecker v) (Request_UserInfo req)
          (GetNamespace newVM) (GetName newVM) "virtualmachines/full-admin" with
  | Failure err =>
      raise ("failed to check 'virtualmachines/full-admin' permission: " +:+ err)
  | Answer true => mret tt
  | Answer false =>
      checkSubresources (Validator_PermissionChecker v) (Request_UserInfo req)
        (GetNamespace newVM) (GetName newVM) (FieldCheckers v) ∅ false
      ≫= (fun r =>
            if negb r.2 then mret tt
            else emit DeepCopyCall;;
                 (runFieldCheckers (FieldCheckers v) r.1 oldVM newVM
                    ≫= (fun copies => residualVerdict copies.1 copies.2)))
  end.

End Oracle.

(** ** Fixtures of the unit tests, with [Opaque := nat] *)

(** [MockPermissionChecker] of the test suite: a fixed permission map, or an
    error on every query. *)
Definition MockPermissionChecker {Opaque : Type} (permissions : gmap string bool)
  (shouldError : bool) : PermissionChecker Opaque :=
  {| CheckPermission := fun _ _ _ subresource =>
       if shouldError then Failure "mock permission check error"
       else Answer (index_bool permissions subresource) |}.

Definition testMeta (labels : gmap string string) : ObjectMeta nat :=
  {| ObjectMeta_Name := "test-vm";
     ObjectMeta_GenerateName := "";
     ObjectMeta_Namespace := "default";
     ObjectMeta_SelfLink := "";
     ObjectMeta_UID := "";
     ObjectMeta_ResourceVersion := "";
     ObjectMeta_Generation := 0;
     ObjectMeta_CreationTimestamp := 0;
     ObjectMeta_DeletionTimestamp := None;
     ObjectMeta_DeletionGracePeriodSeconds := None;
     ObjectMeta_Labels := labels;
     ObjectMeta_Annotations := ∅;
     ObjectMeta_OwnerReferences := [];
     ObjectMeta_Finalizers := [];
     ObjectMeta_ManagedFields := [] |}.

Definition testTemplate (cores : nat) (disks : list (Disk nat))
  (volumes : list (Volume nat)) : VirtualMachineInstanceTemplateSpec nat :=
  {| Template_ObjectMeta := 0%nat;
     Template_Spec :=
       {| VirtualMachineInstanceSpec_Domain :=
            {| DomainSpec_CPU := Some cores;
               DomainSpec_Resources := ResourceRequirements_zero;
               DomainSpec_Devices :=
                 {| Devices_Disks := disks;
                    Devices_Interfaces := [];
                    Devices_Filesystems := [];
                    Devices_GPUs := [];
                    Devices_HostDevices := [];
                    Devices_Watchdog := None;
                    Devices_TPM := None;
                    Devices_Inputs := [];
                    Devices_other := 0%nat |};
               DomainSpec_other := 0%nat |};
          VirtualMachineInstanceSpec_Volumes := volumes;
          VirtualMachineInstanceSpec_Networks := [];
          VirtualMachineInstanceSpec_other := 0%nat |} |}.

Definition testVM (labels : gmap string string) (running : option bool)
  (template : option (VirtualMachineInstanceTemplateSpec nat)) : VirtualMachine nat :=
  {| VM_ObjectMeta := testMeta labels;
     VM_Spec :=
       {| Spec_Running := running;
          Spec_RunStrategy := None;
          Spec_Template := template;
          Spec_other := 0%nat |};
     VM_Status := 0%nat |}.

Definition disk1 : Disk nat :=
  {| Disk_Name := "disk1"; Disk_CDRom := None; Disk_other := 0%nat |}.
Definition cdromDisk : Disk nat :=
  {| Disk_Name := "cdrom1"; Disk_CDRom := Some 0%nat; Disk_other := 0%nat |}.
Definition volume1 : Volume nat :=
  {| Volume_Name := "volume1";
     Volume_DataVolume := None;
     Volume_PersistentVolumeClaim := None;
     Volume_other := 0%nat |}.
Definition isoVolume (iso : string) : Volume nat :=
  {| Volume_Name := "cdrom1";
     Volume_DataVolume :=
       Some {| DataVolumeSource_Name := iso; DataVolumeSource_Hotpluggable := true |};
     Volume_PersistentVolumeClaim := None;
     Volume_other := 0%nat |}.

(** The base VM of the tests: [cores] CPU cores, one disk, one volume. *)
Definition baseVM (cores : nat) : VirtualMachine nat :=
  testVM ∅ None (Some (testTemplate cores [disk1] [volume1])).

(** A VM with a CD-ROM drive and the given volumes. *)
Definition cdromVM (volumes : list (Volume nat)) : VirtualMachine nat :=
  testVM ∅ None (Some (testTemplate 2 [disk1; cdromDisk] volumes)).

(** A VM whose [Spec.Template] is nil. *)
Definition noTemplateVM (running : option bool) : VirtualMachine nat :=
  testVM ∅ running None.

Definition testRequest : Request nat :=
  {| Request_UserInfo :=
       {| UserInfo_Username := "test-user";
          UserInfo_UID := "";
          UserInfo_Groups := ["test-group"];
          UserInfo_Extra := 0%nat |} |}.

Definition testCtx : Context nat := {| RequestFromContext := inl testRequest |}.

(** The trace of a run that stops after the full-admin query. *)
Definition fullAdminEvents : list Event :=
  [LogInfo "Validation for VirtualMachine upon update" "test-vm";
   CheckPermissionCall "default" "test-vm" "virtualmachines/full-admin"].

(** The validator of the tests that grants exactly the listed subresources. *)
Definition testValidator (granted : list string) : VirtualMachineCustomValidator nat :=
  SetupValidator
    (MockPermissionChecker (list_to_map ((fun s => (s, true)) <$> granted)) false).

(** The API server of the tests: it creates every review and allows exactly
    the listed subresources. *)
Definition testCreate (allowed : list string) : SubjectAccessReview nat -> bool + string :=
  fun sar => inl (bool_decide (SAR_Resource sar ∈ allowed)).

(** An API server that fails to create the reviews of one subresource and
    denies the others. *)
Definition failingCreate (failing : string) : SubjectAccessReview nat -> bool + string :=
  fun sar =>
    if bool_decide (SAR_Resource sar = failing) then inr "connection refused"
    else inl false.

(** The request of a user with the name, UID and groups of [testRequest] and
    other [Extra] attributes. *)
Definition extraRequest : Request nat :=
  {| Request_UserInfo :=
       {| UserInfo_Username := "test-user";
          UserInfo_UID := "";
          UserInfo_Groups := ["test-group"];
          UserInfo_Extra := 1%nat |} |}.

(** The base VM with another value in the fields of [Spec] that no checker
    owns. *)
Definition otherFieldsVM : VirtualMachine nat :=
  {| VM_ObjectMeta := testMeta ∅;
     VM_Spec :=
       {| Spec_Running := None;
          Spec_RunStrategy := None;
          Spec_Template := Some (testTemplate 2 [disk1] [volume1]);
          Spec_other := 1%nat |};
     VM_Status := 0%nat |}.

(** The base VM as the API server returns it after a status update: new
    resource version, generation, managed fields and status. *)
Definition resyncedVM : VirtualMachine nat :=
  {| VM_ObjectMeta :=
       {| ObjectMeta_Name := "test-vm";
          ObjectMeta_GenerateName := "";
          ObjectMeta_Namespace := "default";
          ObjectMeta_SelfLink := "";
          ObjectMeta_UID := "";
          ObjectMeta_ResourceVersion := "2";
          ObjectMeta_Generation := 1;
          ObjectMeta_CreationTimestamp := 0;
          ObjectMeta_DeletionTimestamp := None;
          ObjectMeta_DeletionGracePeriodSeconds := None;
          ObjectMeta_Labels := ∅;
          ObjectMeta_Annotations := ∅;
          ObjectMeta_OwnerReferences := [];
          ObjectMeta_Finalizers := [];
          ObjectMeta_ManagedFields := [1%nat] |};
     VM_Spec := VM_Spec (baseVM 2);
     VM_Status := 1%nat |}.

(** A volume with the name of the CD-ROM drive that is not hotpluggable. *)
Definition fixedCdromVolume : Volume nat :=
  {| Volume_Name := "cdrom1";
     Volume_DataVolume := None;
     Volume_PersistentVolumeClaim := None;
     Volume_other := 1%nat |}.

(** A validator that runs the six checkers in another order. *)
Definition reorderedValidator (granted : list string) : VirtualMachineCustomValidator nat :=
  {| FieldCheckers :=
       [ LifecyclePermissionChecker; DevicesPermissionChecker;
         ComputePermissionChecker; NetworkPermissionChecker ]
       ++ [ StoragePermissionChecker; CdromUserPermissionChecker ];
     Validator_PermissionChecker :=
       MockPermissionChecker (list_to_map ((fun s => (s, true)) <$> granted)) false |}.

(** Case analysis on the six configured checkers. *)
Ltac checker_cases H :=
  unfold SetupFieldCheckers in H;
  repeat (apply elem_of_cons in H as [->|H]);
  [ .. | by apply elem_of_nil in H ].

Section Properties.

Context {Opaque : Type} `{!EqDecision Opaque}.

(** ** Laws of the effect monad *)

Lemma M_eta {A} (m : M A) : m = Run (trace m) (result m).
Proof. by destruct m. Qed.

Lemma bind_Val {A B} (f : A -> M B) t a :
  Run t (Val a) ≫= f = Run (t ++ trace (f a)) (result (f a)).
Proof. reflexivity. Qed.

Lemma bind_Exc {A B} (f : A -> M B) t e : Run t (Exc e) ≫= f = Run t (Exc e).
Proof. reflexivity. Qed.

Lemma bind_Fault {A B} (f : A -> M B) t : Run t Fault ≫= f = Run t Fault.
Proof. reflexivity. Qed.

Lemma bind_emit {B} (ev : Event) (k : M B) :
  (emit ev;; k) = Run (ev :: trace k) (result k).
Proof. reflexivity. Qed.

Lemma call_bind {B} (pc : PermissionChecker Opaque) ui ns nm sub (k : answer -> M B) :
  callCheckPermission pc ui ns nm sub ≫= k =
  Run (CheckPermissionCall ns nm sub :: trace (k (CheckPermission pc ui ns nm sub)))
      (result (k (CheckPermission pc ui ns nm sub))).
Proof. reflexivity. Qed.

(** ** Step 2: the permission queries *)

Lemma checkSubresources_answers (pc : PermissionChecker Opaque) ui ns nm grant checkers perms any :
  (∀ c, c ∈ checkers -> CheckPermission pc ui ns nm (Subresource c)
                        = Answer (grant (Subresource c))) ->
  checkSubresources pc ui ns nm checkers perms any =
  Run (map (fun c => CheckPermissionCall ns nm (Subresource c)) checkers)
      (Val (snapshotOf grant checkers perms, any || anyGranted grant checkers)).
Proof.
  revert perms any.
  induction checkers as [|c rest IH]; intros perms any Hall.
  - simpl. by rewrite orb_false_r.
  - cbn [checkSubresources]. rewrite call_bind.
    rewrite (Hall c) by set_solver.
    rewrite IH by (intros; apply Hall; set_solver).
    cbn. do 2 f_equal. f_equal.
    unfold anyGranted. simpl.
    destruct (grant (Subresource c)); simpl; [by rewrite orb_true_r | done].
Qed.

Lemma checkSubresources_failure (pc : PermissionChecker Opaque) ui ns nm pre c post err perms any :
  (∀ c', c' ∈ pre -> ∃ b, CheckPermission pc ui ns nm (Subresource c') = Answer b) ->
  CheckPermission pc ui ns nm (Subresource c) = Failure err ->
  checkSubresources pc ui ns nm (pre ++ c :: post) perms any =
  Run (map (fun c => CheckPermissionCall ns nm (Subresource c)) (pre ++ [c]))
      (Exc ("failed to check " +:+ Name c +:+ " permission: " +:+ err)).
Proof.
  revert perms any.
  induction pre as [|p pre IH]; intros perms any Hpre Hc.
  - cbn [app checkSubresources]. rewrite call_bind, Hc. reflexivity.
  - cbn [app checkSubresources]. rewrite call_bind.
    destruct (Hpre p) as [b ->]; [set_solver|].
    rewrite IH by (try done; intros; apply Hpre; set_solver).
    reflexivity.
Qed.

Lemma snapshotOf_lookup grant (checkers : list (FieldPermissionChecker Opaque)) init c :
  c ∈ checkers ->
  index_bool (snapshotOf grant checkers init) (Subresource c) = grant (Subresource c).
Proof.
  unfold snapshotOf, index_bool.
  induction checkers as [|d rest IH] using rev_ind; [set_solver|].
  rewrite foldl_app. simpl. intros Hin.
  destruct (decide (Subresource d = Subresource c)) as [Heq|Hne].
  - rewrite Heq, lookup_insert_eq. done.
  - rewrite lookup_insert_ne by done. apply IH.
    apply elem_of_app in Hin as [?|Hd]; [done|].
    apply list_elem_of_singleton in Hd. congruence.
Qed.

Lemma anyGranted_false grant (checkers : list (FieldPermissionChecker Opaque)) :
  (∀ c, c ∈ checkers -> grant (Subresource c) = false) ->
  anyGranted grant checkers = false.
Proof.
  intros H. unfold anyGranted.
  induction checkers as [|c rest IH]; [done|]. simpl.
  rewrite H by set_solver. apply IH. intros; apply H; set_solver.
Qed.

Lemma anyGranted_true grant (checkers : list (FieldPermissionChecker Opaque)) c :
  c ∈ checkers -> grant (Subresource c) = true -> anyGranted grant checkers = true.
Proof.
  intros Hin Hg. unfold anyGranted. apply existsb_exists.
  exists c. split; [by apply list_elem_of_In|done].
Qed.

(** ** Create and delete *)

(** C10: create and delete requests are allowed for every VirtualMachine:
    [ValidateCreate] and [ValidateDelete] return [(nil, nil)] whatever the
    object holds, their only effect is the log line (no oracle query); for an
    object of another type both return an error. *)
Theorem create_delete_always_allowed (v : VirtualMachineCustomValidator Opaque)
  (ctx : Context Opaque) :
  (∀ vm,
     ValidateCreate v ctx (VirtualMachineObject vm) =
       Run [LogInfo "Validation for VirtualMachine upon creation" (GetName vm)] (Val tt)
     ∧ ValidateDelete v ctx (VirtualMachineObject vm) =
       Run [LogInfo "Validation for VirtualMachine upon deletion" (GetName vm)] (Val tt)
     ∧ filter isQuery (trace (ValidateCreate v ctx (VirtualMachineObject vm))) = []
     ∧ filter isQuery (trace (ValidateDelete v ctx (VirtualMachineObject vm))) = [])
  ∧ (∀ T,
       ValidateCreate v ctx (OtherObject T) =
         Run [] (Exc ("expected a VirtualMachine object but got " +:+ T))
       ∧ ValidateDelete v ctx (OtherObject T) =
         Run [] (Exc ("expected a VirtualMachine object but got " +:+ T))).
Proof. split; [intros vm|intros T]; repeat split; reflexivity. Qed.

(** ** Step 1 and Step 2 of the update pipeline *)

(** C1: when the oracle answers true for the full-admin token,
    [ValidateUpdate] returns Allow at once: the run consists of the log line
    and that single query (no further query, no copy, no checker, no
    normalisation), whatever the two snapshots and the other grants are. *)
Theorem full_admin_bypass (v : VirtualMachineCustomValidator Opaque) (ctx : Context Opaque)
  (req : Request Opaque) (oldVM newVM : VirtualMachine Opaque) :
  RequestFromContext ctx = inl req ->
  CheckPermission (Validator_PermissionChecker v) (Request_UserInfo req)
    (GetNamespace newVM) (GetName newVM) "virtualmachines/full-admin" = Answer true ->
  ValidateUpdate v ctx (VirtualMachineObject oldVM) (VirtualMachineObject newVM) =
    Run [logUpdate newVM; queryEvent newVM "virtualmachines/full-admin"] (Val tt).
Proof.
  intros Hreq Hfa. unfold ValidateUpdate.
  rewrite Hreq, bind_emit, call_bind, Hfa. reflexivity.
Qed.

(** C2: when the actor holds neither full-admin nor any token of the
    configured checkers, [ValidateUpdate] returns Allow for every pair of
    snapshots; the run is the log line and the queries, with no working copy,
    no checker call and no normalisation. *)
Theorem no_grant_allows (v : VirtualMachineCustomValidator Opaque) (ctx : Context Opaque)
  (req : Request Opaque) (oldVM newVM : VirtualMachine Opaque) :
  RequestFromContext ctx = inl req ->
  CheckPermission (Validator_PermissionChecker v) (Request_UserInfo req)
    (GetNamespace newVM) (GetName newVM) "virtualmachines/full-admin" = Answer false ->
  (∀ c, c ∈ FieldCheckers v ->
     CheckPermission (Validator_PermissionChecker v) (Request_UserInfo req)
       (GetNamespace newVM) (GetName newVM) (Subresource c) = Answer false) ->
  ValidateUpdate v ctx (VirtualMachineObject oldVM) (VirtualMachineObject newVM) =
    Run (logUpdate newVM :: queryEvent newVM "virtualmachines/full-admin"
           :: map (fun c => queryEvent newVM (Subresource c)) (FieldCheckers v))
        (Val tt).
Proof.
  intros Hreq Hfa Hnone. unfold ValidateUpdate.
  rewrite Hreq, bind_emit, call_bind, Hfa.
  rewrite (checkSubresources_answers _ _ _ _ (fun _ => false)) by done.
  rewrite anyGranted_false by done.
  cbn. by rewrite app_nil_r.
Qed.

(** The message of a failed oracle query is not a denial message. *)
Lemma failed_to_check_not_denial (rest : string) :
  "failed to check " +:+ rest ≠ errMetadata ∧ "failed to check " +:+ rest ≠ errSpec.
Proof. split; discriminate. Qed.

(** C6: an oracle error aborts [ValidateUpdate].  Whether the full-admin query
    fails, or the query of a checker fails after the earlier ones were
    answered, the run stops at the failing query (the trace holds the log line
    and the queries issued so far, nothing else) and the result is the error
    "failed to check ...", which is neither Allow nor one of the two denial
    messages. *)
Theorem oracle_error_aborts (v : VirtualMachineCustomValidator Opaque) (ctx : Context Opaque)
  (req : Request Opaque) (oldVM newVM : VirtualMachine Opaque) :
  RequestFromContext ctx = inl req ->
  let ask := CheckPermission (Validator_PermissionChecker v) (Request_UserInfo req)
               (GetNamespace newVM) (GetName newVM) in
  let run := ValidateUpdate v ctx (VirtualMachineObject oldVM)
               (VirtualMachineObject newVM) in
  (∀ err, ask "virtualmachines/full-admin" = Failure err ->
     run = Run [logUpdate newVM; queryEvent newVM "virtualmachines/full-admin"]
             (Exc ("failed to check 'virtualmachines/full-admin' permission: " +:+ err))
     ∧ result run ≠ Val tt
     ∧ result run ≠ Exc errMetadata
     ∧ result run ≠ Exc errSpec)
  ∧ (∀ pre c post err,
       FieldCheckers v = pre ++ c :: post ->
       ask "virtualmachines/full-admin" = Answer false ->
       (∀ c', c' ∈ pre -> ∃ b, ask (Subresource c') = Answer b) ->
       ask (Subresource c) = Failure err ->
       run = Run (logUpdate newVM :: queryEvent newVM "virtualmachines/full-admin"
                    :: map (fun c => queryEvent newVM (Subresource c)) (pre ++ [c]))
               (Exc ("failed to check " +:+ Name c +:+ " permission: " +:+ err))
       ∧ result run ≠ Val tt
       ∧ result run ≠ Exc errMetadata
       ∧ result run ≠ Exc errSpec).
Proof.
  intros Hreq ask run. split.
  - intros err Hfa.
    assert (Hrun : run = Run [logUpdate newVM;
                              queryEvent newVM "virtualmachines/full-admin"]
              (Exc ("failed to check 'virtualmachines/full-admin' permission: "
                    +:+ err))).
    { subst run ask. unfold ValidateUpdate.
      rewrite Hreq, bind_emit, call_bind, Hfa. reflexivity. }
    rewrite Hrun. repeat split; discriminate.
  - intros pre c post err Hlist Hfa Hpre Hc.
    assert (Hrun : run =
              Run (logUpdate newVM :: queryEvent newVM "virtualmachines/full-admin"
                     :: map (fun c => queryEvent newVM (Subresource c)) (pre ++ [c]))
                (Exc ("failed to check " +:+ Name c +:+ " permission: " +:+ err))).
    { subst run ask. unfold ValidateUpdate.
      rewrite Hreq, bind_emit, call_bind, Hfa, Hlist.
      rewrite (checkSubresources_failure _ _ _ _ pre c post err) by done.
      reflexivity. }
    rewrite Hrun. repeat split; discriminate.
Qed.

(** ** Steps 3 to 5 *)

(** Once the actor holds a granular token and not full-admin, the run is the
    queries, the copy, the checker loop and the residual comparison. *)
Lemma ValidateUpdate_granular (v : VirtualMachineCustomValidator Opaque) ctx req
  (oldVM newVM : VirtualMachine Opaque) grant :
  RequestFromContext ctx = inl req ->
  CheckPermission (Validator_PermissionChecker v) (Request_UserInfo req)
    (GetNamespace newVM) (GetName newVM) "virtualmachines/full-admin" = Answer false ->
  (∀ c, c ∈ FieldCheckers v ->
     CheckPermission (Validator_PermissionChecker v) (Request_UserInfo req)
       (GetNamespace newVM) (GetName newVM) (Subresource c)
     = Answer (grant (Subresource c))) ->
  anyGranted grant (FieldCheckers v) = true ->
  let rest :=
    runFieldCheckers (FieldCheckers v) (snapshotOf grant (FieldCheckers v) ∅)
      oldVM newVM ≫= (fun copies => residualVerdict copies.1 copies.2) in
  ValidateUpdate v ctx (VirtualMachineObject oldVM) (VirtualMachineObject newVM) =
    Run (logUpdate newVM :: queryEvent newVM "virtualmachines/full-admin"
           :: map (fun c => queryEvent newVM (Subresource c)) (FieldCheckers v)
           ++ DeepCopyCall :: trace rest)
        (result rest).
Proof.
  intros Hreq Hfa Hans Hany rest. unfold ValidateUpdate.
  rewrite Hreq, bind_emit, call_bind, Hfa.
  rewrite (checkSubresources_answers _ _ _ _ grant) by done.
  rewrite Hany. reflexivity.
Qed.

Lemma residualVerdict_result (oldCopy newCopy : VirtualMachine Opaque) :
  result (residualVerdict oldCopy newCopy) =
    if decide (normalizeOne (VM_ObjectMeta oldCopy) = normalizeOne (VM_ObjectMeta newCopy))
    then if decide (VM_Spec oldCopy = VM_Spec newCopy) then Val tt else Exc errSpec
    else Exc errMetadata.
Proof.
  unfold residualVerdict. rewrite bind_emit. cbn [result].
  unfold DeepEqual. cbn [with_ObjectMeta VM_Spec VM_ObjectMeta normalizeSystemMetadata fst snd].
  repeat case_decide; repeat case_bool_decide; try done.
Qed.

(** What survives normalisation is exactly the user-authored metadata. *)
Lemma normalizeOne_eq_iff (a b : ObjectMeta Opaque) :
  normalizeOne a = normalizeOne b <->
  ObjectMeta_Name a = ObjectMeta_Name b
  ∧ ObjectMeta_GenerateName a = ObjectMeta_GenerateName b
  ∧ ObjectMeta_Namespace a = ObjectMeta_Namespace b
  ∧ ObjectMeta_Labels a = ObjectMeta_Labels b
  ∧ ObjectMeta_Annotations a = ObjectMeta_Annotations b
  ∧ ObjectMeta_OwnerReferences a = ObjectMeta_OwnerReferences b
  ∧ ObjectMeta_Finalizers a = ObjectMeta_Finalizers b.
Proof.
  destruct a, b; unfold normalizeOne; simpl. split.
  - intros [= -> -> -> -> -> -> ->]. done.
  - intros (-> & -> & -> & -> & -> & -> & ->). done.
Qed.

(** C3: after the checker loop has produced the copies and the metadata have
    been normalised, the verdict is Deny(metadata) when the normalised metadata
    differ, Deny(spec) when they are equal and the [Spec]s differ, and Allow
    when neither differs. *)
Theorem residual_diff_verdict (v : VirtualMachineCustomValidator Opaque) (ctx : Context Opaque)
  (req : Request Opaque) (oldVM newVM : VirtualMachine Opaque) (grant : string -> bool)
  (t : list Event) (oldCopy newCopy : VirtualMachine Opaque) :
  RequestFromContext ctx = inl req ->
  CheckPermission (Validator_PermissionChecker v) (Request_UserInfo req)
    (GetNamespace newVM) (GetName newVM) "virtualmachines/full-admin" = Answer false ->
  (∀ c, c ∈ FieldCheckers v ->
     CheckPermission (Validator_PermissionChecker v) (Request_UserInfo req)
       (GetNamespace newVM) (GetName newVM) (Subresource c)
     = Answer (grant (Subresource c))) ->
  anyGranted grant (FieldCheckers v) = true ->
  runFieldCheckers (FieldCheckers v) (snapshotOf grant (FieldCheckers v) ∅)
    oldVM newVM = Run t (Val (oldCopy, newCopy)) ->
  let metas := normalizeSystemMetadata (VM_ObjectMeta oldCopy) (VM_ObjectMeta newCopy) in
  let verdict := result (ValidateUpdate v ctx (VirtualMachineObject oldVM)
                           (VirtualMachineObject newVM)) in
  (metas.1 ≠ metas.2 -> verdict = Exc errMetadata)
  ∧ (metas.1 = metas.2 -> VM_Spec oldCopy ≠ VM_Spec newCopy -> verdict = Exc errSpec)
  ∧ (metas.1 = metas.2 -> VM_Spec oldCopy = VM_Spec newCopy -> verdict = Val tt)
  ∧ trace (ValidateUpdate v ctx (VirtualMachineObject oldVM)
             (VirtualMachineObject newVM))
    = logUpdate newVM :: queryEvent newVM "virtualmachines/full-admin"
        :: map (fun c => queryEvent newVM (Subresource c)) (FieldCheckers v)
        ++ DeepCopyCall :: t ++ [NormalizeSystemMetadataCall].
Proof.
  intros Hreq Hfa Hans Hany Hloop metas verdict. subst verdict.
  rewrite (ValidateUpdate_granular _ _ req _ _ grant) by done.
  rewrite Hloop, bind_Val. cbn [trace result fst snd].
  rewrite residualVerdict_result. subst metas.
  cbn [normalizeSystemMetadata fst snd].
  repeat split.
  - intros ?. by rewrite decide_False.
  - intros ? ?. by rewrite decide_True, decide_False.
  - intros ? ?. by rewrite !decide_True.
  - do 4 f_equal. unfold residualVerdict. rewrite bind_emit. cbn [trace].
    f_equal. unfold DeepEqual.
    repeat (case_match; try done).
Qed.

(** ** The checkers *)

(** *** The loops of the CD-ROM checker are filters *)

Lemma getCdromDisks_loop (init l : list (Disk Opaque)) :
  foldl (fun cdromDisks disk =>
           match Disk_CDRom disk with
           | Some _ => cdromDisks ++ [disk]
           | None => cdromDisks
           end) init l
  = init ++ filter (fun d => is_Some (Disk_CDRom d)) l.
Proof.
  revert init. induction l as [|d l IH]; intros init; simpl.
  - by rewrite app_nil_r.
  - rewrite IH. destruct (Disk_CDRom d) eqn:E.
    + rewrite filter_cons_True by (rewrite E; eauto). by rewrite <- app_assoc.
    + rewrite filter_cons_False; [done|]. rewrite E. by intros [? ?].
Qed.

Lemma getCdromDisks_filter (vm : VirtualMachine Opaque) :
  getCdromDisks vm =
    match VM_Template vm with
    | None => []
    | Some t => filter (fun d => is_Some (Disk_CDRom d)) (Template_Disks t)
    end.
Proof. unfold getCdromDisks. destruct (VM_Template vm); [|done]. apply getCdromDisks_loop. Qed.

Lemma getHotpluggableCdromVolumes_loop names (init l : list (Volume Opaque)) :
  foldl (fun acc volume =>
           if index_bool names (Volume_Name volume)
           then if isVolumeHotpluggable volume then acc ++ [volume] else acc
           else acc) init l
  = init ++ filter (isCdromMedia names) l.
Proof.
  revert init. induction l as [|x l IH]; intros init; simpl.
  - by rewrite app_nil_r.
  - rewrite IH. unfold isCdromMedia at 2.
    destruct (index_bool names (Volume_Name x)) eqn:E1;
      [destruct (isVolumeHotpluggable x) eqn:E2|].
    + rewrite filter_cons_True by (by rewrite E1, E2). by rewrite <- app_assoc.
    + rewrite filter_cons_False; [done|]. rewrite E2. by intros [? ?].
    + rewrite filter_cons_False; [done|]. rewrite E1. by intros [? ?].
Qed.

Lemma getHotpluggableCdromVolumes_filter (vm : VirtualMachine Opaque) :
  getHotpluggableCdromVolumes vm =
    match VM_Template vm with
    | None => []
    | Some t => filter (isCdromMedia (cdromDiskNamesOf (Template_Disks t)))
                  (Template_Volumes t)
    end.
Proof.
  unfold getHotpluggableCdromVolumes. destruct (VM_Template vm); [|done].
  apply getHotpluggableCdromVolumes_loop.
Qed.

Lemma filterOutVolumes_filter (volumes : list (Volume Opaque)) names :
  filterOutVolumes volumes names =
    filter (fun v => index_bool names (Volume_Name v) = false) volumes.
Proof.
  unfold filterOutVolumes.
  enough (∀ init,
    foldl (fun filtered vol =>
             if negb (index_bool names (Volume_Name vol))
             then filtered ++ [vol] else filtered) init volumes
    = init ++ filter (fun v => index_bool names (Volume_Name v) = false) volumes)
    as H by apply (H []).
  induction volumes as [|x l IH]; intros init; simpl.
  - by rewrite app_nil_r.
  - rewrite IH. destruct (index_bool names (Volume_Name x)) eqn:E; simpl.
    + rewrite filter_cons_False; [done|]. by rewrite E.
    + rewrite filter_cons_True by done. by rewrite <- app_assoc.
Qed.

(** The name maps hold [true] exactly at the names put into them. *)
Lemma volume_names_loop (l : list (Volume Opaque)) (init : gmap string bool) n :
  index_bool (foldl (fun names vol => <[Volume_Name vol := true]> names) init l) n = true
  <-> (∃ v, v ∈ l ∧ Volume_Name v = n) ∨ index_bool init n = true.
Proof.
  revert init. induction l as [|x l IH]; intros init; simpl.
  - split; [by right|]. intros [(v & Hv & _)|?]; [by apply elem_of_nil in Hv|done].
  - rewrite IH. unfold index_bool at 1.
    destruct (decide (Volume_Name x = n)) as [Heq|Hne].
    + rewrite Heq, lookup_insert_eq. simpl. split; [|by right].
      intros _. left. exists x. split; [left|done].
    + rewrite lookup_insert_ne by done. fold (index_bool init n). split.
      * intros [(v & Hv & Hn)|?]; [|by right].
        left. exists v. split; [by right|done].
      * intros [(v & Hv & Hn)|?]; [|by right].
        apply elem_of_cons in Hv as [->|Hv]; [done|].
        left. by exists v.
Qed.

Lemma getHotpluggableCdromVolumeNames_true (vm : VirtualMachine Opaque) n :
  index_bool (getHotpluggableCdromVolumeNames vm) n = true
  <-> ∃ v, v ∈ getHotpluggableCdromVolumes vm ∧ Volume_Name v = n.
Proof.
  unfold getHotpluggableCdromVolumeNames. rewrite volume_names_loop.
  unfold index_bool at 1. rewrite lookup_empty. simpl.
  split; [by intros [?|?]|by left].
Qed.

Lemma add_keys_true (m acc : gmap string bool) n :
  index_bool (add_keys m acc) n = true <-> is_Some (m !! n) ∨ index_bool acc n = true.
Proof.
  unfold add_keys.
  apply (map_fold_weak_ind
           (fun r m => index_bool r n = true <-> is_Some (m !! n) ∨ index_bool acc n = true)).
  - rewrite lookup_empty. split; [by right|]. intros [[? ?]|?]; done.
  - intros i x m' r Hi IH. cbn beta. unfold index_bool at 1.
    destruct (decide (i = n)) as [->|Hne].
    + rewrite !lookup_insert_eq. simpl. split; [|done]. intros _. left. eauto.
    + rewrite !lookup_insert_ne by done. apply IH.
Qed.

Lemma volume_names_loop_Some (l : list (Volume Opaque)) (init : gmap string bool) n :
  is_Some (foldl (fun names vol => <[Volume_Name vol := true]> names) init l !! n)
  <-> (∃ v, v ∈ l ∧ Volume_Name v = n) ∨ is_Some (init !! n).
Proof.
  revert init. induction l as [|x l IH]; intros init; simpl.
  - split; [by right|]. intros [(v & Hv & _)|?]; [by apply elem_of_nil in Hv|done].
  - rewrite IH.
    destruct (decide (Volume_Name x = n)) as [Heq|Hne].
    + rewrite Heq, lookup_insert_eq. split; [|eauto].
      intros _. left. exists x. split; [left|done].
    + rewrite lookup_insert_ne by done. split.
      * intros [(v & Hv & Hn)|?]; [|by right].
        left. exists v. split; [by right|done].
      * intros [(v & Hv & Hn)|?]; [|by right].
        apply elem_of_cons in Hv as [->|Hv]; [done|].
        left. by exists v.
Qed.

(** The combined name set of [Cdrom_Neutralize]. *)
Lemma cdromNames_true (oldVM newVM : VirtualMachine Opaque) n :
  index_bool (add_keys (getHotpluggableCdromVolumeNames newVM)
                (add_keys (getHotpluggableCdromVolumeNames oldVM) ∅)) n = true
  <-> (∃ v, v ∈ getHotpluggableCdromVolumes oldVM ∧ Volume_Name v = n)
      ∨ (∃ v, v ∈ getHotpluggableCdromVolumes newVM ∧ Volume_Name v = n).
Proof.
  rewrite !add_keys_true. unfold getHotpluggableCdromVolumeNames.
  rewrite !volume_names_loop_Some. unfold index_bool. rewrite !lookup_empty. simpl.
  split.
  - intros [[?|[? ?]]|[[?|[? ?]]|?]]; try done; eauto.
  - intros [?|?]; eauto.
Qed.

Lemma filter_none {A} (P : A -> Prop) `{!∀ x, Decision (P x)} (l : list A) :
  (∀ x, x ∈ l -> ¬ P x) -> filter P l = [].
Proof.
  induction l as [|x l IH]; intros Hl; [done|].
  rewrite filter_cons_False by (apply Hl; left).
  apply IH. intros y Hy. apply Hl. by right.
Qed.

Lemma filter_all {A} (P : A -> Prop) `{!∀ x, Decision (P x)} (l : list A) :
  (∀ x, x ∈ l -> P x) -> filter P l = l.
Proof.
  induction l as [|x l IH]; intros Hl; [done|].
  rewrite filter_cons_True by (apply Hl; left).
  f_equal. apply IH. intros y Hy. apply Hl. by right.
Qed.

Lemma DeepEqual_refl {A} `{EqDecision A} (a : A) : DeepEqual a a = true.
Proof. unfold DeepEqual. by apply bool_decide_eq_true_2. Qed.

Lemma DeepEqual_true {A} `{EqDecision A} (a b : A) : DeepEqual a b = true <-> a = b.
Proof. unfold DeepEqual. apply bool_decide_eq_true. Qed.

Lemma DeepEqual_eq {A} `{EqDecision A} (a b : A) : DeepEqual a b = true -> a = b.
Proof. apply DeepEqual_true. Qed.

Lemma DeepEqual_false {A} `{EqDecision A} (a b : A) : DeepEqual a b = false <-> a ≠ b.
Proof. unfold DeepEqual. apply bool_decide_eq_false. Qed.

(** *** C5: the guard of the CD-ROM checker *)

(** C5: [HasChanged] of the CD-ROM checker is false whenever the CD-ROM
    disks of the two snapshots (the disks with a [CDRom] target, in order; none
    for a nil template) differ; when they are equal it is the comparison of the
    hotpluggable volumes whose name is that of a CD-ROM disk. *)
Theorem cdrom_HasChanged_guard (oldVM newVM : VirtualMachine Opaque) :
  (getCdromDisks oldVM ≠ getCdromDisks newVM ->
     HasChanged CdromUserPermissionChecker oldVM newVM = Some false)
  ∧ (getCdromDisks oldVM = getCdromDisks newVM ->
       HasChanged CdromUserPermissionChecker oldVM newVM =
         Some (negb (DeepEqual (getHotpluggableCdromVolumes oldVM)
                               (getHotpluggableCdromVolumes newVM))))
  ∧ (∀ vm : VirtualMachine Opaque, getCdromDisks vm =
             match VM_Template vm with
             | None => []
             | Some t => filter (fun d => is_Some (Disk_CDRom d)) (Template_Disks t)
             end)
  ∧ (∀ vm : VirtualMachine Opaque, getHotpluggableCdromVolumes vm =
             match VM_Template vm with
             | None => []
             | Some t => filter (isCdromMedia (cdromDiskNamesOf (Template_Disks t)))
                           (Template_Volumes t)
             end).
Proof.
  repeat split.
  - intros Hne. cbn [HasChanged CdromUserPermissionChecker]. unfold Cdrom_HasChanged.
    apply (proj2 (DeepEqual_false _ _)) in Hne. by rewrite Hne.
  - intros Heq. cbn [HasChanged CdromUserPermissionChecker]. unfold Cdrom_HasChanged.
    apply (proj2 (DeepEqual_true _ _)) in Heq. by rewrite Heq.
  - apply getCdromDisks_filter.
  - apply getHotpluggableCdromVolumes_filter.
Qed.

(** *** Neutralize *)

Lemma add_keys_empty (acc : gmap string bool) : add_keys ∅ acc = acc.
Proof. unfold add_keys. apply map_fold_empty. Qed.

Lemma filterOutVolumes_empty (volumes : list (Volume Opaque)) : filterOutVolumes volumes ∅ = volumes.
Proof. rewrite filterOutVolumes_filter. by apply filter_all. Qed.

(** After [Cdrom_Neutralize] neither copy holds CD-ROM media. *)
Lemma Cdrom_Neutralize_volumes (oldVM newVM : VirtualMachine Opaque) :
  is_Some (VM_Template oldVM) -> is_Some (VM_Template newVM) ->
  getHotpluggableCdromVolumes (Cdrom_Neutralize oldVM newVM).1 = []
  ∧ getHotpluggableCdromVolumes (Cdrom_Neutralize oldVM newVM).2 = [].
Proof.
  intros [ot Hot] [nt Hnt].
  pose proof (cdromNames_true oldVM newVM) as Hnames.
  pose proof (getHotpluggableCdromVolumes_filter oldVM) as Hold.
  pose proof (getHotpluggableCdromVolumes_filter newVM) as Hnew.
  unfold Cdrom_Neutralize. rewrite Hot, Hnt in *. cbn [fst snd].
  rewrite !getHotpluggableCdromVolumes_filter.
  cbn [VM_Template with_Template VM_Spec Spec_Template].
  change (Template_Disks (with_Volumes ot ?l)) with (Template_Disks ot).
  change (Template_Disks (with_Volumes nt ?l)) with (Template_Disks nt).
  change (Template_Volumes (with_Volumes ?t ?l)) with l.
  rewrite !filterOutVolumes_filter.
  split; apply filter_none; intros v Hv Hmedia;
    apply list_elem_of_filter in Hv as [Hout Hv];
    apply not_true_iff_false in Hout; apply Hout, Hnames.
  - left. exists v. split; [|done]. rewrite Hold. by apply list_elem_of_filter.
  - right. exists v. split; [|done]. rewrite Hnew. by apply list_elem_of_filter.
Qed.

Lemma Cdrom_Neutralize_idem (oldVM newVM : VirtualMachine Opaque) :
  Cdrom_Neutralize (Cdrom_Neutralize oldVM newVM).1 (Cdrom_Neutralize oldVM newVM).2
  = Cdrom_Neutralize oldVM newVM.
Proof.
  destruct (VM_Template oldVM) as [ot|] eqn:Hot;
    [destruct (VM_Template newVM) as [nt|] eqn:Hnt|].
  - destruct (Cdrom_Neutralize_volumes oldVM newVM) as [H1 H2]; [by rewrite Hot|by rewrite Hnt|].
    unfold Cdrom_Neutralize at 1. unfold getHotpluggableCdromVolumeNames.
    rewrite H1, H2. simpl foldl. rewrite !add_keys_empty.
    unfold Cdrom_Neutralize. rewrite Hot, Hnt. cbn [fst snd].
    cbn [VM_Template with_Template VM_Spec Spec_Template].
    rewrite !filterOutVolumes_empty. reflexivity.
  - unfold Cdrom_Neutralize. rewrite Hot, Hnt. cbn [fst snd]. by rewrite Hot, Hnt.
  - unfold Cdrom_Neutralize. rewrite Hot. cbn [fst snd]. by rewrite Hot.
Qed.

(** The guarded checkers leave both copies alone when a template is nil. *)
Lemma Neutralize_nil_template (c : FieldPermissionChecker Opaque) (oldVM newVM : VirtualMachine Opaque) :
  c ∈ SetupFieldCheckers -> Name c ≠ "lifecycle" ->
  VM_Template oldVM = None ∨ VM_Template newVM = None ->
  Neutralize c oldVM newVM = (oldVM, newVM).
Proof.
  intros Hc Hname Hnil. checker_cases Hc; try done;
    cbn [Neutralize NetworkPermissionChecker ComputePermissionChecker
         DevicesPermissionChecker CdromUserPermissionChecker StoragePermissionChecker];
    unfold Network_Neutralize, Compute_Neutralize, Devices_Neutralize,
      Cdrom_Neutralize, Storage_Neutralize;
    destruct Hnil as [-> | ->]; try done; by destruct (VM_Template oldVM).
Qed.

Lemma Neutralize_idem (c : FieldPermissionChecker Opaque) (oldVM newVM : VirtualMachine Opaque) :
  c ∈ SetupFieldCheckers ->
  Neutralize c (Neutralize c oldVM newVM).1 (Neutralize c oldVM newVM).2
  = Neutralize c oldVM newVM.
Proof.
  intros Hc.
  destruct (VM_Template oldVM) as [ot|] eqn:Hot;
    [destruct (VM_Template newVM) as [nt|] eqn:Hnt|].
  - checker_cases Hc;
      cbn [Neutralize NetworkPermissionChecker ComputePermissionChecker
           DevicesPermissionChecker CdromUserPermissionChecker StoragePermissionChecker
           LifecyclePermissionChecker];
      try apply Cdrom_Neutralize_idem; try reflexivity;
      unfold Network_Neutralize, Compute_Neutralize, Devices_Neutralize,
        Storage_Neutralize; rewrite Hot, Hnt; reflexivity.
  - destruct (decide (Name c = "lifecycle")) as [Hl|Hl].
    + checker_cases Hc; try discriminate Hl. reflexivity.
    + rewrite (Neutralize_nil_template c oldVM newVM) by auto.
      cbn [fst snd]. apply Neutralize_nil_template; auto.
  - destruct (decide (Name c = "lifecycle")) as [Hl|Hl].
    + checker_cases Hc; try discriminate Hl. reflexivity.
    + rewrite (Neutralize_nil_template c oldVM newVM) by auto.
      cbn [fst snd]. apply Neutralize_nil_template; auto.
Qed.

Lemma Neutralize_no_change (c : FieldPermissionChecker Opaque) (oldVM newVM : VirtualMachine Opaque) :
  c ∈ SetupFieldCheckers ->
  Name c = "lifecycle" ∨ (is_Some (VM_Template oldVM) ∧ is_Some (VM_Template newVM)) ->
  HasChanged c (Neutralize c oldVM newVM).1 (Neutralize c oldVM newVM).2 = Some false.
Proof.
  intros Hc Hcase.
  assert (Hlife : HasChanged LifecyclePermissionChecker
            (Neutralize LifecyclePermissionChecker oldVM newVM).1
            (Neutralize LifecyclePermissionChecker oldVM newVM).2 = Some false).
  { cbn. unfold Lifecycle_HasChanged. cbn. by rewrite !DeepEqual_refl. }
  destruct Hcase as [Hl|[[ot Hot] [nt Hnt]]].
  { checker_cases Hc; try discriminate Hl. exact Hlife. }
  checker_cases Hc; try exact Hlife;
    cbn [Neutralize HasChanged NetworkPermissionChecker ComputePermissionChecker
         DevicesPermissionChecker CdromUserPermissionChecker StoragePermissionChecker].
  - unfold Network_Neutralize. rewrite Hot, Hnt. unfold Network_HasChanged. cbn.
    by rewrite !DeepEqual_refl.
  - unfold Compute_Neutralize. rewrite Hot, Hnt. unfold Compute_HasChanged. cbn.
    by rewrite !DeepEqual_refl.
  - unfold Devices_Neutralize. rewrite Hot, Hnt. unfold Devices_HasChanged. cbn.
    by rewrite !DeepEqual_refl.
  - destruct (Cdrom_Neutralize_volumes oldVM newVM) as [H1 H2];
      [by rewrite Hot|by rewrite Hnt|].
    unfold Cdrom_HasChanged. rewrite H1, H2, DeepEqual_refl. by case_match.
  - unfold Storage_Neutralize. rewrite Hot, Hnt. unfold Storage_HasChanged. cbn.
    by rewrite !DeepEqual_refl.
Qed.

(** C8 (as amended): for every configured checker [Neutralize] is idempotent;
    when both copies have a template (always, for the lifecycle checker) the
    checker's footprint compares equal afterwards, and for the CD-ROM checker
    no CD-ROM media volume is left in either copy; when a template is nil the
    five template checkers leave both copies as they are. *)
Theorem neutralize_erases_footprint (c : FieldPermissionChecker Opaque)
  (oldVM newVM : VirtualMachine Opaque) :
  c ∈ SetupFieldCheckers ->
  let copies := Neutralize c oldVM newVM in
  Neutralize c copies.1 copies.2 = copies
  ∧ (Name c = "lifecycle" ∨ (is_Some (VM_Template oldVM) ∧ is_Some (VM_Template newVM)) ->
       HasChanged c copies.1 copies.2 = Some false)
  ∧ (is_Some (VM_Template oldVM) ∧ is_Some (VM_Template newVM) ->
       getHotpluggableCdromVolumes (Cdrom_Neutralize oldVM newVM).1 = []
       ∧ getHotpluggableCdromVolumes (Cdrom_Neutralize oldVM newVM).2 = [])
  ∧ (Name c ≠ "lifecycle" ->
       VM_Template oldVM = None ∨ VM_Template newVM = None ->
       copies = (oldVM, newVM)).
Proof.
  intros Hc copies. subst copies. split; [|split; [|split]].
  - by apply Neutralize_idem.
  - by apply Neutralize_no_change.
  - intros [Hold Hnew]. by apply Cdrom_Neutralize_volumes.
  - intros. by apply Neutralize_nil_template.
Qed.

(** *** Totality of HasChanged *)

Lemma Storage_HasChanged_nil_template (oldVM newVM : VirtualMachine Opaque) :
  VM_Template oldVM = None ∨ VM_Template newVM = None ->
  HasChanged StoragePermissionChecker oldVM newVM = None.
Proof.
  cbn [HasChanged StoragePermissionChecker]. unfold Storage_HasChanged.
  intros [-> | ->]; [done|]. by destruct (VM_Template oldVM).
Qed.

Lemma Storage_HasChanged_is_Some (oldVM newVM : VirtualMachine Opaque) :
  is_Some (HasChanged StoragePermissionChecker oldVM newVM)
  <-> is_Some (VM_Template oldVM) ∧ is_Some (VM_Template newVM).
Proof.
  cbn [HasChanged StoragePermissionChecker]. unfold Storage_HasChanged.
  destruct (VM_Template oldVM), (VM_Template newVM); simpl; split;
    try (intros [? ?]; done); try (intros [[? ?] [? ?]]; done); eauto.
Qed.

(** Every checker but the storage one answers on all inputs. *)
Lemma HasChanged_total_but_storage (c : FieldPermissionChecker Opaque)
  (oldVM newVM : VirtualMachine Opaque) :
  c ∈ SetupFieldCheckers -> Name c ≠ "storage" -> is_Some (HasChanged c oldVM newVM).
Proof.
  intros Hc Hname. checker_cases Hc; try done;
    cbn [HasChanged NetworkPermissionChecker ComputePermissionChecker
         DevicesPermissionChecker CdromUserPermissionChecker LifecyclePermissionChecker];
    unfold Network_HasChanged, Compute_HasChanged, Devices_HasChanged,
      Cdrom_HasChanged, Lifecycle_HasChanged;
    repeat case_match; eauto.
Qed.

(** A checker reports a change only if the two [Spec]s differ. *)
Lemma HasChanged_spec_differs (c : FieldPermissionChecker Opaque) (oldVM newVM : VirtualMachine Opaque) :
  c ∈ SetupFieldCheckers ->
  HasChanged c oldVM newVM = Some true -> VM_Spec oldVM ≠ VM_Spec newVM.
Proof.
  intros Hc Hchanged Heq.
  assert (Ht : VM_Template oldVM = VM_Template newVM) by (unfold VM_Template; by rewrite Heq).
  assert (Hd : getCdromDisks oldVM = getCdromDisks newVM)
    by (unfold getCdromDisks; by rewrite Ht).
  assert (Hv : getHotpluggableCdromVolumes oldVM = getHotpluggableCdromVolumes newVM)
    by (unfold getHotpluggableCdromVolumes; by rewrite Ht).
  revert Hchanged.
  checker_cases Hc;
    cbn [HasChanged NetworkPermissionChecker ComputePermissionChecker
         DevicesPermissionChecker CdromUserPermissionChecker LifecyclePermissionChecker
         StoragePermissionChecker];
    unfold Network_HasChanged, Compute_HasChanged, Devices_HasChanged,
      Cdrom_HasChanged, Lifecycle_HasChanged, Storage_HasChanged;
    rewrite ?Ht, ?Hd, ?Hv, ?Heq;
    destruct (VM_Template newVM); simpl; rewrite ?DeepEqual_refl; simpl; done.
Qed.

(** *** The checker loop *)

Lemma bind_assoc {A B C} (m : M A) (f : A -> M B) (g : B -> M C) :
  (m ≫= f) ≫= g = m ≫= (fun a => f a ≫= g).
Proof.
  destruct m as [t [a| |]]; try reflexivity.
  rewrite !bind_Val. destruct (f a) as [t' [b| |]]; cbn; try reflexivity.
  by rewrite app_assoc.
Qed.

Lemma bind_ret_l {A B} (a : A) (f : A -> M B) : ret a ≫= f = f a.
Proof. rewrite (M_eta (f a)). reflexivity. Qed.

Lemma bind_ext {A B} (m : M A) (f g : A -> M B) :
  (∀ a, f a = g a) -> m ≫= f = m ≫= g.
Proof. intros H. destruct m as [t [a| |]]; try reflexivity. by rewrite !bind_Val, H. Qed.

Lemma runFieldCheckers_app (l1 l2 : list (FieldPermissionChecker Opaque)) perms oldCopy newCopy :
  runFieldCheckers (l1 ++ l2) perms oldCopy newCopy =
  runFieldCheckers l1 perms oldCopy newCopy
    ≫= (fun copies => runFieldCheckers l2 perms copies.1 copies.2).
Proof.
  revert oldCopy newCopy. induction l1 as [|c l1 IH]; intros oldCopy newCopy.
  - rewrite (M_eta (runFieldCheckers ([] ++ l2) perms oldCopy newCopy)). reflexivity.
  - cbn [app runFieldCheckers]. rewrite !bind_assoc. apply bind_ext. intros _.
    apply bind_ext. intros changed.
    destruct changed; [destruct (index_bool perms (Subresource c))|]; rewrite ?bind_assoc;
      try apply bind_ext; intros; apply IH.
Qed.

Lemma runFieldCheckers_perms_agree (l : list (FieldPermissionChecker Opaque))
  (p1 p2 : gmap string bool) oldCopy newCopy :
  (∀ c, c ∈ l -> index_bool p1 (Subresource c) = index_bool p2 (Subresource c)) ->
  runFieldCheckers l p1 oldCopy newCopy = runFieldCheckers l p2 oldCopy newCopy.
Proof.
  revert oldCopy newCopy. induction l as [|c l IH]; intros oldCopy newCopy Hagree; [done|].
  cbn [runFieldCheckers]. rewrite <- (Hagree c) by left.
  apply bind_ext. intros _. apply bind_ext. intros changed.
  destruct changed; [destruct (index_bool p1 (Subresource c))|];
    try apply bind_ext; intros; apply IH; intros; apply Hagree; by right.
Qed.

(** When every reported change is unauthorised the loop leaves the copies as
    they were. *)
Lemma runFieldCheckers_untouched (l : list (FieldPermissionChecker Opaque)) perms oldCopy newCopy :
  (∀ c, c ∈ l -> ∃ b, HasChanged c oldCopy newCopy = Some b
                     ∧ (b = true -> index_bool perms (Subresource c) = false)) ->
  runFieldCheckers l perms oldCopy newCopy =
    Run (map (fun c => HasChangedCall (Name c)) l) (Val (oldCopy, newCopy)).
Proof.
  induction l as [|c l IH]; intros Hall; [done|].
  cbn [runFieldCheckers map]. rewrite bind_emit.
  destruct (Hall c) as (b & -> & Hb); [left|].
  cbn [deref]. rewrite bind_ret_l.
  destruct b; [rewrite Hb by done|]; rewrite IH by (intros; apply Hall; by right);
    reflexivity.
Qed.

Lemma result_bind {A B} (m : M A) (f : A -> M B) :
  result (m ≫= f) =
    match result m with
    | Val a => result (f a)
    | Exc e => Exc e
    | Fault => Fault
    end.
Proof. by destruct m as [t [a| |]]. Qed.

(** When every checker answers, and reports a change exactly if it is [c],
    an actor who holds a granular token but neither full-admin nor the token
    of [c] is denied. *)
Lemma single_report_verdict (pc : PermissionChecker Opaque) (ctx : Context Opaque)
  (req : Request Opaque) (oldVM newVM : VirtualMachine Opaque) (grant : string -> bool)
  (c : FieldPermissionChecker Opaque) :
  RequestFromContext ctx = inl req ->
  CheckPermission pc (Request_UserInfo req) (GetNamespace newVM) (GetName newVM)
    "virtualmachines/full-admin" = Answer false ->
  (∀ c' : FieldPermissionChecker Opaque, c' ∈ SetupFieldCheckers ->
     CheckPermission pc (Request_UserInfo req) (GetNamespace newVM) (GetName newVM)
       (Subresource c') = Answer (grant (Subresource c'))) ->
  c ∈ SetupFieldCheckers ->
  (∀ c' : FieldPermissionChecker Opaque, c' ∈ SetupFieldCheckers ->
     HasChanged c' oldVM newVM = Some (bool_decide (Subresource c' = Subresource c))) ->
  grant (Subresource c) = false ->
  (∃ c' : FieldPermissionChecker Opaque, c' ∈ SetupFieldCheckers ∧ grant (Subresource c') = true) ->
  let verdict := result (ValidateUpdate (SetupValidator pc) ctx
                           (VirtualMachineObject oldVM) (VirtualMachineObject newVM)) in
  (normalizeOne (VM_ObjectMeta oldVM) = normalizeOne (VM_ObjectMeta newVM) ->
     verdict = Exc errSpec)
  ∧ (normalizeOne (VM_ObjectMeta oldVM) ≠ normalizeOne (VM_ObjectMeta newVM) ->
       verdict = Exc errMetadata).
Proof.
  intros Hreq Hfa Hans Hc Hone Hdenied (g & Hg & Hgranted) verdict. subst verdict.
  rewrite (ValidateUpdate_granular _ _ req _ _ grant); try done;
    [|by apply (anyGranted_true _ _ g)].
  cbn [result FieldCheckers SetupValidator].
  rewrite runFieldCheckers_untouched.
  - rewrite bind_Val. cbn [result fst snd]. rewrite residualVerdict_result.
    assert (Hspec : VM_Spec oldVM ≠ VM_Spec newVM).
    { apply (HasChanged_spec_differs c); [done|].
      rewrite Hone by done. by rewrite bool_decide_eq_true_2. }
    split; intros Hmeta.
    + by rewrite decide_True, decide_False.
    + by rewrite decide_False.
  - intros c' Hc'. eexists. split; [by apply Hone|].
    intros Heq%bool_decide_eq_true.
    rewrite snapshotOf_lookup by done. by rewrite Heq.
Qed.

(** The configured checkers have pairwise different subresources. *)
Lemma Subresource_configured_inj (c c' : FieldPermissionChecker Opaque) :
  c ∈ SetupFieldCheckers -> c' ∈ SetupFieldCheckers ->
  Subresource c' = Subresource c -> c' = c.
Proof.
  intros Hc Hc'. checker_cases Hc; checker_cases Hc';
    cbn [Subresource NetworkPermissionChecker ComputePermissionChecker
         DevicesPermissionChecker LifecyclePermissionChecker
         CdromUserPermissionChecker StoragePermissionChecker];
    intros Heq; first [reflexivity | discriminate Heq].
Qed.

(** With a template in both snapshots every configured checker answers. *)
Lemma HasChanged_is_Some_with_templates (c : FieldPermissionChecker Opaque)
  (oldVM newVM : VirtualMachine Opaque) :
  c ∈ SetupFieldCheckers -> withTemplates oldVM newVM ->
  is_Some (HasChanged c oldVM newVM).
Proof.
  intros Hc Hwt. destruct (decide (Name c = "storage")) as [Hname|Hname].
  - assert (c = StoragePermissionChecker) as ->.
    { checker_cases Hc; first [reflexivity | discriminate Hname]. }
    by apply Storage_HasChanged_is_Some.
  - by apply HasChanged_total_but_storage.
Qed.

(** C7 (as amended): with the configured checkers and a template in both
    snapshots, when exactly one checker reports a change, the actor holds
    neither full-admin nor that checker's token but does hold some other
    granular token, the verdict is a denial: Deny(spec) when the
    user-authored metadata are equal, and Deny(metadata) when they differ. *)
Theorem unauthorized_single_category (pc : PermissionChecker Opaque) (ctx : Context Opaque)
  (req : Request Opaque) (oldVM newVM : VirtualMachine Opaque) (grant : string -> bool)
  (c : FieldPermissionChecker Opaque) :
  RequestFromContext ctx = inl req ->
  CheckPermission pc (Request_UserInfo req) (GetNamespace newVM) (GetName newVM)
    "virtualmachines/full-admin" = Answer false ->
  (∀ c' : FieldPermissionChecker Opaque, c' ∈ SetupFieldCheckers ->
     CheckPermission pc (Request_UserInfo req) (GetNamespace newVM) (GetName newVM)
       (Subresource c') = Answer (grant (Subresource c'))) ->
  withTemplates oldVM newVM ->
  c ∈ SetupFieldCheckers ->
  HasChanged c oldVM newVM = Some true ->
  (∀ c' : FieldPermissionChecker Opaque, c' ∈ SetupFieldCheckers -> c' ≠ c ->
     HasChanged c' oldVM newVM ≠ Some true) ->
  grant (Subresource c) = false ->
  (∃ c' : FieldPermissionChecker Opaque, c' ∈ SetupFieldCheckers ∧ grant (Subresource c') = true) ->
  let verdict := result (ValidateUpdate (SetupValidator pc) ctx
                           (VirtualMachineObject oldVM) (VirtualMachineObject newVM)) in
  (normalizeOne (VM_ObjectMeta oldVM) = normalizeOne (VM_ObjectMeta newVM) ->
     verdict = Exc errSpec)
  ∧ (normalizeOne (VM_ObjectMeta oldVM) ≠ normalizeOne (VM_ObjectMeta newVM) ->
       verdict = Exc errMetadata).
Proof.
  intros Hreq Hfa Hans Hwt Hc Hchanged Hothers Hdenied Hgranted.
  apply (single_report_verdict pc ctx req oldVM newVM grant c Hreq Hfa Hans Hc);
    [|exact Hdenied|exact Hgranted].
  intros c' Hc'.
  destruct (decide (Subresource c' = Subresource c)) as [Heq|Hne].
  - rewrite (Subresource_configured_inj c c' Hc Hc' Heq), Hchanged.
    by rewrite bool_decide_eq_true_2.
  - rewrite bool_decide_eq_false_2 by exact Hne.
    destruct (HasChanged_is_Some_with_templates c' oldVM newVM Hc' Hwt) as [b Hb].
    rewrite Hb. destruct b; [|reflexivity].
    exfalso. apply (Hothers c' Hc'); [|exact Hb]. intros ->. by apply Hne.
Qed.

(** ** The CD-ROM checker below the storage checker *)

Lemma Cdrom_changed_Storage_changed (oldVM newVM : VirtualMachine Opaque) :
  Cdrom_HasChanged oldVM newVM = Some true ->
  is_Some (VM_Template oldVM) -> is_Some (VM_Template newVM) ->
  Storage_HasChanged oldVM newVM = Some true.
Proof.
  intros Hcd [ot Hot] [nt Hnt].
  unfold Cdrom_HasChanged in Hcd. unfold Storage_HasChanged.
  rewrite Hot, Hnt. cbn.
  destruct (DeepEqual (Template_Volumes ot) (Template_Volumes nt)) eqn:Hv; [|done].
  destruct (DeepEqual (Template_Disks ot) (Template_Disks nt)) eqn:Hd; [|done].
  apply DeepEqual_eq in Hv. apply DeepEqual_eq in Hd. exfalso.
  assert (Hsame : getHotpluggableCdromVolumes oldVM = getHotpluggableCdromVolumes newVM).
  { rewrite !getHotpluggableCdromVolumes_filter, Hot, Hnt. by rewrite Hv, Hd. }
  rewrite Hsame, DeepEqual_refl in Hcd. by case_match.
Qed.

Lemma Storage_after_Cdrom (oldVM newVM : VirtualMachine Opaque) :
  Storage_Neutralize (Cdrom_Neutralize oldVM newVM).1 (Cdrom_Neutralize oldVM newVM).2
  = Storage_Neutralize oldVM newVM.
Proof.
  unfold Cdrom_Neutralize, Storage_Neutralize.
  destruct (VM_Template oldVM) as [ot|] eqn:Hot;
    [destruct (VM_Template newVM) as [nt|] eqn:Hnt|]; cbn [fst snd].
  - reflexivity.
  - by rewrite Hot, Hnt.
  - by rewrite Hot.
Qed.

(** Clearing a footprint that already compares equal does not change whether
    the two [Spec]s are equal. *)
Lemma Storage_spec_iff (a b : VirtualMachine Opaque) :
  Storage_HasChanged a b = Some false ->
  VM_Spec a = VM_Spec b
  <-> VM_Spec (Storage_Neutralize a b).1 = VM_Spec (Storage_Neutralize a b).2.
Proof.
  unfold Storage_HasChanged, Storage_Neutralize, VM_Template.
  destruct a as [ma [ra sa [ta|] xa] ua]; [|done].
  destruct b as [mb [rb sb [tb|] xb] ub]; [|done].
  cbn. intros [= Hsame].
  apply orb_false_elim in Hsame as [Hsame Hfs].
  apply orb_false_elim in Hsame as [Hvol Hdisk].
  apply negb_false_iff in Hvol. apply DeepEqual_eq in Hvol.
  apply negb_false_iff in Hdisk. apply DeepEqual_eq in Hdisk.
  apply negb_false_iff in Hfs. apply DeepEqual_eq in Hfs.
  destruct ta as [tma [[cpua resa deva da] va na oa]].
  destruct tb as [tmb [[cpub resb devb db] vb nb ob]].
  destruct deva, devb. cbn in *. subst.
  unfold Storage_clear, update_Devices, with_Domain, with_Devices, with_Volumes,
    with_Disks, with_Filesystems. cbn.
  split; intros Heq; simplify_eq; reflexivity.
Qed.

Lemma residualVerdict_congr (a b a' b' : VirtualMachine Opaque) :
  VM_ObjectMeta a = VM_ObjectMeta a' -> VM_ObjectMeta b = VM_ObjectMeta b' ->
  (VM_Spec a = VM_Spec b <-> VM_Spec a' = VM_Spec b') ->
  result (residualVerdict a b) = result (residualVerdict a' b').
Proof.
  intros Ha Hb Hspec. rewrite !residualVerdict_result, Ha, Hb.
  case_decide; [|done]. repeat case_decide; tauto || done.
Qed.

Lemma result_run_nil {B} perms oldCopy newCopy
  (k : VirtualMachine Opaque * VirtualMachine Opaque -> M B) :
  result (runFieldCheckers [] perms oldCopy newCopy ≫= k) = result (k (oldCopy, newCopy)).
Proof. reflexivity. Qed.

(** One iteration of the checker loop, seen from the verdict. *)
Lemma result_run_cons {B} c rest perms oldCopy newCopy
  (k : VirtualMachine Opaque * VirtualMachine Opaque -> M B) :
  result (runFieldCheckers (c :: rest) perms oldCopy newCopy ≫= k) =
    match HasChanged c oldCopy newCopy with
    | None => Fault
    | Some true =>
        if index_bool perms (Subresource c)
        then result (runFieldCheckers rest perms (Neutralize c oldCopy newCopy).1
                       (Neutralize c oldCopy newCopy).2 ≫= k)
        else result (runFieldCheckers rest perms oldCopy newCopy ≫= k)
    | Some false => result (runFieldCheckers rest perms oldCopy newCopy ≫= k)
    end.
Proof.
  cbn [runFieldCheckers]. rewrite !bind_assoc, bind_emit. cbn [result].
  destruct (HasChanged c oldCopy newCopy) as [[|]|]; cbn [deref]; [| |done].
  - rewrite bind_ret_l. destruct (index_bool perms (Subresource c)); [|done].
    by rewrite bind_assoc, bind_emit.
  - by rewrite bind_ret_l.
Qed.

Lemma cdrom_storage_tail (p1 p2 : gmap string bool) (oldCopy newCopy : VirtualMachine Opaque) :
  index_bool p1 "virtualmachines/cdrom-user" = true ->
  index_bool p2 "virtualmachines/cdrom-user" = false ->
  index_bool p1 "virtualmachines/storage-admin" = true ->
  index_bool p2 "virtualmachines/storage-admin" = true ->
  result (runFieldCheckers [CdromUserPermissionChecker; StoragePermissionChecker]
            p1 oldCopy newCopy ≫= (fun copies => residualVerdict copies.1 copies.2))
  = result (runFieldCheckers [CdromUserPermissionChecker; StoragePermissionChecker]
              p2 oldCopy newCopy ≫= (fun copies => residualVerdict copies.1 copies.2)).
Proof.
  intros Hc1 Hc2 Hs1 Hs2.
  rewrite !result_run_cons, !result_run_nil.
  cbn [HasChanged Neutralize Subresource CdromUserPermissionChecker
       StoragePermissionChecker fst snd].
  rewrite Hc1, Hc2, Hs1, Hs2.
  destruct (Cdrom_HasChanged oldCopy newCopy) as [[|]|] eqn:Hcd; try reflexivity.
  destruct (VM_Template oldCopy) as [ot|] eqn:Hot;
    [destruct (VM_Template newCopy) as [nt|] eqn:Hnt|].
  - rewrite (Cdrom_changed_Storage_changed oldCopy newCopy) by (by rewrite ?Hot, ?Hnt).
    destruct (Storage_HasChanged (Cdrom_Neutralize oldCopy newCopy).1
                (Cdrom_Neutralize oldCopy newCopy).2) as [[|]|] eqn:Hs.
    + by rewrite Storage_after_Cdrom.
    + apply residualVerdict_congr.
      * unfold Cdrom_Neutralize, Storage_Neutralize. by rewrite Hot, Hnt.
      * unfold Cdrom_Neutralize, Storage_Neutralize. by rewrite Hot, Hnt.
      * rewrite (Storage_spec_iff _ _ Hs). by rewrite Storage_after_Cdrom.
    + exfalso. unfold Cdrom_Neutralize in Hs. rewrite Hot, Hnt in Hs. discriminate Hs.
  - unfold Cdrom_Neutralize. by rewrite Hot, Hnt.
  - unfold Cdrom_Neutralize. by rewrite Hot.
Qed.

(** C4: with the configured checkers, a permission snapshot that grants the
    cdrom-user and storage-admin tokens yields the same verdict as the
    snapshot that grants storage-admin without cdrom-user, all other answers
    being the same, for every pair of snapshots. *)
Theorem hierarchical_equivalence (pc1 pc2 : PermissionChecker Opaque) (ctx : Context Opaque)
  (req : Request Opaque) (oldVM newVM : VirtualMachine Opaque) (grant1 grant2 : string -> bool) :
  RequestFromContext ctx = inl req ->
  CheckPermission pc1 (Request_UserInfo req) (GetNamespace newVM) (GetName newVM)
    "virtualmachines/full-admin"
  = CheckPermission pc2 (Request_UserInfo req) (GetNamespace newVM) (GetName newVM)
      "virtualmachines/full-admin" ->
  (∀ c : FieldPermissionChecker Opaque, c ∈ SetupFieldCheckers ->
     CheckPermission pc1 (Request_UserInfo req) (GetNamespace newVM) (GetName newVM)
       (Subresource c) = Answer (grant1 (Subresource c))) ->
  (∀ c : FieldPermissionChecker Opaque, c ∈ SetupFieldCheckers ->
     CheckPermission pc2 (Request_UserInfo req) (GetNamespace newVM) (GetName newVM)
       (Subresource c) = Answer (grant2 (Subresource c))) ->
  grant1 "virtualmachines/cdrom-user" = true ->
  grant1 "virtualmachines/storage-admin" = true ->
  grant2 "virtualmachines/cdrom-user" = false ->
  grant2 "virtualmachines/storage-admin" = true ->
  (∀ sub, sub ≠ "virtualmachines/cdrom-user" -> grant1 sub = grant2 sub) ->
  result (ValidateUpdate (SetupValidator pc1) ctx (VirtualMachineObject oldVM)
            (VirtualMachineObject newVM))
  = result (ValidateUpdate (SetupValidator pc2) ctx (VirtualMachineObject oldVM)
              (VirtualMachineObject newVM)).
Proof.
  intros Hreq Hfa Hans1 Hans2 Hc1 Hs1 Hc2 Hs2 Hother.
  assert (Hstorage : StoragePermissionChecker ∈ @SetupFieldCheckers Opaque _)
    by (unfold SetupFieldCheckers; repeat constructor).
  assert (Hcdrom : CdromUserPermissionChecker ∈ @SetupFieldCheckers Opaque _)
    by (unfold SetupFieldCheckers; repeat constructor).
  destruct (CheckPermission pc2 (Request_UserInfo req) (GetNamespace newVM)
              (GetName newVM) "virtualmachines/full-admin") as [[|]|err] eqn:Hfa2.
  - rewrite (full_admin_bypass (SetupValidator pc1) ctx req oldVM newVM Hreq Hfa).
    rewrite (full_admin_bypass (SetupValidator pc2) ctx req oldVM newVM Hreq Hfa2).
    reflexivity.
  - pose proof (ValidateUpdate_granular (SetupValidator pc1) ctx req oldVM newVM grant1
                  Hreq Hfa Hans1
                  (anyGranted_true _ _ StoragePermissionChecker Hstorage Hs1)) as E1.
    pose proof (ValidateUpdate_granular (SetupValidator pc2) ctx req oldVM newVM grant2
                  Hreq Hfa2 Hans2
                  (anyGranted_true _ _ StoragePermissionChecker Hstorage Hs2)) as E2.
    cbv zeta in E1, E2. rewrite E1, E2. clear E1 E2.
    cbn [result FieldCheckers SetupValidator].
    set (p1 := snapshotOf grant1 SetupFieldCheckers ∅).
    set (p2 := snapshotOf grant2 SetupFieldCheckers ∅).
    change (@SetupFieldCheckers Opaque _) with
      (([NetworkPermissionChecker; ComputePermissionChecker; DevicesPermissionChecker;
         LifecyclePermissionChecker] : list (FieldPermissionChecker Opaque))
       ++ [CdromUserPermissionChecker; StoragePermissionChecker]) at 1 2.
    rewrite !runFieldCheckers_app, !bind_assoc.
    rewrite (runFieldCheckers_perms_agree _ p1 p2).
    + rewrite !result_bind.
      destruct (result (runFieldCheckers _ p2 oldVM newVM)) as [[o4 n4]| |];
        [|done|done].
      cbn [fst snd].
      apply cdrom_storage_tail; subst p1 p2.
      * by rewrite (snapshotOf_lookup _ _ _ CdromUserPermissionChecker).
      * by rewrite (snapshotOf_lookup _ _ _ CdromUserPermissionChecker).
      * by rewrite (snapshotOf_lookup _ _ _ StoragePermissionChecker).
      * by rewrite (snapshotOf_lookup _ _ _ StoragePermissionChecker).
    + intros c Hc. subst p1 p2.
      assert (Hin : c ∈ @SetupFieldCheckers Opaque _).
      { change (@SetupFieldCheckers Opaque _) with
          (([NetworkPermissionChecker; ComputePermissionChecker;
             DevicesPermissionChecker; LifecyclePermissionChecker]
            : list (FieldPermissionChecker Opaque))
           ++ [CdromUserPermissionChecker; StoragePermissionChecker]).
        apply elem_of_app. by left. }
      rewrite !snapshotOf_lookup by done. apply Hother.
      repeat (apply elem_of_cons in Hc as [->|Hc]); try discriminate.
      by apply elem_of_nil in Hc.
  - unfold ValidateUpdate. cbn [Validator_PermissionChecker SetupValidator].
    rewrite Hreq, !bind_emit, !call_bind, Hfa, Hfa2. reflexivity.
Qed.

End Properties.

(** ** The claims on the fixtures of the test suite *)

(** The run of [full_admin_bypass] for an actor with full-admin who changes
    the CPU, removes the volumes and adds a label. *)
Lemma full_admin_bypass_witness :
  ValidateUpdate (testValidator ["virtualmachines/full-admin"]) testCtx
    (VirtualMachineObject (baseVM 2))
    (VirtualMachineObject
       (testVM {["new" := "label"]} None (Some (testTemplate 4 [disk1] []))))
  = Run fullAdminEvents (Val tt).
Proof. apply (full_admin_bypass _ _ testRequest); reflexivity. Defined.

(** The run of [no_grant_allows] for an actor without any grant. *)
Lemma no_grant_allows_witness :
  ValidateUpdate (testValidator []) testCtx
    (VirtualMachineObject (baseVM 2)) (VirtualMachineObject (baseVM 4))
  = Run (fullAdminEvents
           ++ [CheckPermissionCall "default" "test-vm" "virtualmachines/network-admin";
               CheckPermissionCall "default" "test-vm" "virtualmachines/compute-admin";
               CheckPermissionCall "default" "test-vm" "virtualmachines/devices-admin";
               CheckPermissionCall "default" "test-vm" "virtualmachines/lifecycle-admin";
               CheckPermissionCall "default" "test-vm" "virtualmachines/cdrom-user";
               CheckPermissionCall "default" "test-vm" "virtualmachines/storage-admin"])
        (Val tt).
Proof.
  apply (no_grant_allows (testValidator []) testCtx testRequest (baseVM 2) (baseVM 4)).
  - reflexivity.
  - reflexivity.
  - intros c _. reflexivity.
Defined.

(** The run of [residual_diff_verdict] for a storage admin who changes the
    CPU: the metadata are equal, the specs differ. *)
Lemma residual_diff_verdict_witness :
  result (ValidateUpdate (testValidator ["virtualmachines/storage-admin"]) testCtx
            (VirtualMachineObject (baseVM 2)) (VirtualMachineObject (baseVM 4)))
  = Exc errSpec.
Proof.
  refine (proj1 (proj2
    (residual_diff_verdict (testValidator ["virtualmachines/storage-admin"]) testCtx
       testRequest (baseVM 2) (baseVM 4)
       (index_bool {["virtualmachines/storage-admin" := true]})
       [HasChangedCall "network"; HasChangedCall "compute"; HasChangedCall "devices";
        HasChangedCall "lifecycle"; HasChangedCall "cdrom"; HasChangedCall "storage"]
       (baseVM 2) (baseVM 4) _ _ _ _ _)) _ _).
  - reflexivity.
  - reflexivity.
  - intros c _. reflexivity.
  - vm_compute. reflexivity.
  - vm_compute. reflexivity.
  - reflexivity.
  - intros H. vm_compute in H. discriminate H.
Defined.

(** The run of [hierarchical_equivalence] on a media injection. *)
Lemma hierarchical_equivalence_witness :
  result (ValidateUpdate
            (SetupValidator
               (MockPermissionChecker
                  (<["virtualmachines/cdrom-user" := true]>
                     {["virtualmachines/storage-admin" := true]}) false))
            testCtx (VirtualMachineObject (cdromVM [volume1]))
            (VirtualMachineObject (cdromVM [volume1; isoVolume "ubuntu-iso"])))
  = result (ValidateUpdate
              (SetupValidator
                 (MockPermissionChecker {["virtualmachines/storage-admin" := true]} false))
              testCtx (VirtualMachineObject (cdromVM [volume1]))
              (VirtualMachineObject (cdromVM [volume1; isoVolume "ubuntu-iso"]))).
Proof.
  apply (hierarchical_equivalence _ _ testCtx testRequest _ _
           (index_bool (<["virtualmachines/cdrom-user" := true]>
                          {["virtualmachines/storage-admin" := true]}))
           (index_bool {["virtualmachines/storage-admin" := true]})).
  - reflexivity.
  - reflexivity.
  - intros c _. reflexivity.
  - intros c _. reflexivity.
  - vm_compute. reflexivity.
  - vm_compute. reflexivity.
  - vm_compute. reflexivity.
  - vm_compute. reflexivity.
  - intros sub Hne. unfold index_bool. rewrite lookup_insert_ne; [reflexivity|].
    intros Heq. apply Hne. symmetry. exact Heq.
Defined.

(** The guard of [cdrom_HasChanged_guard] on a removed CD-ROM drive. *)
Lemma cdrom_HasChanged_guard_witness :
  HasChanged CdromUserPermissionChecker
    (cdromVM [volume1; isoVolume "ubuntu-iso"]) (baseVM 2) = Some false.
Proof.
  apply (proj1 (cdrom_HasChanged_guard (cdromVM [volume1; isoVolume "ubuntu-iso"])
                  (baseVM 2))).
  vm_compute. intros H. discriminate H.
Defined.

(** The run of [oracle_error_aborts] with the failing mock oracle. *)
Lemma oracle_error_aborts_witness :
  ValidateUpdate (SetupValidator (MockPermissionChecker ∅ true)) testCtx
    (VirtualMachineObject (baseVM 2)) (VirtualMachineObject (baseVM 4))
  = Run fullAdminEvents
      (Exc "failed to check 'virtualmachines/full-admin' permission: mock permission check error").
Proof.
  exact (proj1 (proj1
    (oracle_error_aborts (SetupValidator (MockPermissionChecker ∅ true)) testCtx
       testRequest (baseVM 2) (baseVM 4) eq_refl)
    "mock permission check error" eq_refl)).
Defined.

Lemma ComputePermissionChecker_configured :
  ComputePermissionChecker ∈ @SetupFieldCheckers nat _.
Proof. apply list_elem_of_further, list_elem_of_here. Defined.

Lemma StoragePermissionChecker_configured :
  StoragePermissionChecker ∈ @SetupFieldCheckers nat _.
Proof. do 5 apply list_elem_of_further. apply list_elem_of_here. Defined.

Lemma only_compute_changed (c' : FieldPermissionChecker nat) :
  c' ∈ SetupFieldCheckers ->
  HasChanged c' (baseVM 2) (baseVM 4)
  = Some (bool_decide (Subresource c' = Subresource (@ComputePermissionChecker nat _))).
Proof. intros H. checker_cases H; vm_compute; reflexivity. Defined.

(** The run of [unauthorized_single_category]: a storage admin changes the
    CPU. *)
Lemma unauthorized_single_category_witness :
  result (ValidateUpdate (testValidator ["virtualmachines/storage-admin"]) testCtx
            (VirtualMachineObject (baseVM 2)) (VirtualMachineObject (baseVM 4)))
  = Exc errSpec.
Proof.
  refine (proj1
    (unauthorized_single_category
       (MockPermissionChecker {["virtualmachines/storage-admin" := true]} false)
       testCtx testRequest (baseVM 2) (baseVM 4)
       (index_bool {["virtualmachines/storage-admin" := true]})
       ComputePermissionChecker _ _ _ _ _ _ _ _ _) _).
  - reflexivity.
  - reflexivity.
  - intros c _. reflexivity.
  - split; eexists; reflexivity.
  - exact ComputePermissionChecker_configured.
  - vm_compute. reflexivity.
  - intros c' Hc' Hne.
    checker_cases Hc';
      first [ exfalso; apply Hne; reflexivity | vm_compute; intros H; discriminate H ].
  - vm_compute. reflexivity.
  - exists StoragePermissionChecker. split.
    + exact StoragePermissionChecker_configured.
    + vm_compute. reflexivity.
  - reflexivity.
Defined.

(** C7, as stated, fails: the CPU is the only change and the actor holds
    neither full-admin nor the compute token, but holds no granular token at
    all, so the update is allowed. *)
Lemma unauthorized_without_grants_counterexample :
  (∀ c' : FieldPermissionChecker nat, c' ∈ SetupFieldCheckers ->
     HasChanged c' (baseVM 2) (baseVM 4)
     = Some (bool_decide (Subresource c' = Subresource (@ComputePermissionChecker nat _))))
  ∧ CheckPermission (Validator_PermissionChecker (testValidator []))
      (Request_UserInfo testRequest) "default" "test-vm" "virtualmachines/full-admin"
    = Answer false
  ∧ CheckPermission (Validator_PermissionChecker (testValidator []))
      (Request_UserInfo testRequest) "default" "test-vm" "virtualmachines/compute-admin"
    = Answer false
  ∧ result (ValidateUpdate (testValidator []) testCtx
              (VirtualMachineObject (baseVM 2)) (VirtualMachineObject (baseVM 4)))
    = Val tt
  ∧ result (ValidateUpdate (testValidator []) testCtx
              (VirtualMachineObject (baseVM 2)) (VirtualMachineObject (baseVM 4)))
    ≠ Exc errSpec.
Proof.
  split; [exact only_compute_changed|].
  repeat split; try (vm_compute; reflexivity).
  vm_compute. intros H. discriminate H.
Qed.

(** The run of [neutralize_erases_footprint] for the storage checker. *)
Lemma neutralize_erases_footprint_witness :
  HasChanged StoragePermissionChecker
    (Neutralize StoragePermissionChecker (baseVM 2)
       (cdromVM [volume1; isoVolume "ubuntu-iso"])).1
    (Neutralize StoragePermissionChecker (baseVM 2)
       (cdromVM [volume1; isoVolume "ubuntu-iso"])).2
  = Some false.
Proof.
  apply (proj1 (proj2
    (neutralize_erases_footprint StoragePermissionChecker (baseVM 2)
       (cdromVM [volume1; isoVolume "ubuntu-iso"])
       StoragePermissionChecker_configured))).
  right. split; eexists; reflexivity.
Defined.

(** C8, as stated, fails on a nil template: [Neutralize] of the storage
    checker returns at its guard, the new copy keeps its volume while the old
    copy has no template to compare with, and the checker's own comparison
    does not report equality. *)
Lemma neutralize_nil_template_counterexample :
  Neutralize StoragePermissionChecker (noTemplateVM None) (baseVM 2)
  = (noTemplateVM None, baseVM 2)
  ∧ VM_Template (noTemplateVM None) = None
  ∧ Template_Volumes <$> VM_Template (baseVM 2) = Some [volume1]
  ∧ HasChanged StoragePermissionChecker
      (Neutralize StoragePermissionChecker (noTemplateVM None) (baseVM 2)).1
      (Neutralize StoragePermissionChecker (noTemplateVM None) (baseVM 2)).2
    ≠ Some false.
Proof. repeat split; try reflexivity. vm_compute. intros H. discriminate H. Qed.

(** C9 fails in the code: [HasChanged] of the storage checker dereferences
    [Spec.Template] without the nil test its siblings have.  On two snapshots
    without a template it panics, and so does the whole validation of a
    lifecycle admin who starts such a VM. *)
Theorem storage_HasChanged_nil_template_panics :
  HasChanged StoragePermissionChecker (noTemplateVM None) (noTemplateVM (Some true)) = None
  ∧ result (ValidateUpdate (testValidator ["virtualmachines/lifecycle-admin"]) testCtx
              (VirtualMachineObject (noTemplateVM None))
              (VirtualMachineObject (noTemplateVM (Some true))))
    = Fault
  ∧ (∀ c : FieldPermissionChecker nat, c ∈ SetupFieldCheckers -> Name c ≠ "storage" ->
       is_Some (HasChanged c (noTemplateVM None) (noTemplateVM (Some true)))).
Proof.
  repeat split; try (vm_compute; reflexivity).
  intros c Hc Hname. by apply HasChanged_total_but_storage.
Qed.

(** *** Scenarios of the test suite *)

Example cdrom_user_swaps_media :
  result (ValidateUpdate (testValidator ["virtualmachines/cdrom-user"]) testCtx
            (VirtualMachineObject (cdromVM [volume1; isoVolume "ubuntu-iso"]))
            (VirtualMachineObject (cdromVM [volume1; isoVolume "fedora-iso"])))
  = Val tt.
Proof. vm_compute. reflexivity. Qed.

Example cdrom_user_cannot_add_drive :
  result (ValidateUpdate (testValidator ["virtualmachines/cdrom-user"]) testCtx
            (VirtualMachineObject (baseVM 2))
            (VirtualMachineObject (cdromVM [volume1])))
  = Exc errSpec.
Proof. vm_compute. reflexivity. Qed.

Example storage_admin_covers_media :
  result (ValidateUpdate (testValidator ["virtualmachines/storage-admin"]) testCtx
            (VirtualMachineObject (cdromVM [volume1]))
            (VirtualMachineObject (cdromVM [volume1; isoVolume "ubuntu-iso"])))
  = Val tt.
Proof. vm_compute. reflexivity. Qed.

Example storage_admin_cannot_relabel :
  result (ValidateUpdate (testValidator ["virtualmachines/storage-admin"]) testCtx
            (VirtualMachineObject (baseVM 2))
            (VirtualMachineObject
               (testVM {["new" := "label"]} None (Some (testTemplate 2 [disk1] [volume1])))))
  = Exc errMetadata.
Proof. vm_compute. reflexivity. Qed.

(** ** The decision of the pipeline in closed form *)

Section MoreProperties.

Context {Opaque : Type} `{!EqDecision Opaque}.

Implicit Types (oldVM newVM o n : VirtualMachine Opaque).
Implicit Types (c d : FieldPermissionChecker Opaque).

(** *** What Neutralize leaves alone *)

Ltac indep_cases H :=
  unfold IndependentCheckers in H;
  repeat (apply elem_of_cons in H as [->|H]);
  [ .. | by apply elem_of_nil in H ].

Lemma Independent_configured c : c ∈ IndependentCheckers -> c ∈ SetupFieldCheckers.
Proof.
  intros H. change (@SetupFieldCheckers Opaque _) with
    (@IndependentCheckers Opaque _ ++ HierarchicalCheckers).
  apply elem_of_app. by left.
Qed.

Lemma Neutralize_ObjectMeta c o n :
  c ∈ SetupFieldCheckers ->
  VM_ObjectMeta (Neutralize c o n).1 = VM_ObjectMeta o
  ∧ VM_ObjectMeta (Neutralize c o n).2 = VM_ObjectMeta n.
Proof.
  intros Hc. checker_cases Hc;
    cbn [Neutralize NetworkPermissionChecker ComputePermissionChecker
         DevicesPermissionChecker CdromUserPermissionChecker StoragePermissionChecker
         LifecyclePermissionChecker];
    unfold Network_Neutralize, Compute_Neutralize, Devices_Neutralize,
      Cdrom_Neutralize, Storage_Neutralize, Lifecycle_Neutralize;
    destruct (VM_Template o), (VM_Template n); done.
Qed.

Lemma Neutralize_withTemplates c o n :
  c ∈ SetupFieldCheckers -> withTemplates o n ->
  withTemplates (Neutralize c o n).1 (Neutralize c o n).2.
Proof.
  intros Hc [[ot Hot] [nt Hnt]]. unfold withTemplates.
  checker_cases Hc;
    cbn [Neutralize NetworkPermissionChecker ComputePermissionChecker
         DevicesPermissionChecker CdromUserPermissionChecker StoragePermissionChecker
         LifecyclePermissionChecker];
    unfold Network_Neutralize, Compute_Neutralize, Devices_Neutralize,
      Cdrom_Neutralize, Storage_Neutralize, Lifecycle_Neutralize;
    rewrite ?Hot, ?Hnt; cbn; rewrite ?Hot, ?Hnt; eauto.
Qed.

Lemma Neutralize_unownedPart c o n :
  c ∈ SetupFieldCheckers ->
  unownedPart (Neutralize c o n).1 = unownedPart o
  ∧ unownedPart (Neutralize c o n).2 = unownedPart n.
Proof.
  intros Hc. unfold unownedPart. checker_cases Hc;
    cbn [Neutralize NetworkPermissionChecker ComputePermissionChecker
         DevicesPermissionChecker CdromUserPermissionChecker StoragePermissionChecker
         LifecyclePermissionChecker];
    unfold Network_Neutralize, Compute_Neutralize, Devices_Neutralize,
      Cdrom_Neutralize, Storage_Neutralize, Lifecycle_Neutralize, Lifecycle_clear;
    destruct (VM_Template o) eqn:Ho, (VM_Template n) eqn:Hn; cbn;
    unfold VM_Template in *; cbn; rewrite ?Ho, ?Hn; done.
Qed.

Lemma Independent_storagePart c o n :
  c ∈ IndependentCheckers ->
  storagePart (Neutralize c o n).1 = storagePart o
  ∧ storagePart (Neutralize c o n).2 = storagePart n.
Proof.
  intros Hc. unfold storagePart. indep_cases Hc;
    cbn [Neutralize NetworkPermissionChecker ComputePermissionChecker
         DevicesPermissionChecker LifecyclePermissionChecker];
    unfold Network_Neutralize, Compute_Neutralize, Devices_Neutralize,
      Lifecycle_Neutralize, Lifecycle_clear;
    destruct (VM_Template o) eqn:Ho, (VM_Template n) eqn:Hn; cbn;
    unfold VM_Template in *; cbn; rewrite ?Ho, ?Hn; done.
Qed.

(** The report of an independent checker does not depend on what another
    checker has cleared. *)
Lemma Independent_frame c d o n :
  c ∈ IndependentCheckers -> d ∈ SetupFieldCheckers ->
  Subresource c ≠ Subresource d ->
  HasChanged c (Neutralize d o n).1 (Neutralize d o n).2 = HasChanged c o n.
Proof.
  intros Hc Hd Hne.
  indep_cases Hc; checker_cases Hd; try done;
    cbn [HasChanged Neutralize NetworkPermissionChecker ComputePermissionChecker
         DevicesPermissionChecker CdromUserPermissionChecker StoragePermissionChecker
         LifecyclePermissionChecker];
    unfold Network_Neutralize, Compute_Neutralize, Devices_Neutralize,
      Cdrom_Neutralize, Storage_Neutralize, Lifecycle_Neutralize,
      Network_HasChanged, Compute_HasChanged, Devices_HasChanged, Lifecycle_HasChanged,
      Lifecycle_clear;
    destruct (VM_Template o) eqn:Ho, (VM_Template n) eqn:Hn; cbn;
    unfold VM_Template in *; cbn; rewrite ?Ho, ?Hn; done.
Qed.

Lemma Independent_frame_storage d o n :
  d ∈ IndependentCheckers ->
  Cdrom_HasChanged (Neutralize d o n).1 (Neutralize d o n).2 = Cdrom_HasChanged o n
  ∧ Storage_HasChanged (Neutralize d o n).1 (Neutralize d o n).2 = Storage_HasChanged o n
  ∧ Storage_HasChanged
      (Cdrom_Neutralize (Neutralize d o n).1 (Neutralize d o n).2).1
      (Cdrom_Neutralize (Neutralize d o n).1 (Neutralize d o n).2).2
    = Storage_HasChanged (Cdrom_Neutralize o n).1 (Cdrom_Neutralize o n).2.
Proof.
  intros Hd.
  indep_cases Hd;
    cbn [Neutralize NetworkPermissionChecker ComputePermissionChecker
         DevicesPermissionChecker LifecyclePermissionChecker];
    unfold Network_Neutralize, Compute_Neutralize, Devices_Neutralize,
      Lifecycle_Neutralize, Lifecycle_clear,
      Cdrom_HasChanged, Storage_HasChanged, Cdrom_Neutralize,
      getHotpluggableCdromVolumeNames, getHotpluggableCdromVolumes, getCdromDisks;
    destruct (VM_Template o) eqn:Ho, (VM_Template n) eqn:Hn; cbn;
    unfold VM_Template in *; cbn; rewrite ?Ho, ?Hn; cbn; rewrite ?Ho, ?Hn; done.
Qed.

Lemma Independent_injective c d :
  c ∈ IndependentCheckers -> d ∈ IndependentCheckers ->
  Subresource c = Subresource d -> c = d.
Proof. intros Hc Hd. indep_cases Hc; indep_cases Hd; done. Qed.

Lemma HasChanged_total c o n :
  c ∈ SetupFieldCheckers -> withTemplates o n -> is_Some (HasChanged c o n).
Proof.
  intros Hc Hwt. destruct (decide (Name c = "storage")) as [Hs|Hs].
  - checker_cases Hc; try discriminate Hs. by apply Storage_HasChanged_is_Some.
  - by apply HasChanged_total_but_storage.
Qed.

Lemma HasChanged_same_spec c o n :
  c ∈ SetupFieldCheckers -> withTemplates o n -> VM_Spec o = VM_Spec n ->
  HasChanged c o n = Some false.
Proof.
  intros Hc Hwt Heq. destruct (HasChanged_total c o n Hc Hwt) as [[|] Hb]; [|done].
  by destruct (HasChanged_spec_differs c o n Hc Hb).
Qed.

(** With templates on both sides, the [Spec]s are equal exactly when the
    unowned fields agree and no checker reports a change. *)
Lemma Spec_eq_iff o n :
  withTemplates o n ->
  VM_Spec o = VM_Spec n
  <-> unownedPart o = unownedPart n
      ∧ (∀ c, c ∈ IndependentCheckers -> HasChanged c o n = Some false)
      ∧ Storage_HasChanged o n = Some false.
Proof.
  intros Hwt. split.
  - intros Heq. split; [|split].
    + unfold unownedPart, VM_Template. by rewrite Heq.
    + intros c Hc. apply HasChanged_same_spec; [by apply Independent_configured|done..].
    + apply (HasChanged_same_spec StoragePermissionChecker); [|done..].
      unfold SetupFieldCheckers. do 5 apply list_elem_of_further. apply list_elem_of_here.
  - intros (Hun & Hind & Hst).
    pose proof (Hind NetworkPermissionChecker) as Hnet.
    pose proof (Hind ComputePermissionChecker) as Hcomp.
    pose proof (Hind DevicesPermissionChecker) as Hdev.
    pose proof (Hind LifecyclePermissionChecker) as Hlife.
    clear Hind. unfold IndependentCheckers in *.
    specialize (Hnet ltac:(repeat constructor)).
    specialize (Hcomp ltac:(repeat constructor)).
    specialize (Hdev ltac:(repeat constructor)).
    specialize (Hlife ltac:(repeat constructor)).
    destruct Hwt as [[ot Hot] [nt Hnt]].
    cbn in Hnet, Hcomp, Hdev, Hlife.
    unfold Network_HasChanged, Compute_HasChanged, Devices_HasChanged,
      Lifecycle_HasChanged, Storage_HasChanged, unownedPart in *.
    rewrite Hot, Hnt in *. cbn in *.
    unfold VM_Template in *.
    destruct o as [mo [ro so to xo] uo], n as [mn [rn sn tn xn] un]. cbn in *. subst.
    destruct ot as [tmo [[cpuo reso devo doo] vo no oo]].
    destruct nt as [tmn [[cpun resn devn don] vn nn on]].
    destruct devo, devn. cbn in *.
    repeat match goal with
    | H : Some _ = Some _ |- _ => injection H as H
    | H : _ || _ = false |- _ => apply orb_false_elim in H as [? ?]
    | H : negb _ = false |- _ => apply negb_false_iff in H
    | H : DeepEqual _ _ = true |- _ => apply DeepEqual_eq in H
    end.
    simplify_eq. reflexivity.
Qed.

(** *** The loop over independent checkers, in any order *)

Lemma sameOutside_refl o n : withTemplates o n -> sameOutside o n o n.
Proof. intros H. split; [done|]. by repeat split. Qed.

Lemma sameOutside_step d o n o' n' :
  d ∈ IndependentCheckers ->
  sameOutside (Neutralize d o n).1 (Neutralize d o n).2 o' n' ->
  sameOutside o n o' n'.
Proof.
  intros Hd (Hwt & Hm1 & Hm2 & Hu1 & Hu2 & Hcd & Hst & Hcs).
  pose proof (Independent_configured d Hd) as Hd'.
  destruct (Neutralize_ObjectMeta d o n Hd') as [E1 E2].
  destruct (Neutralize_unownedPart d o n Hd') as [E3 E4].
  destruct (Independent_frame_storage d o n Hd) as (E5 & E6 & E7).
  split; [done|]. repeat split; congruence.
Qed.

Lemma independent_phase {B} (l : list (FieldPermissionChecker Opaque))
  (perms : gmap string bool) o n
  (K : VirtualMachine Opaque * VirtualMachine Opaque -> M B) :
  (∀ c, c ∈ l -> c ∈ IndependentCheckers) ->
  NoDup (Subresource <$> l) ->
  withTemplates o n ->
  ∃ o' n',
    result (runFieldCheckers l perms o n ≫= K) = result (K (o', n'))
    ∧ sameOutside o n o' n'
    ∧ ∀ c, c ∈ IndependentCheckers ->
        HasChanged c o' n' =
          if bool_decide (Subresource c ∈ Subresource <$> l)
             && index_bool perms (Subresource c)
          then Some false else HasChanged c o n.
Proof.
  revert o n. induction l as [|d rest IH]; intros o n Hl Hnd Hwt.
  - exists o, n. split; [apply result_run_nil|]. split; [by apply sameOutside_refl|].
    intros c Hc. cbn. rewrite bool_decide_eq_false_2; [done|]. apply not_elem_of_nil.
  - assert (Hd : d ∈ IndependentCheckers) by (apply Hl; left).
    pose proof (Independent_configured d Hd) as Hd'.
    rewrite fmap_cons in Hnd. apply NoDup_cons in Hnd as [Hnotin Hnd].
    assert (Hrest : ∀ c, c ∈ rest -> c ∈ IndependentCheckers)
      by (intros; apply Hl; by right).
    rewrite result_run_cons.
    destruct (HasChanged_total d o n Hd' Hwt) as [b Hb]. rewrite Hb.
    assert (Hin : ∀ c, c ∈ IndependentCheckers ->
              bool_decide (Subresource c ∈ Subresource <$> d :: rest)
              = bool_decide (Subresource c = Subresource d)
                || bool_decide (Subresource c ∈ Subresource <$> rest)).
    { intros c _. rewrite fmap_cons.
      destruct (decide (Subresource c = Subresource d)) as [Heq|Hne].
      - rewrite (bool_decide_eq_true_2 (Subresource c = Subresource d)) by done.
        cbn. apply bool_decide_eq_true_2. rewrite Heq. left.
      - rewrite (bool_decide_eq_false_2 (Subresource c = Subresource d)) by done.
        cbn. apply bool_decide_ext. rewrite elem_of_cons. tauto. }
    destruct b; [destruct (index_bool perms (Subresource d)) eqn:Hg|].
    + destruct (IH (Neutralize d o n).1 (Neutralize d o n).2 Hrest Hnd
                  (Neutralize_withTemplates d o n Hd' Hwt)) as (o' & n' & Hres & Hso & Hch).
      exists o', n'. split; [done|]. split; [by apply (sameOutside_step d)|].
      intros c Hc. rewrite Hch, Hin by done.
      destruct (decide (Subresource c = Subresource d)) as [Heq|Hne].
      * assert (c = d) as -> by (by apply Independent_injective).
        rewrite (bool_decide_eq_false_2 (Subresource d ∈ Subresource <$> rest)) by done.
        rewrite bool_decide_eq_true_2 by done. cbn. rewrite Hg.
        apply Neutralize_no_change; [done|]. by right.
      * rewrite (bool_decide_eq_false_2 (Subresource c = Subresource d)) by done. cbn.
        by rewrite Independent_frame.
    + destruct (IH o n Hrest Hnd Hwt) as (o' & n' & Hres & Hso & Hch).
      exists o', n'. split; [done|]. split; [done|].
      intros c Hc. rewrite Hch, Hin by done.
      destruct (decide (Subresource c = Subresource d)) as [Heq|Hne].
      * assert (c = d) as -> by (by apply Independent_injective).
        rewrite (bool_decide_eq_false_2 (Subresource d ∈ Subresource <$> rest)) by done.
        rewrite bool_decide_eq_true_2 by done. cbn. by rewrite Hg.
      * by rewrite (bool_decide_eq_false_2 (Subresource c = Subresource d)) by done.
    + destruct (IH o n Hrest Hnd Hwt) as (o' & n' & Hres & Hso & Hch).
      exists o', n'. split; [done|]. split; [done|].
      intros c Hc. rewrite Hch, Hin by done.
      destruct (decide (Subresource c = Subresource d)) as [Heq|Hne].
      * assert (c = d) as -> by (by apply Independent_injective).
        rewrite (bool_decide_eq_false_2 (Subresource d ∈ Subresource <$> rest)) by done.
        rewrite bool_decide_eq_true_2 by done. cbn. rewrite Hb. by case_match.
      * by rewrite (bool_decide_eq_false_2 (Subresource c = Subresource d)) by done.
Qed.

(** *** The CD-ROM and storage checkers at the end of the loop *)

Lemma Hierarchical_configured c : c ∈ HierarchicalCheckers -> c ∈ SetupFieldCheckers.
Proof.
  intros H. change (@SetupFieldCheckers Opaque _) with
    (@IndependentCheckers Opaque _ ++ HierarchicalCheckers).
  apply elem_of_app. by right.
Qed.

Lemma sameIndependent_refl o n : withTemplates o n -> sameIndependent o n o n.
Proof. intros H. split; [done|]. by repeat split. Qed.

Lemma sameIndependent_step d o n :
  d ∈ HierarchicalCheckers -> withTemplates o n ->
  sameIndependent o n (Neutralize d o n).1 (Neutralize d o n).2.
Proof.
  intros Hd Hwt. pose proof (Hierarchical_configured d Hd) as Hd'.
  destruct (Neutralize_ObjectMeta d o n Hd') as [E1 E2].
  destruct (Neutralize_unownedPart d o n Hd') as [E3 E4].
  split; [by apply Neutralize_withTemplates|]. repeat split; try done.
  intros c Hc. apply Independent_frame; [done..|].
  unfold HierarchicalCheckers in Hd.
  repeat (apply elem_of_cons in Hd as [->|Hd]); [| |by apply elem_of_nil in Hd];
    indep_cases Hc; discriminate.
Qed.

Lemma sameIndependent_trans o n o1 n1 o2 n2 :
  sameIndependent o n o1 n1 -> sameIndependent o1 n1 o2 n2 -> sameIndependent o n o2 n2.
Proof.
  intros (_ & A1 & A2 & A3 & A4 & A5) (Hwt & B1 & B2 & B3 & B4 & B5).
  split; [done|]. repeat split; try congruence.
  intros c Hc. by rewrite B5, A5.
Qed.

Lemma Storage_Neutralize_no_change o n :
  withTemplates o n ->
  Storage_HasChanged (Storage_Neutralize o n).1 (Storage_Neutralize o n).2 = Some false.
Proof.
  intros Hwt.
  apply (Neutralize_no_change StoragePermissionChecker); [|by right].
  by apply Hierarchical_configured, list_elem_of_further, list_elem_of_here.
Qed.

Lemma hierarchical_phase {B} (perms : gmap string bool) o n
  (K : VirtualMachine Opaque * VirtualMachine Opaque -> M B) :
  withTemplates o n ->
  ∃ o' n',
    result (runFieldCheckers HierarchicalCheckers perms o n ≫= K) = result (K (o', n'))
    ∧ sameIndependent o n o' n'
    ∧ (Storage_HasChanged o' n' = Some false <-> storageAuthorized (index_bool perms) o n).
Proof.
  intros Hwt.
  assert (Hcd : CdromUserPermissionChecker ∈ @HierarchicalCheckers Opaque _)
    by apply list_elem_of_here.
  assert (Hst : StoragePermissionChecker ∈ @HierarchicalCheckers Opaque _)
    by apply list_elem_of_further, list_elem_of_here.
  unfold HierarchicalCheckers, storageAuthorized.
  rewrite !result_run_cons.
  cbn [HasChanged Neutralize Subresource CdromUserPermissionChecker
       StoragePermissionChecker fst snd].
  pose proof (Cdrom_changed_Storage_changed o n) as Hboth.
  destruct (Cdrom_HasChanged o n) as [[|]|] eqn:Ecd.
  - specialize (Hboth eq_refl (proj1 Hwt) (proj2 Hwt)).
    destruct (index_bool perms "virtualmachines/cdrom-user") eqn:Gcd.
    + pose proof (sameIndependent_step _ o n Hcd Hwt) as S1.
      cbn [Neutralize CdromUserPermissionChecker] in S1.
      pose proof S1 as (Hwt1 & _).
      destruct (Storage_HasChanged (Cdrom_Neutralize o n).1 (Cdrom_Neutralize o n).2)
        as [[|]|] eqn:Est.
      * destruct (index_bool perms "virtualmachines/storage-admin") eqn:Gst.
        -- eexists _, _. split; [apply result_run_nil|]. split.
           ++ eapply sameIndependent_trans; [exact S1|].
              apply (sameIndependent_step StoragePermissionChecker); done.
           ++ rewrite Storage_Neutralize_no_change by done. split; [by left|done].
        -- eexists _, _. split; [apply result_run_nil|]. split; [exact S1|].
           rewrite Est, Hboth. split; [done|].
           intros [?|[?|(_ & _ & ?)]]; done.
      * eexists _, _. split; [apply result_run_nil|]. split; [exact S1|].
        rewrite Est. split; [|done]. intros _. right. right. done.
      * exfalso. apply Storage_HasChanged_is_Some in Hwt1.
        cbn [HasChanged StoragePermissionChecker] in Hwt1. rewrite Est in Hwt1.
        by destruct Hwt1.
    + rewrite Hboth.
      destruct (index_bool perms "virtualmachines/storage-admin") eqn:Gst.
      * eexists _, _. split; [apply result_run_nil|]. split.
        -- apply (sameIndependent_step StoragePermissionChecker); done.
        -- rewrite Storage_Neutralize_no_change by done. split; [by left|done].
      * exists o, n. split; [apply result_run_nil|].
        split; [by apply sameIndependent_refl|].
        rewrite Hboth. split; [done|]. intros [?|[?|(? & _)]]; done.
  - clear Hboth.
    destruct (Storage_HasChanged o n) as [[|]|] eqn:Est.
    + destruct (index_bool perms "virtualmachines/storage-admin") eqn:Gst.
      * eexists _, _. split; [apply result_run_nil|]. split.
        -- apply (sameIndependent_step StoragePermissionChecker); done.
        -- rewrite Storage_Neutralize_no_change by done. split; [by left|done].
      * exists o, n. split; [apply result_run_nil|].
        split; [by apply sameIndependent_refl|].
        rewrite Est. split; [done|]. intros [?|[?|(_ & ? & _)]]; done.
    + exists o, n. split; [apply result_run_nil|].
      split; [by apply sameIndependent_refl|].
      rewrite Est. split; [|done]. intros _. right. by left.
    + exfalso. apply Storage_HasChanged_is_Some in Hwt.
      cbn [HasChanged StoragePermissionChecker] in Hwt. rewrite Est in Hwt.
      by destruct Hwt.
  - exfalso. unfold Cdrom_HasChanged in Ecd. by case_match.
Qed.

Lemma Cdrom_HasChanged_after_Storage o n :
  withTemplates o n ->
  Cdrom_HasChanged (Storage_Neutralize o n).1 (Storage_Neutralize o n).2 = Some false.
Proof.
  intros [[ot Hot] [nt Hnt]].
  unfold Storage_Neutralize. rewrite Hot, Hnt. cbn [fst snd].
  unfold Cdrom_HasChanged, getCdromDisks, getHotpluggableCdromVolumes. cbn.
  by rewrite !DeepEqual_refl.
Qed.

Lemma hierarchical_phase_reversed {B} (perms : gmap string bool) o n
  (K : VirtualMachine Opaque * VirtualMachine Opaque -> M B) :
  withTemplates o n ->
  ∃ o' n',
    result (runFieldCheckers [StoragePermissionChecker; CdromUserPermissionChecker]
              perms o n ≫= K) = result (K (o', n'))
    ∧ sameIndependent o n o' n'
    ∧ (Storage_HasChanged o' n' = Some false <-> storageAuthorized (index_bool perms) o n).
Proof.
  intros Hwt.
  assert (Hcd : CdromUserPermissionChecker ∈ @HierarchicalCheckers Opaque _)
    by apply list_elem_of_here.
  assert (Hst : StoragePermissionChecker ∈ @HierarchicalCheckers Opaque _)
    by apply list_elem_of_further, list_elem_of_here.
  unfold storageAuthorized.
  rewrite !result_run_cons.
  cbn [HasChanged Neutralize Subresource CdromUserPermissionChecker
       StoragePermissionChecker fst snd].
  pose proof (Cdrom_changed_Storage_changed o n) as Hboth.
  destruct (Storage_HasChanged o n) as [[|]|] eqn:Est.
  - destruct (index_bool perms "virtualmachines/storage-admin") eqn:Gst.
    + rewrite Cdrom_HasChanged_after_Storage by done.
      eexists _, _. split; [apply result_run_nil|]. split.
      * apply (sameIndependent_step StoragePermissionChecker); done.
      * rewrite Storage_Neutralize_no_change by done. split; [by left|done].
    + destruct (Cdrom_HasChanged o n) as [[|]|] eqn:Ecd.
      * destruct (index_bool perms "virtualmachines/cdrom-user") eqn:Gcd.
        -- eexists _, _. split; [apply result_run_nil|]. split.
           ++ apply (sameIndependent_step CdromUserPermissionChecker); done.
           ++ cbn [Neutralize CdromUserPermissionChecker]. split.
              ** intros ?. right. right. done.
              ** intros [?|[?|(_ & _ & ?)]]; done.
        -- exists o, n. split; [apply result_run_nil|].
           split; [by apply sameIndependent_refl|].
           rewrite Est. split; [done|]. intros [?|[?|(? & _)]]; done.
      * exists o, n. split; [apply result_run_nil|].
        split; [by apply sameIndependent_refl|].
        rewrite Est. split; [done|]. intros [?|[?|(_ & ? & _)]]; done.
      * exfalso. unfold Cdrom_HasChanged in Ecd. by case_match.
  - destruct (Cdrom_HasChanged o n) as [[|]|] eqn:Ecd.
    + specialize (Hboth eq_refl (proj1 Hwt) (proj2 Hwt)). done.
    + exists o, n. split; [apply result_run_nil|].
      split; [by apply sameIndependent_refl|].
      rewrite Est. split; [|done]. intros _. right. by left.
    + exfalso. unfold Cdrom_HasChanged in Ecd. by case_match.
  - exfalso. apply Storage_HasChanged_is_Some in Hwt.
    cbn [HasChanged StoragePermissionChecker] in Hwt. rewrite Est in Hwt.
    by destruct Hwt.
Qed.

Lemma hierarchical_phase_any {B} (tail : list (FieldPermissionChecker Opaque))
  (perms : gmap string bool) o n
  (K : VirtualMachine Opaque * VirtualMachine Opaque -> M B) :
  hierarchicalOrder tail -> withTemplates o n ->
  ∃ o' n',
    result (runFieldCheckers tail perms o n ≫= K) = result (K (o', n'))
    ∧ sameIndependent o n o' n'
    ∧ (Storage_HasChanged o' n' = Some false <-> storageAuthorized (index_bool perms) o n).
Proof.
  intros [-> | ->] Hwt.
  - by apply hierarchical_phase.
  - by apply hierarchical_phase_reversed.
Qed.

Lemma hierarchicalOrder_elem (tail : list (FieldPermissionChecker Opaque)) c :
  hierarchicalOrder tail -> c ∈ HierarchicalCheckers -> c ∈ tail.
Proof.
  unfold HierarchicalCheckers. intros [-> | ->] Hc;
    repeat (apply elem_of_cons in Hc as [->|Hc]); try (by apply elem_of_nil in Hc).
  - apply list_elem_of_here.
  - apply list_elem_of_further, list_elem_of_here.
  - apply list_elem_of_further, list_elem_of_here.
  - apply list_elem_of_here.
Qed.

(** *** The verdict of the whole loop *)

Lemma storageAuthorized_ext (g1 g2 : string -> bool) o n :
  g1 "virtualmachines/storage-admin" = g2 "virtualmachines/storage-admin" ->
  g1 "virtualmachines/cdrom-user" = g2 "virtualmachines/cdrom-user" ->
  storageAuthorized g1 o n -> storageAuthorized g2 o n.
Proof. unfold storageAuthorized. intros <- <-. done. Qed.

Lemma specAuthorized_ext (g1 g2 : string -> bool) o n :
  (∀ c : FieldPermissionChecker Opaque, c ∈ SetupFieldCheckers ->
     g1 (Subresource c) = g2 (Subresource c)) ->
  specAuthorized g1 o n -> specAuthorized g2 o n.
Proof.
  intros Hext (Hun & Hind & Hst). split; [done|]. split.
  - intros c Hc Hch. rewrite <- Hext by (by apply Independent_configured). by apply Hind.
  - apply (storageAuthorized_ext g1); [| |done].
    + apply (Hext StoragePermissionChecker).
      by apply Hierarchical_configured, list_elem_of_further, list_elem_of_here.
    + apply (Hext CdromUserPermissionChecker).
      by apply Hierarchical_configured, list_elem_of_here.
Qed.

Lemma independentOrder_configured : independentOrder (@IndependentCheckers Opaque _).
Proof.
  split; [done|]. split.
  - unfold IndependentCheckers. cbn. repeat (apply NoDup_cons; split);
      [..|apply NoDup_nil_2]; rewrite ?elem_of_cons, ?elem_of_nil;
      intros H; repeat destruct H as [H|H]; done.
  - intros c Hc. by apply list_elem_of_fmap_2.
Qed.

Lemma loop_verdict (l tail : list (FieldPermissionChecker Opaque))
  (perms : gmap string bool) o n :
  independentOrder l -> hierarchicalOrder tail -> withTemplates o n ->
  ∃ o' n',
    result (runFieldCheckers (l ++ tail) perms o n
              ≫= (fun copies => residualVerdict copies.1 copies.2))
    = result (residualVerdict o' n')
    ∧ VM_ObjectMeta o' = VM_ObjectMeta o ∧ VM_ObjectMeta n' = VM_ObjectMeta n
    ∧ (VM_Spec o' = VM_Spec n' <-> specAuthorized (index_bool perms) o n).
Proof.
  intros (Hsub & Hnd & Hcov) Htail Hwt.
  rewrite runFieldCheckers_app, bind_assoc.
  destruct (independent_phase l perms o n
              (fun copies => runFieldCheckers tail perms copies.1 copies.2
                 ≫= (fun copies => residualVerdict copies.1 copies.2)) Hsub Hnd Hwt)
    as (o4 & n4 & Hres4 & (Hwt4 & M1 & M2 & U1 & U2 & S1 & S2 & S3) & Hch4).
  rewrite Hres4. cbn [fst snd].
  destruct (hierarchical_phase_any tail perms o4 n4
              (fun copies => residualVerdict copies.1 copies.2) Htail Hwt4)
    as (o6 & n6 & Hres6 & (Hwt6 & M3 & M4 & U3 & U4 & Hch6) & Hst6).
  exists o6, n6. split; [done|]. split; [congruence|]. split; [congruence|].
  rewrite (Spec_eq_iff o6 n6 Hwt6), Hst6.
  unfold specAuthorized, storageAuthorized. rewrite U3, U4, U1, U2, S1, S2, S3.
  split; intros (Hun & Hind & Hst); (split; [done|]); (split; [|done]).
  - intros c Hc Hchanged.
    specialize (Hind c Hc). rewrite Hch6, Hch4 in Hind by done.
    rewrite Hchanged in Hind. by destruct (index_bool perms (Subresource c)), (bool_decide _).
  - intros c Hc. rewrite Hch6, Hch4 by done.
    rewrite (bool_decide_eq_true_2 _ (Hcov c Hc)). cbn.
    destruct (index_bool perms (Subresource c)) eqn:Hg; [done|].
    destruct (HasChanged_total c o n (Independent_configured c Hc) Hwt) as [[|] Hb];
      [|done].
    specialize (Hind c Hc Hb). congruence.
Qed.

(** The verdict for a holder of granular tokens, for any order of the
    independent checkers before the CD-ROM and the storage checker. *)
Lemma granular_verdict (v : VirtualMachineCustomValidator Opaque) (ctx : Context Opaque)
  (req : Request Opaque) oldVM newVM (grant : string -> bool)
  (l tail : list (FieldPermissionChecker Opaque)) :
  FieldCheckers v = l ++ tail ->
  independentOrder l ->
  hierarchicalOrder tail ->
  RequestFromContext ctx = inl req ->
  CheckPermission (Validator_PermissionChecker v) (Request_UserInfo req)
    (GetNamespace newVM) (GetName newVM) "virtualmachines/full-admin" = Answer false ->
  (∀ c, c ∈ FieldCheckers v ->
     CheckPermission (Validator_PermissionChecker v) (Request_UserInfo req)
       (GetNamespace newVM) (GetName newVM) (Subresource c)
     = Answer (grant (Subresource c))) ->
  anyGranted grant (FieldCheckers v) = true ->
  withTemplates oldVM newVM ->
  let verdict := result (ValidateUpdate v ctx (VirtualMachineObject oldVM)
                           (VirtualMachineObject newVM)) in
  (specAuthorized grant oldVM newVM ∨ ¬ specAuthorized grant oldVM newVM)
  ∧ (metadataUnchanged oldVM newVM -> specAuthorized grant oldVM newVM -> verdict = Val tt)
  ∧ (metadataUnchanged oldVM newVM -> ¬ specAuthorized grant oldVM newVM ->
       verdict = Exc errSpec)
  ∧ (¬ metadataUnchanged oldVM newVM -> verdict = Exc errMetadata).
Proof.
  intros Hlist Hord Htail Hreq Hfa Hans Hany Hwt verdict. subst verdict.
  rewrite (ValidateUpdate_granular v ctx req oldVM newVM grant Hreq Hfa Hans Hany).
  cbn [result]. rewrite Hlist.
  set (perms := snapshotOf grant (l ++ tail) ∅).
  destruct (loop_verdict l tail perms oldVM newVM Hord Htail Hwt)
    as (o' & n' & -> & M1 & M2 & Hspec).
  rewrite residualVerdict_result, M1, M2.
  assert (Hsetup : ∀ c : FieldPermissionChecker Opaque, c ∈ SetupFieldCheckers ->
            index_bool perms (Subresource c) = grant (Subresource c)).
  { intros c Hc. destruct Hord as (_ & _ & Hcov).
    change (@SetupFieldCheckers Opaque _) with
      (@IndependentCheckers Opaque _ ++ HierarchicalCheckers) in Hc.
    apply elem_of_app in Hc as [Hc|Hc].
    - apply Hcov, list_elem_of_fmap in Hc as (c' & Heq & Hc'). rewrite Heq.
      apply snapshotOf_lookup, elem_of_app. by left.
    - apply snapshotOf_lookup, elem_of_app. right. by apply hierarchicalOrder_elem. }
  assert (Hiff : VM_Spec o' = VM_Spec n' <-> specAuthorized grant oldVM newVM).
  { rewrite Hspec. split; apply specAuthorized_ext; intros c Hc; by rewrite Hsetup. }
  unfold metadataUnchanged. split; [|split; [|split]].
  - destruct (decide (VM_Spec o' = VM_Spec n')) as [He|He]; [left|right]; by rewrite <- Hiff.
  - intros Hm Hs. rewrite decide_True by done. by rewrite decide_True by (by apply Hiff).
  - intros Hm Hs. rewrite decide_True by done.
    rewrite decide_False; [done|]. intros ?. by apply Hs, Hiff.
  - intros Hm. by rewrite decide_False.
Qed.

(** The same for the configured validator, with the three outcomes told
    apart. *)
Lemma setup_verdict (pc : PermissionChecker Opaque) (ctx : Context Opaque)
  (req : Request Opaque) oldVM newVM (grant : string -> bool) :
  RequestFromContext ctx = inl req ->
  CheckPermission pc (Request_UserInfo req) (GetNamespace newVM) (GetName newVM)
    "virtualmachines/full-admin" = Answer false ->
  (∀ c : FieldPermissionChecker Opaque, c ∈ SetupFieldCheckers ->
     CheckPermission pc (Request_UserInfo req) (GetNamespace newVM) (GetName newVM)
       (Subresource c) = Answer (grant (Subresource c))) ->
  (∃ c : FieldPermissionChecker Opaque,
     c ∈ SetupFieldCheckers ∧ grant (Subresource c) = true) ->
  withTemplates oldVM newVM ->
  let verdict := result (ValidateUpdate (SetupValidator pc) ctx
                           (VirtualMachineObject oldVM) (VirtualMachineObject newVM)) in
  (verdict = Val tt <-> metadataUnchanged oldVM newVM ∧ specAuthorized grant oldVM newVM)
  ∧ (verdict = Exc errSpec
     <-> metadataUnchanged oldVM newVM ∧ ¬ specAuthorized grant oldVM newVM)
  ∧ (verdict = Exc errMetadata <-> ¬ metadataUnchanged oldVM newVM).
Proof.
  intros Hreq Hfa Hans (g & Hg & Hgrant) Hwt verdict.
  destruct (granular_verdict (SetupValidator pc) ctx req oldVM newVM grant
              IndependentCheckers HierarchicalCheckers eq_refl
              independentOrder_configured (or_introl eq_refl) Hreq Hfa Hans
              (anyGranted_true _ _ g Hg Hgrant) Hwt) as (Hdec & Hallow & Hspec & Hmeta).
  fold verdict in Hallow, Hspec, Hmeta.
  destruct (decide (normalizeOne (VM_ObjectMeta oldVM)
                    = normalizeOne (VM_ObjectMeta newVM))) as [Hm|Hm];
    fold (metadataUnchanged oldVM newVM) in Hm.
  - destruct Hdec as [Hs|Hs].
    + rewrite (Hallow Hm Hs). split; [|split]; split; try done.
      * intros [_ ?]. done.
    + rewrite (Hspec Hm Hs). split; [|split]; split; try done.
      * intros [_ ?]. done.
  - rewrite (Hmeta Hm). split; [|split]; split; try done.
    + intros [? _]. done.
    + intros [? _]. done.
Qed.

(** ** Properties of the decision *)

(** X1: for an actor who holds a granular token and not full-admin, and
    snapshots that both carry a template, the verdict is decided by the
    fields alone: Allow exactly when the user-authored metadata are unchanged,
    no field outside the footprints differs, every independent checker that
    reports a change is granted, and the storage side is authorised, that is:
    the storage checker reports no change, or storage-admin is held, or
    cdrom-user is held, the CD-ROM checker reports a change and the storage
    checker reports none after the CD-ROM checker's [Neutralize];
    Deny(metadata) exactly when the metadata changed; Deny(spec) otherwise. *)
Theorem granular_verdict_characterisation (pc : PermissionChecker Opaque)
  (ctx : Context Opaque) (req : Request Opaque) oldVM newVM (grant : string -> bool) :
  RequestFromContext ctx = inl req ->
  granularActor pc req newVM grant ->
  withTemplates oldVM newVM ->
  let verdict := result (ValidateUpdate (SetupValidator pc) ctx
                           (VirtualMachineObject oldVM) (VirtualMachineObject newVM)) in
  (verdict = Val tt <-> metadataUnchanged oldVM newVM ∧ specAuthorized grant oldVM newVM)
  ∧ (verdict = Exc errSpec
     <-> metadataUnchanged oldVM newVM ∧ ¬ specAuthorized grant oldVM newVM)
  ∧ (verdict = Exc errMetadata <-> ¬ metadataUnchanged oldVM newVM).
Proof. intros Hreq (Hfa & Hans & Hany) Hwt. by apply (setup_verdict pc ctx req). Qed.

(** X2: among actors who hold a granular token, more tokens never take an
    ability away: an update allowed under [grant1] is allowed under every
    [grant2] that contains it. *)
Theorem grants_monotone (pc1 pc2 : PermissionChecker Opaque) (ctx : Context Opaque)
  (req : Request Opaque) oldVM newVM (grant1 grant2 : string -> bool) :
  RequestFromContext ctx = inl req ->
  granularActor pc1 req newVM grant1 ->
  granularActor pc2 req newVM grant2 ->
  (∀ c : FieldPermissionChecker Opaque, c ∈ SetupFieldCheckers ->
     grant1 (Subresource c) = true -> grant2 (Subresource c) = true) ->
  withTemplates oldVM newVM ->
  result (ValidateUpdate (SetupValidator pc1) ctx (VirtualMachineObject oldVM)
            (VirtualMachineObject newVM)) = Val tt ->
  result (ValidateUpdate (SetupValidator pc2) ctx (VirtualMachineObject oldVM)
            (VirtualMachineObject newVM)) = Val tt.
Proof.
  intros Hreq (Hfa1 & Hans1 & Hany1) (Hfa2 & Hans2 & Hany2) Hle Hwt Hallow.
  apply (setup_verdict pc1 ctx req oldVM newVM grant1) in Hallow as [Hm Hs]; try done.
  apply (setup_verdict pc2 ctx req oldVM newVM grant2); try done.
  split; [done|]. destruct Hs as (Hun & Hind & Hst). split; [done|]. split.
  - intros c Hc Hch. apply Hle; [by apply Independent_configured|]. by apply Hind.
  - assert (Hstorage : StoragePermissionChecker ∈ @SetupFieldCheckers Opaque _)
      by (by apply Hierarchical_configured, list_elem_of_further, list_elem_of_here).
    assert (Hcdrom : CdromUserPermissionChecker ∈ @SetupFieldCheckers Opaque _)
      by (by apply Hierarchical_configured, list_elem_of_here).
    destruct Hst as [Hst|[Hst|(Hcd & Hch & Hst)]].
    + left. by apply (Hle StoragePermissionChecker).
    + right. by left.
    + right. right. split; [|done]. by apply (Hle CdromUserPermissionChecker).
Qed.

(** X3: between snapshots that both carry a template, a change that one
    checker reports and its [Neutralize] erases completely is allowed to
    every holder of that checker's token (without full-admin), whatever other
    tokens the actor holds or lacks. *)
Theorem single_category_authorized (pc : PermissionChecker Opaque) (ctx : Context Opaque)
  (req : Request Opaque) oldVM newVM (grant : string -> bool)
  (c : FieldPermissionChecker Opaque) :
  RequestFromContext ctx = inl req ->
  granularActor pc req newVM grant ->
  withTemplates oldVM newVM ->
  c ∈ SetupFieldCheckers ->
  grant (Subresource c) = true ->
  HasChanged c oldVM newVM = Some true ->
  VM_Spec (Neutralize c oldVM newVM).1 = VM_Spec (Neutralize c oldVM newVM).2 ->
  metadataUnchanged oldVM newVM ->
  result (ValidateUpdate (SetupValidator pc) ctx (VirtualMachineObject oldVM)
            (VirtualMachineObject newVM)) = Val tt.
Proof.
  intros Hreq (Hfa & Hans & Hany) Hwt Hc Hgrant Hchanged Herased Hmeta.
  apply (setup_verdict pc ctx req oldVM newVM grant); try done.
  split; [done|].
  apply Spec_eq_iff in Herased as (Hun & Hind & Hst);
    [|by apply Neutralize_withTemplates].
  destruct (Neutralize_unownedPart c oldVM newVM Hc) as [U1 U2].
  rewrite U1, U2 in Hun. split; [done|].
  change (@SetupFieldCheckers Opaque _) with
    (@IndependentCheckers Opaque _ ++ HierarchicalCheckers) in Hc.
  apply elem_of_app in Hc as [Hc|Hc].
  - split.
    + intros d Hd Hdch.
      destruct (decide (Subresource d = Subresource c)) as [Heq|Hne].
      * by rewrite Heq.
      * specialize (Hind d Hd).
        rewrite Independent_frame in Hind by (try done; by apply Independent_configured).
        congruence.
    + right. left. destruct (Independent_frame_storage c oldVM newVM Hc) as (_ & E & _).
      by rewrite <- E.
  - assert (Hframe : ∀ d, d ∈ IndependentCheckers ->
              HasChanged d oldVM newVM = Some true -> grant (Subresource d) = true).
    { intros d Hd Hdch. specialize (Hind d Hd).
      destruct (sameIndependent_step c oldVM newVM Hc Hwt) as (_ & _ & _ & _ & _ & F).
      rewrite F in Hind by done. congruence. }
    split; [done|].
    unfold HierarchicalCheckers in Hc.
    repeat (apply elem_of_cons in Hc as [->|Hc]); [| |by apply elem_of_nil in Hc].
    + right. right. done.
    + by left.
Qed.

(** X4: between snapshots that both carry a template, a change reported by
    one of the four independent checkers is denied to every granular actor
    who lacks that checker's token, whatever else changed and whatever other
    tokens the actor holds. *)
Theorem unauthorized_independent_category_denied (pc : PermissionChecker Opaque)
  (ctx : Context Opaque) (req : Request Opaque) oldVM newVM (grant : string -> bool)
  (c : FieldPermissionChecker Opaque) :
  RequestFromContext ctx = inl req ->
  granularActor pc req newVM grant ->
  withTemplates oldVM newVM ->
  c ∈ IndependentCheckers ->
  HasChanged c oldVM newVM = Some true ->
  grant (Subresource c) = false ->
  let verdict := result (ValidateUpdate (SetupValidator pc) ctx
                           (VirtualMachineObject oldVM) (VirtualMachineObject newVM)) in
  (metadataUnchanged oldVM newVM -> verdict = Exc errSpec)
  ∧ (¬ metadataUnchanged oldVM newVM -> verdict = Exc errMetadata).
Proof.
  intros Hreq (Hfa & Hans & Hany) Hwt Hc Hchanged Hdenied verdict.
  destruct (setup_verdict pc ctx req oldVM newVM grant Hreq Hfa Hans Hany Hwt)
    as (_ & Hspec & Hmeta).
  fold verdict in Hspec, Hmeta. split.
  - intros Hm. apply Hspec. split; [done|].
    intros (_ & Hind & _). specialize (Hind c Hc Hchanged). congruence.
  - intros Hm. by apply Hmeta.
Qed.

(** X5: between snapshots that both carry a template, the fields of [Spec]
    that no checker owns are frozen for granular actors: if one of them
    differs the update is denied, whatever tokens the actor holds. *)
Theorem unowned_fields_frozen (pc : PermissionChecker Opaque) (ctx : Context Opaque)
  (req : Request Opaque) oldVM newVM (grant : string -> bool) :
  RequestFromContext ctx = inl req ->
  granularActor pc req newVM grant ->
  withTemplates oldVM newVM ->
  unownedPart oldVM ≠ unownedPart newVM ->
  let verdict := result (ValidateUpdate (SetupValidator pc) ctx
                           (VirtualMachineObject oldVM) (VirtualMachineObject newVM)) in
  (metadataUnchanged oldVM newVM -> verdict = Exc errSpec)
  ∧ (¬ metadataUnchanged oldVM newVM -> verdict = Exc errMetadata).
Proof.
  intros Hreq (Hfa & Hans & Hany) Hwt Hdiff verdict.
  destruct (setup_verdict pc ctx req oldVM newVM grant Hreq Hfa Hans Hany Hwt)
    as (_ & Hspec & Hmeta).
  fold verdict in Hspec, Hmeta. split.
  - intros Hm. apply Hspec. split; [done|]. by intros (Hun & _).
  - intros Hm. by apply Hmeta.
Qed.

Lemma Storage_HasChanged_false o n ot nt :
  VM_Template o = Some ot -> VM_Template n = Some nt ->
  Storage_HasChanged o n = Some false ->
  Template_Volumes ot = Template_Volumes nt
  ∧ Template_Disks ot = Template_Disks nt
  ∧ Devices_Filesystems (Template_Devices ot) = Devices_Filesystems (Template_Devices nt).
Proof.
  intros Hot Hnt. unfold Storage_HasChanged. rewrite Hot, Hnt. cbn. intros [= H].
  apply orb_false_elim in H as [H Hfs]. apply orb_false_elim in H as [Hv Hd].
  apply negb_false_iff, DeepEqual_eq in Hv.
  apply negb_false_iff, DeepEqual_eq in Hd.
  apply negb_false_iff, DeepEqual_eq in Hfs. done.
Qed.

(** X6: without storage-admin (and full-admin) no granular actor can change
    the disk list or the filesystems; in particular cdrom-user does not
    allow adding, removing or altering a CD-ROM drive. *)
Theorem disks_need_storage_admin (pc : PermissionChecker Opaque) (ctx : Context Opaque)
  (req : Request Opaque) oldVM newVM (grant : string -> bool)
  (ot nt : VirtualMachineInstanceTemplateSpec Opaque) :
  RequestFromContext ctx = inl req ->
  granularActor pc req newVM grant ->
  VM_Template oldVM = Some ot -> VM_Template newVM = Some nt ->
  Template_Disks ot ≠ Template_Disks nt
  ∨ Devices_Filesystems (Template_Devices ot) ≠ Devices_Filesystems (Template_Devices nt) ->
  grant "virtualmachines/storage-admin" = false ->
  let verdict := result (ValidateUpdate (SetupValidator pc) ctx
                           (VirtualMachineObject oldVM) (VirtualMachineObject newVM)) in
  (metadataUnchanged oldVM newVM -> verdict = Exc errSpec)
  ∧ (¬ metadataUnchanged oldVM newVM -> verdict = Exc errMetadata).
Proof.
  intros Hreq (Hfa & Hans & Hany) Hot Hnt Hdiff Hdenied verdict.
  assert (Hwt : withTemplates oldVM newVM) by (split; eauto).
  destruct (setup_verdict pc ctx req oldVM newVM grant Hreq Hfa Hans Hany Hwt)
    as (_ & Hspec & Hmeta).
  fold verdict in Hspec, Hmeta. split; [|intros Hm; by apply Hmeta].
  intros Hm. apply Hspec. split; [done|].
  intros (_ & _ & [Hst|[Hst|(_ & _ & Hst)]]).
  - congruence.
  - apply (Storage_HasChanged_false _ _ ot nt) in Hst as (_ & Hd & Hf); try done.
    destruct Hdiff; done.
  - unfold Cdrom_Neutralize in Hst. rewrite Hot, Hnt in Hst. cbn [fst snd] in Hst.
    eapply Storage_HasChanged_false in Hst as (_ & Hd & Hf); [|reflexivity..].
    destruct Hdiff; done.
Qed.

(** X7: for the verdict the order of the checkers does not matter, neither
    among the four independent ones nor between the CD-ROM and the storage
    checker: a validator that runs the independent checkers in any order and
    then the other two in either order gives a granular actor the verdict of
    the configured one. *)
Theorem checker_order_irrelevant (v : VirtualMachineCustomValidator Opaque)
  (ctx : Context Opaque) (req : Request Opaque) oldVM newVM (grant : string -> bool)
  (l tail : list (FieldPermissionChecker Opaque)) :
  FieldCheckers v = l ++ tail ->
  independentOrder l ->
  hierarchicalOrder tail ->
  RequestFromContext ctx = inl req ->
  granularActor (Validator_PermissionChecker v) req newVM grant ->
  withTemplates oldVM newVM ->
  result (ValidateUpdate v ctx (VirtualMachineObject oldVM) (VirtualMachineObject newVM))
  = result (ValidateUpdate (SetupValidator (Validator_PermissionChecker v)) ctx
              (VirtualMachineObject oldVM) (VirtualMachineObject newVM)).
Proof.
  intros Hlist Hord Htail Hreq (Hfa & Hans & (g & Hg & Hgrant)) Hwt.
  assert (Hin : ∀ c, c ∈ FieldCheckers v -> c ∈ SetupFieldCheckers).
  { intros c. rewrite Hlist. intros [Hc|Hc]%elem_of_app.
    - apply Independent_configured. by apply Hord.
    - apply Hierarchical_configured. unfold HierarchicalCheckers.
      destruct Htail as [-> | ->]; [done|].
      repeat (apply elem_of_cons in Hc as [->|Hc]); try (by apply elem_of_nil in Hc).
      + apply list_elem_of_further, list_elem_of_here.
      + apply list_elem_of_here. }
  assert (Hany : anyGranted grant (FieldCheckers v) = true).
  { rewrite Hlist.
    change (@SetupFieldCheckers Opaque _) with
      (@IndependentCheckers Opaque _ ++ HierarchicalCheckers) in Hg.
    apply elem_of_app in Hg as [Hg|Hg].
    - destruct Hord as (_ & _ & Hcov).
      apply Hcov, list_elem_of_fmap in Hg as (g' & Heq & Hg').
      apply (anyGranted_true _ _ g'); [apply elem_of_app; by left|by rewrite <- Heq].
    - apply (anyGranted_true _ _ g); [|done].
      apply elem_of_app. right. by apply hierarchicalOrder_elem. }
  destruct (granular_verdict v ctx req oldVM newVM grant l tail Hlist Hord Htail Hreq Hfa
              (fun c Hc => Hans c (Hin c Hc)) Hany Hwt) as (Hdec & A1 & S1 & M1).
  destruct (granular_verdict (SetupValidator (Validator_PermissionChecker v)) ctx req
              oldVM newVM grant IndependentCheckers HierarchicalCheckers eq_refl
              independentOrder_configured (or_introl eq_refl)
              Hreq Hfa Hans (anyGranted_true _ _ g Hg Hgrant) Hwt) as (_ & A2 & S2 & M2).
  destruct (decide (normalizeOne (VM_ObjectMeta oldVM)
                    = normalizeOne (VM_ObjectMeta newVM))) as [Hm|Hm];
    fold (metadataUnchanged oldVM newVM) in Hm.
  - destruct Hdec as [Hs|Hs].
    + by rewrite (A1 Hm Hs), (A2 Hm Hs).
    + by rewrite (S1 Hm Hs), (S2 Hm Hs).
  - by rewrite (M1 Hm), (M2 Hm).
Qed.

(** ** What a run does, for any oracle *)

Lemma trace_bind {A B} (m : M A) (f : A -> M B) :
  trace (m ≫= f) =
    trace m ++ match result m with Val a => trace (f a) | _ => [] end.
Proof. destruct m as [t [a| |]]; cbn; by rewrite ?app_nil_r. Qed.

Lemma ValidateUpdate_unfold (v : VirtualMachineCustomValidator Opaque)
  (ctx : Context Opaque) (req : Request Opaque) oldVM newVM :
  RequestFromContext ctx = inl req ->
  ValidateUpdate v ctx (VirtualMachineObject oldVM) (VirtualMachineObject newVM) =
    Run (logUpdate newVM :: queryEvent newVM "virtualmachines/full-admin"
           :: trace (afterFullAdmin v req oldVM newVM))
        (result (afterFullAdmin v req oldVM newVM)).
Proof.
  intros Hreq. unfold ValidateUpdate, afterFullAdmin.
  rewrite Hreq, bind_emit, call_bind.
  destruct (CheckPermission _ _ _ _ _) as [[|]|err]; reflexivity.
Qed.

Lemma ValidateUpdate_no_request (v : VirtualMachineCustomValidator Opaque)
  (ctx : Context Opaque) (err : string) oldVM newVM :
  RequestFromContext ctx = inr err ->
  ValidateUpdate v ctx (VirtualMachineObject oldVM) (VirtualMachineObject newVM) =
    Run [logUpdate newVM]
      (Exc ("failed to get admission request from context: " +:+ err)).
Proof. intros Hreq. unfold ValidateUpdate. rewrite Hreq. reflexivity. Qed.

(** The queries of Step 2, for any oracle: a prefix of the configured tokens,
    all of them when the loop returns; the map then holds [true] only where
    the oracle answered true. *)
Lemma checkSubresources_run (pc : PermissionChecker Opaque) ui ns nm
  (l : list (FieldPermissionChecker Opaque)) perms any :
  trace (checkSubresources pc ui ns nm l perms any)
    `prefix_of` map (fun c => CheckPermissionCall ns nm (Subresource c)) l
  ∧ result (checkSubresources pc ui ns nm l perms any) ≠ Fault
  ∧ ∀ p a, result (checkSubresources pc ui ns nm l perms any) = Val (p, a) ->
      trace (checkSubresources pc ui ns nm l perms any)
        = map (fun c => CheckPermissionCall ns nm (Subresource c)) l
      ∧ ∀ sub, index_bool p sub = true ->
          index_bool perms sub = true
          ∨ (∃ c, c ∈ l ∧ Subresource c = sub)
            ∧ CheckPermission pc ui ns nm sub = Answer true.
Proof.
  revert perms any. induction l as [|c rest IH]; intros perms any.
  - cbn. split; [done|]. split; [done|]. intros p a [= <- <-]. split; [done|]. by left.
  - cbn [checkSubresources map]. rewrite call_bind.
    destruct (CheckPermission pc ui ns nm (Subresource c)) as [b|err] eqn:Hans.
    + destruct (IH (<[Subresource c := b]> perms) (if b then true else any))
        as (Hpre & Hnf & Hval).
      cbn [trace result]. split; [by apply prefix_cons|]. split; [done|].
      intros p a Hres. destruct (Hval p a Hres) as [Htr Hp].
      split; [by rewrite Htr|]. intros sub Hsub.
      destruct (Hp sub Hsub) as [Hins|[(c' & Hc' & Heq) Hgr]].
      * unfold index_bool in Hins.
        destruct (decide (Subresource c = sub)) as [<-|Hne].
        -- rewrite lookup_insert_eq in Hins. cbn in Hins. subst b.
           right. split; [exists c; split; [left|done]|done].
        -- rewrite lookup_insert_ne in Hins by done. by left.
      * right. split; [|done]. exists c'. split; [by right|done].
    + cbn. split; [|split; [done|]].
      * apply prefix_cons, prefix_nil.
      * intros p a [=].
Qed.

Lemma filter_isQuery_skip (ev : Event) (t : list Event) :
  isQuery ev = false -> filter isQuery (ev :: t) = filter isQuery t.
Proof. intros H. apply filter_cons_False. rewrite H. by intros []. Qed.


Lemma runFieldCheckers_trace (l : list (FieldPermissionChecker Opaque))
  (perms : gmap string bool) o n :
  filter isQuery (trace (runFieldCheckers l perms o n)) = []
  ∧ ∀ name, NeutralizeCall name ∈ trace (runFieldCheckers l perms o n) ->
      ∃ c, c ∈ l ∧ Name c = name ∧ index_bool perms (Subresource c) = true.
Proof.
  revert o n. induction l as [|c rest IH]; intros o n.
  - cbn. split; [done|]. intros name Hin. by apply elem_of_nil in Hin.
  - cbn [runFieldCheckers]. rewrite bind_emit. cbn [trace].
    destruct (HasChanged c o n) as [[|]|]; cbn [deref].
    + rewrite bind_ret_l.
      destruct (index_bool perms (Subresource c)) eqn:Hg.
      * rewrite bind_emit. cbn [trace].
        destruct (IH (Neutralize c o n).1 (Neutralize c o n).2) as [Hq Hn].
        split; [by rewrite !filter_isQuery_skip by done|].
        intros name Hin.
        apply elem_of_cons in Hin as [[=]|Hin].
        apply elem_of_cons in Hin as [[= ->]|Hin].
        -- exists c. split; [left|done].
        -- destruct (Hn name Hin) as (c' & Hc' & ?). exists c'. split; [by right|done].
      * destruct (IH o n) as [Hq Hn].
        split; [by rewrite filter_isQuery_skip by done|].
        intros name Hin. apply elem_of_cons in Hin as [[=]|Hin].
        destruct (Hn name Hin) as (c' & Hc' & ?). exists c'. split; [by right|done].
    + rewrite bind_ret_l. destruct (IH o n) as [Hq Hn].
      split; [by rewrite filter_isQuery_skip by done|].
      intros name Hin. apply elem_of_cons in Hin as [[=]|Hin].
      destruct (Hn name Hin) as (c' & Hc' & ?). exists c'. split; [by right|done].
    + cbn. split; [done|]. intros name Hin.
      apply elem_of_cons in Hin as [[=]|Hin]. by apply elem_of_nil in Hin.
Qed.

Lemma residualVerdict_trace (o n : VirtualMachine Opaque) :
  trace (residualVerdict o n) = [NormalizeSystemMetadataCall].
Proof.
  unfold residualVerdict. rewrite bind_emit. cbn [trace]. f_equal.
  unfold DeepEqual. repeat (case_match; try done).
Qed.

Lemma queries_filter (ns nm : string) (l : list (FieldPermissionChecker Opaque))
  (t : list Event) :
  t `prefix_of` map (fun c => CheckPermissionCall ns nm (Subresource c)) l ->
  filter isQuery t = t.
Proof.
  intros [k Hk]. apply filter_all. intros ev Hev.
  assert (Hin : ev ∈ map (fun c => CheckPermissionCall ns nm (Subresource c)) l)
    by (rewrite Hk; apply elem_of_app; by left).
  apply list_elem_of_fmap in Hin as (c & -> & _). done.
Qed.

Lemma afterFullAdmin_run (v : VirtualMachineCustomValidator Opaque) (req : Request Opaque)
  oldVM newVM :
  filter isQuery (trace (afterFullAdmin v req oldVM newVM))
    `prefix_of` map (fun c => queryEvent newVM (Subresource c)) (FieldCheckers v)
  ∧ ∀ name, NeutralizeCall name ∈ trace (afterFullAdmin v req oldVM newVM) ->
      CheckPermission (Validator_PermissionChecker v) (Request_UserInfo req)
        (GetNamespace newVM) (GetName newVM) "virtualmachines/full-admin" = Answer false
      ∧ ∃ c, c ∈ FieldCheckers v ∧ Name c = name
             ∧ CheckPermission (Validator_PermissionChecker v) (Request_UserInfo req)
                 (GetNamespace newVM) (GetName newVM) (Subresource c) = Answer true.
Proof.
  unfold afterFullAdmin.
  destruct (CheckPermission _ _ _ _ "virtualmachines/full-admin") as [[|]|err] eqn:Hfa.
  - cbn. split; [apply prefix_nil|]. intros name Hin. by apply elem_of_nil in Hin.
  - destruct (checkSubresources_run (Validator_PermissionChecker v) (Request_UserInfo req)
                (GetNamespace newVM) (GetName newVM) (FieldCheckers v) ∅ false)
      as (Hpre & Hnf & Hval).
    rewrite trace_bind.
    destruct (result (checkSubresources _ _ _ _ _ _ _)) as [[p a]| |] eqn:Hres.
    + destruct (Hval p a eq_refl) as [Htr Hp]. rewrite Htr. cbn [fst snd].
      destruct a; cbn [negb].
      * rewrite bind_emit. cbn [trace]. rewrite trace_bind.
        destruct (runFieldCheckers_trace (FieldCheckers v) p oldVM newVM) as [Hq Hn].
        split.
        -- rewrite filter_app.
           rewrite (queries_filter (GetNamespace newVM) (GetName newVM) (FieldCheckers v))
             by done.
           rewrite filter_isQuery_skip, filter_app, Hq by done.
           destruct (result (runFieldCheckers _ _ _ _)) as [[o' n']| |]; cbn [fst snd];
             rewrite ?residualVerdict_trace; cbn; by rewrite app_nil_r.
        -- intros name Hin. split; [done|].
           apply elem_of_app in Hin as [Hin|Hin].
           { apply list_elem_of_fmap in Hin as (c & [=] & _). }
           apply elem_of_cons in Hin as [[=]|Hin].
           apply elem_of_app in Hin as [Hin|Hin].
           ++ destruct (Hn name Hin) as (c & Hc & Hname & Hg).
              exists c. split; [done|]. split; [done|].
              destruct (Hp _ Hg) as [Hempty|[_ ?]]; [|done].
              unfold index_bool in Hempty. by rewrite lookup_empty in Hempty.
           ++ destruct (result (runFieldCheckers _ _ _ _)) as [[o' n']| |];
                cbn [fst snd] in Hin; rewrite ?residualVerdict_trace in Hin.
              ** apply elem_of_cons in Hin as [[=]|Hin]. by apply elem_of_nil in Hin.
              ** by apply elem_of_nil in Hin.
              ** by apply elem_of_nil in Hin.
      * cbn. rewrite app_nil_r. split.
        -- by rewrite (queries_filter (GetNamespace newVM) (GetName newVM)
                         (FieldCheckers v)).
        -- intros name Hin. apply list_elem_of_fmap in Hin as (c & [=] & _).
    + rewrite app_nil_r. split.
      * by rewrite (queries_filter (GetNamespace newVM) (GetName newVM)
                      (FieldCheckers v)).
      * intros name Hin.
        assert (Hin' : NeutralizeCall name ∈
                  map (fun c => CheckPermissionCall (GetNamespace newVM) (GetName newVM)
                                  (Subresource c)) (FieldCheckers v)).
        { destruct Hpre as [k ->]. apply elem_of_app. by left. }
        apply list_elem_of_fmap in Hin' as (c & [=] & _).
    + done.
  - cbn. split; [apply prefix_nil|]. intros name Hin. by apply elem_of_nil in Hin.
Qed.

(** X8: between snapshots with a template, an update that leaves [Spec] as
    it is and changes only system-managed metadata or the status is allowed
    to every actor, whatever the oracle answers, as long as it answers. *)
Theorem system_metadata_update_allowed (pc : PermissionChecker Opaque)
  (ctx : Context Opaque) (req : Request Opaque) oldVM newVM
  (fullAdmin : bool) (grant : string -> bool) :
  RequestFromContext ctx = inl req ->
  CheckPermission pc (Request_UserInfo req) (GetNamespace newVM) (GetName newVM)
    "virtualmachines/full-admin" = Answer fullAdmin ->
  (∀ c : FieldPermissionChecker Opaque, c ∈ SetupFieldCheckers ->
     CheckPermission pc (Request_UserInfo req) (GetNamespace newVM) (GetName newVM)
       (Subresource c) = Answer (grant (Subresource c))) ->
  withTemplates oldVM newVM ->
  VM_Spec oldVM = VM_Spec newVM ->
  metadataUnchanged oldVM newVM ->
  result (ValidateUpdate (SetupValidator pc) ctx (VirtualMachineObject oldVM)
            (VirtualMachineObject newVM)) = Val tt.
Proof.
  intros Hreq Hfa Hans Hwt Hspec Hmeta.
  destruct fullAdmin.
  { rewrite (ValidateUpdate_unfold _ ctx req) by done. cbn [result].
    unfold afterFullAdmin. cbn [Validator_PermissionChecker SetupValidator].
    by rewrite Hfa. }
  destruct (anyGranted grant (@SetupFieldCheckers Opaque _)) eqn:Hany.
  - apply existsb_exists in Hany as (g & Hg%list_elem_of_In & Hgrant).
    apply (setup_verdict pc ctx req oldVM newVM grant); eauto.
    split; [done|]. split; [|split].
    + unfold unownedPart, VM_Template. by rewrite Hspec.
    + intros c Hc Hch.
      rewrite HasChanged_same_spec in Hch; [done|by apply Independent_configured|done..].
    + right. left.
      apply (HasChanged_same_spec StoragePermissionChecker); [|done..].
      by apply Hierarchical_configured, list_elem_of_further, list_elem_of_here.
  - rewrite (ValidateUpdate_unfold _ ctx req) by done. cbn [result].
    unfold afterFullAdmin.
    cbn [Validator_PermissionChecker FieldCheckers SetupValidator].
    rewrite Hfa, (checkSubresources_answers pc _ _ _ grant) by done.
    rewrite result_bind. cbn [result fst snd orb]. by rewrite Hany.
Qed.


(** X10: [Neutralize] is called only for a configured checker whose token
    the oracle granted in this very request, and only for an actor without
    full-admin. *)
Theorem neutralize_only_when_granted (v : VirtualMachineCustomValidator Opaque)
  (ctx : Context Opaque) oldVM newVM (name : string) :
  NeutralizeCall name
    ∈ trace (ValidateUpdate v ctx (VirtualMachineObject oldVM)
               (VirtualMachineObject newVM)) ->
  ∃ req c,
    RequestFromContext ctx = inl req
    ∧ c ∈ FieldCheckers v ∧ Name c = name
    ∧ CheckPermission (Validator_PermissionChecker v) (Request_UserInfo req)
        (GetNamespace newVM) (GetName newVM) (Subresource c) = Answer true
    ∧ CheckPermission (Validator_PermissionChecker v) (Request_UserInfo req)
        (GetNamespace newVM) (GetName newVM) "virtualmachines/full-admin" = Answer false.
Proof.
  destruct (RequestFromContext ctx) as [req|err] eqn:Hreq.
  - rewrite (ValidateUpdate_unfold v ctx req) by done. cbn [trace]. intros Hin.
    apply elem_of_cons in Hin as [[=]|Hin].
    apply elem_of_cons in Hin as [[=]|Hin].
    destruct (afterFullAdmin_run v req oldVM newVM) as [_ Hn].
    destruct (Hn name Hin) as (Hfa & c & Hc & Hname & Hg).
    exists req, c. done.
  - rewrite (ValidateUpdate_no_request v ctx err) by done. cbn. intros Hin.
    apply elem_of_cons in Hin as [[=]|Hin]. by apply elem_of_nil in Hin.
Qed.

(** X11: with a template in both snapshots the configured validator never
    panics: for every context and every oracle, answering or failing, it
    returns Allow or an error. *)
Theorem validation_total_with_templates (pc : PermissionChecker Opaque)
  (ctx : Context Opaque) oldVM newVM :
  withTemplates oldVM newVM ->
  result (ValidateUpdate (SetupValidator pc) ctx (VirtualMachineObject oldVM)
            (VirtualMachineObject newVM)) ≠ Fault.
Proof.
  intros Hwt.
  destruct (RequestFromContext ctx) as [req|err] eqn:Hreq.
  - rewrite (ValidateUpdate_unfold _ ctx req) by done. cbn [result].
    unfold afterFullAdmin. cbn [Validator_PermissionChecker FieldCheckers SetupValidator].
    destruct (CheckPermission _ _ _ _ "virtualmachines/full-admin") as [[|]|?]; try done.
    destruct (checkSubresources_run pc (Request_UserInfo req) (GetNamespace newVM)
                (GetName newVM) SetupFieldCheckers ∅ false) as (_ & Hnf & _).
    rewrite result_bind.
    destruct (result (checkSubresources _ _ _ _ _ _ _)) as [[p a]| |]; try done.
    cbn [fst snd]. destruct a; cbn [negb]; [|done].
    rewrite bind_emit. cbn [result].
    destruct (loop_verdict IndependentCheckers HierarchicalCheckers p oldVM newVM
                independentOrder_configured (or_introl eq_refl) Hwt)
      as (o' & n' & Hres & _).
    change (@SetupFieldCheckers Opaque _) with
      (@IndependentCheckers Opaque _ ++ HierarchicalCheckers).
    rewrite Hres, residualVerdict_result. by repeat case_decide.
  - by rewrite (ValidateUpdate_no_request _ ctx err).
Qed.

Lemma checkSubresources_ext (pc1 pc2 : PermissionChecker Opaque) ui1 ui2 ns nm
  (l : list (FieldPermissionChecker Opaque)) perms any :
  (∀ c, c ∈ l -> CheckPermission pc1 ui1 ns nm (Subresource c)
                 = CheckPermission pc2 ui2 ns nm (Subresource c)) ->
  checkSubresources pc1 ui1 ns nm l perms any = checkSubresources pc2 ui2 ns nm l perms any.
Proof.
  revert perms any. induction l as [|c rest IH]; intros perms any Hext; [done|].
  cbn [checkSubresources]. rewrite !call_bind, <- (Hext c) by left.
  destruct (CheckPermission pc1 ui1 ns nm (Subresource c)); [|done].
  rewrite IH; [done|]. intros c' Hc'. apply Hext. by right.
Qed.

Lemma ValidateUpdate_ext (v1 v2 : VirtualMachineCustomValidator Opaque)
  (ctx1 ctx2 : Context Opaque) (req1 req2 : Request Opaque) oldVM newVM :
  RequestFromContext ctx1 = inl req1 -> RequestFromContext ctx2 = inl req2 ->
  FieldCheckers v1 = FieldCheckers v2 ->
  (∀ sub, sub = "virtualmachines/full-admin"
          ∨ (∃ c, c ∈ FieldCheckers v1 ∧ Subresource c = sub) ->
     CheckPermission (Validator_PermissionChecker v1) (Request_UserInfo req1)
       (GetNamespace newVM) (GetName newVM) sub
     = CheckPermission (Validator_PermissionChecker v2) (Request_UserInfo req2)
         (GetNamespace newVM) (GetName newVM) sub) ->
  ValidateUpdate v1 ctx1 (VirtualMachineObject oldVM) (VirtualMachineObject newVM)
  = ValidateUpdate v2 ctx2 (VirtualMachineObject oldVM) (VirtualMachineObject newVM).
Proof.
  intros Hreq1 Hreq2 Hlist Hext.
  rewrite (ValidateUpdate_unfold v1 ctx1 req1), (ValidateUpdate_unfold v2 ctx2 req2) by done.
  enough (afterFullAdmin v1 req1 oldVM newVM = afterFullAdmin v2 req2 oldVM newVM)
    as -> by done.
  unfold afterFullAdmin. rewrite <- Hext by (by left). rewrite <- Hlist.
  destruct (CheckPermission _ _ _ _ "virtualmachines/full-admin") as [[|]|?]; try done.
  rewrite (checkSubresources_ext (Validator_PermissionChecker v1)
             (Validator_PermissionChecker v2) (Request_UserInfo req1)
             (Request_UserInfo req2)); [done|].
  intros c Hc. apply Hext. right. by exists c.
Qed.

(** X12: with the production oracle the whole run is decided by what the
    API server answers to the access reviews for verb update, group
    kubevirt.io, the new object's namespace and name, and the subresources
    full-admin and the configured checkers' ones: two servers, or two users,
    that agree on these reviews get the same run. *)
Theorem access_reviews_decide (l : list (FieldPermissionChecker Opaque))
  (Create1 Create2 : SubjectAccessReview Opaque -> bool + string)
  (ctx1 ctx2 : Context Opaque) (req1 req2 : Request Opaque) oldVM newVM :
  RequestFromContext ctx1 = inl req1 -> RequestFromContext ctx2 = inl req2 ->
  (∀ sub, sub = "virtualmachines/full-admin" ∨ (∃ c, c ∈ l ∧ Subresource c = sub) ->
     Create1 (reviewOf (Request_UserInfo req1) (GetNamespace newVM) (GetName newVM) sub)
     = Create2 (reviewOf (Request_UserInfo req2) (GetNamespace newVM) (GetName newVM) sub)) ->
  ValidateUpdate
    {| FieldCheckers := l;
       Validator_PermissionChecker := SubjectAccessReviewPermissionChecker Create1 |}
    ctx1 (VirtualMachineObject oldVM) (VirtualMachineObject newVM)
  = ValidateUpdate
      {| FieldCheckers := l;
         Validator_PermissionChecker := SubjectAccessReviewPermissionChecker Create2 |}
      ctx2 (VirtualMachineObject oldVM) (VirtualMachineObject newVM).
Proof.
  intros Hreq1 Hreq2 Hext.
  apply (ValidateUpdate_ext _ _ ctx1 ctx2 req1 req2); try done.
  intros sub Hsub. cbn. by rewrite Hext.
Qed.

(** X13: the [Extra] attributes of the user are not forwarded to the access
    review: two requests by users with the same name, UID and groups get the
    same run from the production oracle, whatever their [Extra] is. *)
Theorem user_extra_ignored (l : list (FieldPermissionChecker Opaque))
  (Create : SubjectAccessReview Opaque -> bool + string)
  (ctx1 ctx2 : Context Opaque) (req1 req2 : Request Opaque) oldVM newVM :
  RequestFromContext ctx1 = inl req1 -> RequestFromContext ctx2 = inl req2 ->
  UserInfo_Username (Request_UserInfo req1) = UserInfo_Username (Request_UserInfo req2) ->
  UserInfo_UID (Request_UserInfo req1) = UserInfo_UID (Request_UserInfo req2) ->
  UserInfo_Groups (Request_UserInfo req1) = UserInfo_Groups (Request_UserInfo req2) ->
  ValidateUpdate
    {| FieldCheckers := l;
       Validator_PermissionChecker := SubjectAccessReviewPermissionChecker Create |}
    ctx1 (VirtualMachineObject oldVM) (VirtualMachineObject newVM)
  = ValidateUpdate
      {| FieldCheckers := l;
         Validator_PermissionChecker := SubjectAccessReviewPermissionChecker Create |}
      ctx2 (VirtualMachineObject oldVM) (VirtualMachineObject newVM).
Proof.
  intros Hreq1 Hreq2 Hname Huid Hgroups.
  apply (ValidateUpdate_ext _ _ ctx1 ctx2 req1 req2); try done.
  intros sub _. cbn. unfold reviewOf. by rewrite Hname, Huid, Hgroups.
Qed.

(** X14: when the API server fails to create an access review, the
    production oracle wraps the error and [ValidateUpdate] wraps it again and
    stops there: for the full-admin review, and for the review of a checker
    after the earlier reviews were created. *)
Theorem access_review_failure_surfaces (l : list (FieldPermissionChecker Opaque))
  (Create : SubjectAccessReview Opaque -> bool + string)
  (ctx : Context Opaque) (req : Request Opaque) oldVM newVM :
  RequestFromContext ctx = inl req ->
  let review := reviewOf (Request_UserInfo req) (GetNamespace newVM) (GetName newVM) in
  let run := ValidateUpdate
               {| FieldCheckers := l;
                  Validator_PermissionChecker :=
                    SubjectAccessReviewPermissionChecker Create |}
               ctx (VirtualMachineObject oldVM) (VirtualMachineObject newVM) in
  (∀ err, Create (review "virtualmachines/full-admin") = inr err ->
     run = Run [logUpdate newVM; queryEvent newVM "virtualmachines/full-admin"]
             (Exc ("failed to check 'virtualmachines/full-admin' permission: "
                   +:+ "failed to create SubjectAccessReview: " +:+ err)))
  ∧ (∀ pre c post err,
       l = pre ++ c :: post ->
       Create (review "virtualmachines/full-admin") = inl false ->
       (∀ c', c' ∈ pre -> ∃ b, Create (review (Subresource c')) = inl b) ->
       Create (review (Subresource c)) = inr err ->
       run = Run (logUpdate newVM :: queryEvent newVM "virtualmachines/full-admin"
                    :: map (fun c => queryEvent newVM (Subresource c)) (pre ++ [c]))
               (Exc ("failed to check " +:+ Name c +:+ " permission: "
                     +:+ "failed to create SubjectAccessReview: " +:+ err))).
Proof.
  intros Hreq review run. subst review run. split.
  - intros err Hfail. rewrite (ValidateUpdate_unfold _ ctx req) by done.
    unfold afterFullAdmin. cbn [Validator_PermissionChecker CheckPermission
      SubjectAccessReviewPermissionChecker]. by rewrite Hfail.
  - intros pre c post err -> Hfa Hpre Hfail.
    rewrite (ValidateUpdate_unfold _ ctx req) by done.
    unfold afterFullAdmin. cbn [Validator_PermissionChecker FieldCheckers].
    cbn [CheckPermission SubjectAccessReviewPermissionChecker]. rewrite Hfa.
    rewrite (checkSubresources_failure _ _ _ _ pre c post
               ("failed to create SubjectAccessReview: " +:+ err)).
    + reflexivity.
    + intros c' Hc'. destruct (Hpre c' Hc') as [b Hb]. exists b. cbn. by rewrite Hb.
    + cbn. by rewrite Hfail.
Qed.

(** ** Metadata normalisation *)

(** X15: [normalizeSystemMetadata] makes two metadata blocks equal exactly
    when they agree on name, generateName, namespace, labels, annotations,
    owner references and finalizers; it keeps these seven fields and is
    idempotent. *)
Theorem normalizeSystemMetadata_spec (oldMeta newMeta : ObjectMeta Opaque) :
  let metas := normalizeSystemMetadata oldMeta newMeta in
  (metas.1 = metas.2 <->
     ObjectMeta_Name oldMeta = ObjectMeta_Name newMeta
     ∧ ObjectMeta_GenerateName oldMeta = ObjectMeta_GenerateName newMeta
     ∧ ObjectMeta_Namespace oldMeta = ObjectMeta_Namespace newMeta
     ∧ ObjectMeta_Labels oldMeta = ObjectMeta_Labels newMeta
     ∧ ObjectMeta_Annotations oldMeta = ObjectMeta_Annotations newMeta
     ∧ ObjectMeta_OwnerReferences oldMeta = ObjectMeta_OwnerReferences newMeta
     ∧ ObjectMeta_Finalizers oldMeta = ObjectMeta_Finalizers newMeta)
  ∧ normalizeSystemMetadata metas.1 metas.2 = metas
  ∧ (ObjectMeta_Name metas.1, ObjectMeta_GenerateName metas.1, ObjectMeta_Namespace metas.1,
     ObjectMeta_Labels metas.1, ObjectMeta_Annotations metas.1,
     ObjectMeta_OwnerReferences metas.1, ObjectMeta_Finalizers metas.1)
    = (ObjectMeta_Name oldMeta, ObjectMeta_GenerateName oldMeta,
       ObjectMeta_Namespace oldMeta, ObjectMeta_Labels oldMeta,
       ObjectMeta_Annotations oldMeta, ObjectMeta_OwnerReferences oldMeta,
       ObjectMeta_Finalizers oldMeta).
Proof.
  cbn. split; [|split]; [|reflexivity..].
  destruct oldMeta, newMeta; unfold normalizeOne; cbn. split.
  - intros [= -> -> -> -> -> -> ->]. done.
  - intros (-> & -> & -> & -> & -> & -> & ->). done.
Qed.

(** ** The helpers of the CD-ROM checker *)

Lemma cdromDiskNamesOf_loop (disks : list (Disk Opaque)) (init : gmap string bool) s :
  index_bool
    (foldl (fun names disk =>
              match Disk_CDRom disk with
              | Some _ => <[Disk_Name disk := true]> names
              | None => names
              end) init disks) s = true
  <-> (∃ disk, disk ∈ disks ∧ is_Some (Disk_CDRom disk) ∧ Disk_Name disk = s)
      ∨ index_bool init s = true.
Proof.
  revert init. induction disks as [|x l IH]; intros init; cbn [foldl].
  - split; [by right|]. intros [(d & Hd & _)|?]; [by apply elem_of_nil in Hd|done].
  - rewrite IH. destruct (Disk_CDRom x) as [cd|] eqn:Hcd.
    + unfold index_bool at 1.
      destruct (decide (Disk_Name x = s)) as [Heq|Hne].
      * rewrite Heq, lookup_insert_eq. cbn. split; [|by right].
        intros _. left. exists x. rewrite Hcd. split; [left|eauto].
      * rewrite lookup_insert_ne by done. fold (index_bool init s). split.
        -- intros [(d & Hd & Hrest)|?]; [|by right].
           left. exists d. split; [by right|done].
        -- intros [(d & Hd & Hsome & Hname)|?]; [|by right].
           apply elem_of_cons in Hd as [->|Hd]; [done|].
           left. by exists d.
    + split.
      * intros [(d & Hd & Hrest)|?]; [|by right].
        left. exists d. split; [by right|done].
      * intros [(d & Hd & Hsome & Hname)|?]; [|by right].
        apply elem_of_cons in Hd as [->|Hd].
        -- rewrite Hcd in Hsome. by destruct Hsome.
        -- left. by exists d.
Qed.

Lemma cdromDiskNamesOf_true (disks : list (Disk Opaque)) s :
  index_bool (cdromDiskNamesOf disks) s = true
  <-> ∃ disk, disk ∈ disks ∧ is_Some (Disk_CDRom disk) ∧ Disk_Name disk = s.
Proof.
  unfold cdromDiskNamesOf. rewrite cdromDiskNamesOf_loop.
  unfold index_bool at 1. rewrite lookup_empty. cbn.
  split; [by intros [?|?]|by left].
Qed.



Lemma Cdrom_HasChanged_nil_template o n :
  VM_Template o = None ∨ VM_Template n = None -> Cdrom_HasChanged o n = Some false.
Proof.
  intros Hnil. unfold Cdrom_HasChanged.
  destruct (DeepEqual (getCdromDisks o) (getCdromDisks n)) eqn:Hd; [|done].
  apply DeepEqual_eq in Hd. cbn [negb].
  enough (getHotpluggableCdromVolumes o = [] ∧ getHotpluggableCdromVolumes n = [])
    as [-> ->] by (by rewrite DeepEqual_refl).
  assert (Hempty : ∀ vm : VirtualMachine Opaque,
            getCdromDisks vm = [] -> getHotpluggableCdromVolumes vm = []).
  { intros vm Hvm. rewrite getHotpluggableCdromVolumes_filter.
    rewrite getCdromDisks_filter in Hvm.
    destruct (VM_Template vm) as [t|]; [|done].
    apply filter_none. intros v _ [Hname _].
    apply cdromDiskNamesOf_true in Hname as (disk & Hdisk & Hcd & _).
    by apply (filter_nil_not_elem_of _ _ disk Hvm). }
  assert (Hnone : ∀ vm : VirtualMachine Opaque,
            VM_Template vm = None -> getCdromDisks vm = [])
    by (intros vm Hvm; unfold getCdromDisks; by rewrite Hvm).
  destruct Hnil as [Hnil|Hnil]; pose proof (Hnone _ Hnil) as Hz.
  - split; apply Hempty; congruence.
  - split; apply Hempty; congruence.
Qed.

(** X18: when either snapshot has a nil template, the validation of every
    actor who holds a granular token and not full-admin ends in the
    nil-pointer panic of the storage checker, whatever the update is. *)
Theorem nil_template_granular_panics (pc : PermissionChecker Opaque)
  (ctx : Context Opaque) (req : Request Opaque) oldVM newVM (grant : string -> bool) :
  RequestFromContext ctx = inl req ->
  granularActor pc req newVM grant ->
  VM_Template oldVM = None ∨ VM_Template newVM = None ->
  result (ValidateUpdate (SetupValidator pc) ctx (VirtualMachineObject oldVM)
            (VirtualMachineObject newVM)) = Fault.
Proof.
  intros Hreq (Hfa & Hans & (g & Hg & Hgrant)) Hnil.
  rewrite (ValidateUpdate_granular (SetupValidator pc) ctx req oldVM newVM grant
             Hreq Hfa Hans (anyGranted_true _ _ g Hg Hgrant)).
  cbn [result FieldCheckers SetupValidator].
  set (perms := snapshotOf grant SetupFieldCheckers ∅). clearbody perms.
  unfold SetupFieldCheckers.
  assert (Hguard : ∀ c : FieldPermissionChecker Opaque,
            c ∈ [NetworkPermissionChecker; ComputePermissionChecker;
                 DevicesPermissionChecker] ->
            HasChanged c oldVM newVM = Some false).
  { intros c Hc.
    repeat (apply elem_of_cons in Hc as [->|Hc]); [..|by apply elem_of_nil in Hc];
      cbn; unfold Network_HasChanged, Compute_HasChanged, Devices_HasChanged;
      destruct Hnil as [-> | ->]; try done; by destruct (VM_Template oldVM). }
  rewrite result_run_cons, (Hguard NetworkPermissionChecker) by (repeat constructor).
  rewrite result_run_cons, (Hguard ComputePermissionChecker) by (repeat constructor).
  rewrite result_run_cons, (Hguard DevicesPermissionChecker) by (repeat constructor).
  assert (Htail : ∀ o n : VirtualMachine Opaque,
            VM_Template o = None ∨ VM_Template n = None ->
            result (runFieldCheckers [CdromUserPermissionChecker; StoragePermissionChecker]
                      perms o n ≫= (fun copies => residualVerdict copies.1 copies.2))
            = Fault).
  { intros o n Hon. rewrite result_run_cons.
    cbn [HasChanged CdromUserPermissionChecker].
    rewrite Cdrom_HasChanged_nil_template by done.
    rewrite result_run_cons. by rewrite Storage_HasChanged_nil_template. }
  rewrite result_run_cons.
  destruct (HasChanged LifecyclePermissionChecker oldVM newVM) as [[|]|]; [| |done].
  - destruct (index_bool perms (Subresource LifecyclePermissionChecker));
      apply Htail; done.
  - by apply Htail.
Qed.

End MoreProperties.

(** ** The further properties on the fixtures of the test suite *)

(** The mock oracle describes a granular actor as soon as it grants one
    configured token and not full-admin. *)
Lemma mock_granularActor (perms : gmap string bool) (req : Request nat)
  (newVM : VirtualMachine nat) (c : FieldPermissionChecker nat) :
  c ∈ SetupFieldCheckers ->
  index_bool perms (Subresource c) = true ->
  index_bool perms "virtualmachines/full-admin" = false ->
  granularActor (MockPermissionChecker perms false) req newVM (index_bool perms).
Proof.
  intros Hc Hg Hfa. split.
  - cbn. rewrite Hfa. reflexivity.
  - split.
    + intros c' _. reflexivity.
    + exists c. split; assumption.
Defined.

Lemma CdromUserPermissionChecker_configured :
  CdromUserPermissionChecker ∈ @SetupFieldCheckers nat _.
Proof. do 4 apply list_elem_of_further. apply list_elem_of_here. Defined.

Lemma LifecyclePermissionChecker_configured :
  LifecyclePermissionChecker ∈ @SetupFieldCheckers nat _.
Proof. do 3 apply list_elem_of_further. apply list_elem_of_here. Defined.

Lemma ComputePermissionChecker_independent :
  ComputePermissionChecker ∈ @IndependentCheckers nat _.
Proof. apply list_elem_of_further, list_elem_of_here. Defined.

Lemma compute_admin_actor (newVM : VirtualMachine nat) :
  granularActor (MockPermissionChecker {["virtualmachines/compute-admin" := true]} false)
    testRequest newVM (index_bool {["virtualmachines/compute-admin" := true]}).
Proof.
  apply (mock_granularActor _ _ _ ComputePermissionChecker).
  - exact ComputePermissionChecker_configured.
  - reflexivity.
  - reflexivity.
Defined.

Lemma storage_admin_actor (newVM : VirtualMachine nat) :
  granularActor (MockPermissionChecker {["virtualmachines/storage-admin" := true]} false)
    testRequest newVM (index_bool {["virtualmachines/storage-admin" := true]}).
Proof.
  apply (mock_granularActor _ _ _ StoragePermissionChecker).
  - exact StoragePermissionChecker_configured.
  - reflexivity.
  - reflexivity.
Defined.

Lemma cdrom_user_actor (newVM : VirtualMachine nat) :
  granularActor (MockPermissionChecker {["virtualmachines/cdrom-user" := true]} false)
    testRequest newVM (index_bool {["virtualmachines/cdrom-user" := true]}).
Proof.
  apply (mock_granularActor _ _ _ CdromUserPermissionChecker).
  - exact CdromUserPermissionChecker_configured.
  - reflexivity.
  - reflexivity.
Defined.

Lemma baseVM_withTemplates (a b : nat) : withTemplates (baseVM a) (baseVM b).
Proof. split; eexists; reflexivity. Defined.

(** [granular_verdict_characterisation] for a compute admin who changes the
    CPU. *)
Lemma granular_verdict_characterisation_witness :
  result (ValidateUpdate
            (SetupValidator
               (MockPermissionChecker {["virtualmachines/compute-admin" := true]} false))
            testCtx (VirtualMachineObject (baseVM 2)) (VirtualMachineObject (baseVM 4)))
  = Val tt.
Proof.
  apply (proj1 (granular_verdict_characterisation _ testCtx testRequest (baseVM 2)
                  (baseVM 4) (index_bool {["virtualmachines/compute-admin" := true]})
                  eq_refl (compute_admin_actor _) (baseVM_withTemplates 2 4))).
  split; [reflexivity|].
  split; [reflexivity|]. split.
  - intros c Hc Hch. unfold IndependentCheckers in Hc.
    repeat (apply elem_of_cons in Hc as [->|Hc]);
      [ .. | by apply elem_of_nil in Hc ];
      vm_compute in Hch; try discriminate Hch; reflexivity.
  - right. left. vm_compute. reflexivity.
Defined.

(** The CD-ROM token counts only when the CD-ROM checker reports a change:
    a second, not hotpluggable volume under the name of the drive leaves the
    media as they were, so the checker reports nothing and the CD-ROM user is
    denied, although the checker's [Neutralize] would have removed the
    volume. *)
Example cdrom_user_unreported_change_denied :
  HasChanged CdromUserPermissionChecker
    (cdromVM [isoVolume "ubuntu-iso"])
    (cdromVM [isoVolume "ubuntu-iso"; fixedCdromVolume]) = Some false
  ∧ VM_Spec (Cdrom_Neutralize (cdromVM [isoVolume "ubuntu-iso"])
               (cdromVM [isoVolume "ubuntu-iso"; fixedCdromVolume])).1
    = VM_Spec (Cdrom_Neutralize (cdromVM [isoVolume "ubuntu-iso"])
                 (cdromVM [isoVolume "ubuntu-iso"; fixedCdromVolume])).2
  ∧ result (ValidateUpdate (testValidator ["virtualmachines/cdrom-user"]) testCtx
              (VirtualMachineObject (cdromVM [isoVolume "ubuntu-iso"]))
              (VirtualMachineObject (cdromVM [isoVolume "ubuntu-iso"; fixedCdromVolume])))
    = Exc errSpec.
Proof. repeat split; vm_compute; reflexivity. Qed.

(** [grants_monotone]: what a compute admin may do, a compute and storage
    admin may do. *)
Lemma grants_monotone_witness :
  result (ValidateUpdate
            (SetupValidator
               (MockPermissionChecker
                  (<["virtualmachines/storage-admin" := true]>
                     {["virtualmachines/compute-admin" := true]}) false))
            testCtx (VirtualMachineObject (baseVM 2)) (VirtualMachineObject (baseVM 4)))
  = Val tt.
Proof.
  apply (grants_monotone
           (MockPermissionChecker {["virtualmachines/compute-admin" := true]} false)
           _ testCtx testRequest (baseVM 2) (baseVM 4)
           (index_bool {["virtualmachines/compute-admin" := true]})
           (index_bool (<["virtualmachines/storage-admin" := true]>
                          {["virtualmachines/compute-admin" := true]}))).
  - reflexivity.
  - exact (compute_admin_actor _).
  - apply (mock_granularActor _ _ _ ComputePermissionChecker).
    + exact ComputePermissionChecker_configured.
    + reflexivity.
    + reflexivity.
  - intros c Hc Hg. checker_cases Hc; vm_compute in Hg; try discriminate Hg; reflexivity.
  - exact (baseVM_withTemplates 2 4).
  - vm_compute. reflexivity.
Defined.

(** [single_category_authorized] for the compute checker and a change of the
    CPU. *)
Lemma single_category_authorized_witness :
  result (ValidateUpdate
            (SetupValidator
               (MockPermissionChecker {["virtualmachines/compute-admin" := true]} false))
            testCtx (VirtualMachineObject (baseVM 2)) (VirtualMachineObject (baseVM 4)))
  = Val tt.
Proof.
  apply (single_category_authorized _ testCtx testRequest (baseVM 2) (baseVM 4)
           (index_bool {["virtualmachines/compute-admin" := true]})
           ComputePermissionChecker).
  - reflexivity.
  - exact (compute_admin_actor _).
  - exact (baseVM_withTemplates 2 4).
  - exact ComputePermissionChecker_configured.
  - reflexivity.
  - vm_compute. reflexivity.
  - vm_compute. reflexivity.
  - reflexivity.
Defined.

(** [unauthorized_independent_category_denied]: a storage admin changes the
    CPU. *)
Lemma unauthorized_independent_category_denied_witness :
  result (ValidateUpdate
            (SetupValidator
               (MockPermissionChecker {["virtualmachines/storage-admin" := true]} false))
            testCtx (VirtualMachineObject (baseVM 2)) (VirtualMachineObject (baseVM 4)))
  = Exc errSpec.
Proof.
  apply (proj1 (unauthorized_independent_category_denied _ testCtx testRequest
                  (baseVM 2) (baseVM 4)
                  (index_bool {["virtualmachines/storage-admin" := true]})
                  ComputePermissionChecker eq_refl (storage_admin_actor _)
                  (baseVM_withTemplates 2 4) ComputePermissionChecker_independent
                  eq_refl eq_refl)).
  reflexivity.
Defined.

(** [unowned_fields_frozen]: a compute admin changes a field that no checker
    owns. *)
Lemma unowned_fields_frozen_witness :
  result (ValidateUpdate
            (SetupValidator
               (MockPermissionChecker {["virtualmachines/compute-admin" := true]} false))
            testCtx (VirtualMachineObject (baseVM 2)) (VirtualMachineObject otherFieldsVM))
  = Exc errSpec.
Proof.
  refine (proj1 (unowned_fields_frozen _ testCtx testRequest (baseVM 2) otherFieldsVM
                   (index_bool {["virtualmachines/compute-admin" := true]})
                   eq_refl (compute_admin_actor _) _ _) _).
  - split; eexists; reflexivity.
  - vm_compute. intros H. discriminate H.
  - reflexivity.
Defined.

(** [disks_need_storage_admin]: a CD-ROM user adds a CD-ROM drive. *)
Lemma disks_need_storage_admin_witness :
  result (ValidateUpdate
            (SetupValidator
               (MockPermissionChecker {["virtualmachines/cdrom-user" := true]} false))
            testCtx (VirtualMachineObject (baseVM 2))
            (VirtualMachineObject (cdromVM [volume1])))
  = Exc errSpec.
Proof.
  refine (proj1 (disks_need_storage_admin _ testCtx testRequest (baseVM 2)
                   (cdromVM [volume1])
                   (index_bool {["virtualmachines/cdrom-user" := true]})
                   (testTemplate 2 [disk1] [volume1])
                   (testTemplate 2 [disk1; cdromDisk] [volume1])
                   eq_refl (cdrom_user_actor _) eq_refl eq_refl _ eq_refl) _).
  - left. vm_compute. intros H. discriminate H.
  - reflexivity.
Defined.

(** [checker_order_irrelevant] for the validator that runs the checkers in
    another order, and a storage admin who injects a medium. *)
Lemma checker_order_irrelevant_witness :
  result (ValidateUpdate (reorderedValidator ["virtualmachines/storage-admin"]) testCtx
            (VirtualMachineObject (cdromVM [volume1]))
            (VirtualMachineObject (cdromVM [volume1; isoVolume "ubuntu-iso"])))
  = result (ValidateUpdate (testValidator ["virtualmachines/storage-admin"]) testCtx
              (VirtualMachineObject (cdromVM [volume1]))
              (VirtualMachineObject (cdromVM [volume1; isoVolume "ubuntu-iso"]))).
Proof.
  apply (checker_order_irrelevant (reorderedValidator ["virtualmachines/storage-admin"])
           testCtx testRequest _ _
           (index_bool {["virtualmachines/storage-admin" := true]})
           [ LifecyclePermissionChecker; DevicesPermissionChecker;
             ComputePermissionChecker; NetworkPermissionChecker ]
           [ StoragePermissionChecker; CdromUserPermissionChecker ]).
  - reflexivity.
  - split; [|split].
    + intros c Hc. unfold IndependentCheckers.
      repeat (apply elem_of_cons in Hc as [->|Hc]);
        [ .. | by apply elem_of_nil in Hc ].
      * do 3 apply list_elem_of_further. apply list_elem_of_here.
      * do 2 apply list_elem_of_further. apply list_elem_of_here.
      * apply list_elem_of_further, list_elem_of_here.
      * apply list_elem_of_here.
    + apply (bool_decide_unpack _). vm_compute. exact I.
    + intros c Hc. unfold IndependentCheckers in Hc.
      repeat (apply elem_of_cons in Hc as [->|Hc]);
        [ .. | by apply elem_of_nil in Hc ].
      * do 3 apply list_elem_of_further. apply list_elem_of_here.
      * do 2 apply list_elem_of_further. apply list_elem_of_here.
      * apply list_elem_of_further, list_elem_of_here.
      * apply list_elem_of_here.
  - right. reflexivity.
  - reflexivity.
  - exact (storage_admin_actor _).
  - split; eexists; reflexivity.
Defined.

(** [system_metadata_update_allowed]: the API server's own bookkeeping on
    the object of a compute admin. *)
Lemma system_metadata_update_allowed_witness :
  result (ValidateUpdate
            (SetupValidator
               (MockPermissionChecker {["virtualmachines/compute-admin" := true]} false))
            testCtx (VirtualMachineObject (baseVM 2)) (VirtualMachineObject resyncedVM))
  = Val tt.
Proof.
  apply (system_metadata_update_allowed _ testCtx testRequest (baseVM 2) resyncedVM
           false (index_bool {["virtualmachines/compute-admin" := true]})).
  - reflexivity.
  - reflexivity.
  - intros c _. reflexivity.
  - split; eexists; reflexivity.
  - reflexivity.
  - reflexivity.
Defined.

(** [neutralize_only_when_granted] on the run of a compute admin who changes
    the CPU. *)
Lemma neutralize_only_when_granted_witness :
  ∃ req c,
    RequestFromContext testCtx = inl req
    ∧ c ∈ FieldCheckers (testValidator ["virtualmachines/compute-admin"])
    ∧ Name c = "compute"
    ∧ CheckPermission
        (Validator_PermissionChecker (testValidator ["virtualmachines/compute-admin"]))
        (Request_UserInfo req) (GetNamespace (baseVM 4)) (GetName (baseVM 4))
        (Subresource c) = Answer true
    ∧ CheckPermission
        (Validator_PermissionChecker (testValidator ["virtualmachines/compute-admin"]))
        (Request_UserInfo req) (GetNamespace (baseVM 4)) (GetName (baseVM 4))
        "virtualmachines/full-admin" = Answer false.
Proof.
  apply (neutralize_only_when_granted (testValidator ["virtualmachines/compute-admin"])
           testCtx (baseVM 2) (baseVM 4) "compute").
  apply (bool_decide_unpack _). vm_compute. exact I.
Defined.

(** [validation_total_with_templates] with an oracle that fails. *)
Lemma validation_total_with_templates_witness :
  result (ValidateUpdate (SetupValidator (MockPermissionChecker ∅ true)) testCtx
            (VirtualMachineObject (baseVM 2)) (VirtualMachineObject (baseVM 4)))
  ≠ Fault.
Proof.
  apply (validation_total_with_templates (MockPermissionChecker ∅ true) testCtx
           (baseVM 2) (baseVM 4)).
  exact (baseVM_withTemplates 2 4).
Defined.

(** [access_reviews_decide]: two API servers that differ only on a resource
    the webhook never asks about. *)
Lemma access_reviews_decide_witness :
  ValidateUpdate
    {| FieldCheckers := SetupFieldCheckers;
       Validator_PermissionChecker :=
         SubjectAccessReviewPermissionChecker
           (testCreate ["virtualmachines/compute-admin"]) |}
    testCtx (VirtualMachineObject (baseVM 2)) (VirtualMachineObject (baseVM 4))
  = ValidateUpdate
      {| FieldCheckers := SetupFieldCheckers;
         Validator_PermissionChecker :=
           SubjectAccessReviewPermissionChecker
             (testCreate ["virtualmachines/compute-admin"; "virtualmachines/migrate"]) |}
      testCtx (VirtualMachineObject (baseVM 2)) (VirtualMachineObject (baseVM 4)).
Proof.
  apply (access_reviews_decide SetupFieldCheckers _ _ testCtx testCtx testRequest
           testRequest (baseVM 2) (baseVM 4)).
  - reflexivity.
  - reflexivity.
  - intros sub [->|(c & Hc & <-)]; [vm_compute; reflexivity|].
    checker_cases Hc; vm_compute; reflexivity.
Defined.

(** [user_extra_ignored]: the same user with other [Extra] attributes. *)
Lemma user_extra_ignored_witness :
  ValidateUpdate
    {| FieldCheckers := SetupFieldCheckers;
       Validator_PermissionChecker :=
         SubjectAccessReviewPermissionChecker
           (testCreate ["virtualmachines/compute-admin"]) |}
    testCtx (VirtualMachineObject (baseVM 2)) (VirtualMachineObject (baseVM 4))
  = ValidateUpdate
      {| FieldCheckers := SetupFieldCheckers;
         Validator_PermissionChecker :=
           SubjectAccessReviewPermissionChecker
             (testCreate ["virtualmachines/compute-admin"]) |}
      {| RequestFromContext := inl extraRequest |}
      (VirtualMachineObject (baseVM 2)) (VirtualMachineObject (baseVM 4)).
Proof.
  apply (user_extra_ignored SetupFieldCheckers _ testCtx
           {| RequestFromContext := inl extraRequest |} testRequest extraRequest
           (baseVM 2) (baseVM 4)); reflexivity.
Defined.

(** [access_review_failure_surfaces]: the API server fails on the full-admin
    review, and on the review of the second checker. *)
Lemma access_review_failure_surfaces_witness :
  ValidateUpdate
    {| FieldCheckers := SetupFieldCheckers;
       Validator_PermissionChecker :=
         SubjectAccessReviewPermissionChecker
           (failingCreate "virtualmachines/full-admin") |}
    testCtx (VirtualMachineObject (baseVM 2)) (VirtualMachineObject (baseVM 4))
  = Run fullAdminEvents
      (Exc ("failed to check 'virtualmachines/full-admin' permission: "
            +:+ "failed to create SubjectAccessReview: " +:+ "connection refused"))
  ∧ ValidateUpdate
      {| FieldCheckers := SetupFieldCheckers;
         Validator_PermissionChecker :=
           SubjectAccessReviewPermissionChecker
             (failingCreate "virtualmachines/compute-admin") |}
      testCtx (VirtualMachineObject (baseVM 2)) (VirtualMachineObject (baseVM 4))
    = Run (fullAdminEvents
             ++ [CheckPermissionCall "default" "test-vm" "virtualmachines/network-admin";
                 CheckPermissionCall "default" "test-vm" "virtualmachines/compute-admin"])
        (Exc ("failed to check " +:+ "compute" +:+ " permission: "
              +:+ "failed to create SubjectAccessReview: " +:+ "connection refused")).
Proof.
  split.
  - apply (proj1 (access_review_failure_surfaces SetupFieldCheckers
                    (failingCreate "virtualmachines/full-admin") testCtx testRequest
                    (baseVM 2) (baseVM 4) eq_refl)).
    reflexivity.
  - apply (proj2 (access_review_failure_surfaces SetupFieldCheckers
                    (failingCreate "virtualmachines/compute-admin") testCtx testRequest
                    (baseVM 2) (baseVM 4) eq_refl)
             [NetworkPermissionChecker] ComputePermissionChecker
             [DevicesPermissionChecker; LifecyclePermissionChecker;
              CdromUserPermissionChecker; StoragePermissionChecker]).
    + reflexivity.
    + reflexivity.
    + intros c' Hc'. exists false.
      apply elem_of_cons in Hc' as [->|Hc']; [reflexivity|by apply elem_of_nil in Hc'].
    + reflexivity.
Defined.



(** [nil_template_granular_panics]: a lifecycle admin starts a VM without a
    template. *)
Lemma nil_template_granular_panics_witness :
  result (ValidateUpdate
            (SetupValidator
               (MockPermissionChecker {["virtualmachines/lifecycle-admin" := true]} false))
            testCtx (VirtualMachineObject (noTemplateVM None))
            (VirtualMachineObject (noTemplateVM (Some true))))
  = Fault.
Proof.
  apply (nil_template_granular_panics _ testCtx testRequest (noTemplateVM None)
           (noTemplateVM (Some true))
           (index_bool {["virtualmachines/lifecycle-admin" := true]})).
  - reflexivity.
  - apply (mock_granularActor _ _ _ LifecyclePermissionChecker).
    + exact LifecyclePermissionChecker_configured.
    + reflexivity.
    + reflexivity.
  - left. reflexivity.
Defined.
